(** * Conversational interview dialogue manager

  A shallow embedding of the interview dialogue manager of the
  ai-startup-evaluator:

  - [VoiceAgent]: backend/agents/voice_interview_agent.py (response analysis,
    rapport and coverage tracking, question generation, topic flow,
    [process_founder_response]);
  - [LiveText]: live_text_interview.py (the interactive loop with its
    stop-phrase handling and the final summary).

  Modelling conventions.
  - Python [str] values are [string]s; utterances are taken to be ASCII, so
    [str.lower] only moves 'A'..'Z' and [str.split]/[str.strip] treat the
    ASCII white space characters as separators.
  - Python [float] scores are rationals ([Q]); [round(x, n)] is rounding to
    [n] decimals with ties to even.  Every comparison the code makes
    against a literal threshold is made on the same rational.
  - Python [dict]s with string keys that are looked up with [.get] are
    association tables; the mutable insight dictionary of a session is a
    [gmap string bool].
  - A Python exception is an explicit [None]/[Error] result; where the
    source mutates the session before raising, the mutated session is
    still returned. *)

From Stdlib Require Import String Ascii QArith Qround Lia Lqa DecimalString.
From stdpp Require Import gmap strings list fin_maps.

Local Open Scope string_scope.

(** ** Strings as Python uses them *)

Module PyStr.

Definition is_upper (c : ascii) : bool :=
  (65 <=? nat_of_ascii c)%nat && (nat_of_ascii c <=? 90)%nat.

Definition lower_char (c : ascii) : ascii :=
  if is_upper c then ascii_of_nat (nat_of_ascii c + 32) else c.

(** [s.lower()] *)
Fixpoint lower (s : string) : string :=
  match s with
  | EmptyString => EmptyString
  | String c s' => String (lower_char c) (lower s')
  end.

(** White space for [split()] and [strip()]: TAB, LF, VT, FF, CR, the four
    separators FS..US and the space. *)
Definition is_space (c : ascii) : bool :=
  let n := nat_of_ascii c in
  ((9 <=? n)%nat && (n <=? 13)%nat) || ((28 <=? n)%nat && (n <=? 32)%nat).

Definition is_empty (s : string) : bool :=
  match s with EmptyString => true | _ => false end.

(** [s.split()]: the maximal runs of non-space characters. *)
Fixpoint split_from (cur s : string) : list string :=
  match s with
  | EmptyString => if is_empty cur then [] else [cur]
  | String c s' =>
      if is_space c
      then (if is_empty cur then split_from "" s' else cur :: split_from "" s')
      else split_from (cur ++ String c "") s'
  end.

Definition split (s : string) : list string := split_from "" s.

(** [sub in s] *)
Fixpoint contains (sub s : string) : bool :=
  match s with
  | EmptyString => is_empty sub
  | String _ s' => String.prefix sub s || contains sub s'
  end.

Fixpoint lstrip (s : string) : string :=
  match s with
  | EmptyString => EmptyString
  | String c s' => if is_space c then lstrip s' else s
  end.

Fixpoint rstrip (s : string) : string :=
  match s with
  | EmptyString => EmptyString
  | String c s' =>
      let r := rstrip s' in
      if is_empty r && is_space c then EmptyString else String c r
  end.

(** [s.strip()] *)
Definition strip (s : string) : string := rstrip (lstrip s).

(** [s.replace(a, b)] for single characters *)
Fixpoint replace_char (a b : ascii) (s : string) : string :=
  match s with
  | EmptyString => EmptyString
  | String c s' =>
      String (if Ascii.eqb c a then b else c) (replace_char a b s')
  end.

(** [x in l] for a list of strings *)
Definition mem (x : string) (l : list string) : bool :=
  existsb (String.eqb x) l.

(** [l.index(x)], [None] standing for [ValueError] *)
Fixpoint index (x : string) (l : list string) : option nat :=
  match l with
  | [] => None
  | y :: l' => if String.eqb y x then Some 0%nat else S <$> index x l'
  end.

(** [d.get(k)] on a literal dictionary *)
Fixpoint dict_get {V : Type} (k : string) (d : list (string * V)) : option V :=
  match d with
  | [] => None
  | (k', v) :: d' => if String.eqb k' k then Some v else dict_get k d'
  end.

(** [sum(1 for x in l if p(x))] *)
Definition count_if {A : Type} (p : A -> bool) (l : list A) : nat :=
  length (filter (fun x => p x = true) l).

End PyStr.

(** ** Floats as rationals *)

Module PyNum.

(** Nearest integer, ties to the even one. *)
Definition round_half_even (x : Q) : Z :=
  let f := Qfloor x in
  match (x - inject_Z f ?= 1 # 2)%Q with
  | Lt => f
  | Gt => (f + 1)%Z
  | Eq => if Z.even f then f else (f + 1)%Z
  end.

(** [round(x, ndigits)] *)
Definition round (x : Q) (ndigits : nat) : Q :=
  (inject_Z (round_half_even (x * inject_Z (10 ^ Z.of_nat ndigits)))
     / inject_Z (10 ^ Z.of_nat ndigits))%Q.

(** [min(x, 1.0)] *)
Definition min1 (x : Q) : Q := if Qle_bool x 1 then x else 1%Q.

Definition of_nat (n : nat) : Q := inject_Z (Z.of_nat n).

(** [x < y] and [x > y] on floats *)
Definition ltb (x y : Q) : bool := negb (Qle_bool y x).
Definition gtb (x y : Q) : bool := ltb y x.

(** [sum(l)] *)
Definition sum (l : list Q) : Q := foldr Qplus 0%Q l.

End PyNum.

(** ** backend/agents/voice_interview_agent.py *)

Module VoiceAgent.
Import PyStr.

Inductive Speaker := founder | interviewer.

Inductive QuestionType := follow_up | continuation | transition.

#[export] Instance Speaker_eq_dec : EqDecision Speaker.
Proof. solve_decision. Defined.

(** The dictionary returned by [analyze_response_content]. *)
Record Analysis := {
  word_count : nat;
  sentiment_score : Q;
  quality_score : Q;
  insights : gmap string bool;
  key_phrases : list string;
  needs_follow_up : bool
}.

(** An entry of [conversation_history].  Founder entries carry an
    analysis and the audio metadata, interviewer entries a question type. *)
Record Message := {
  msg_timestamp : string;
  msg_speaker : Speaker;
  msg_content : string;
  msg_topic : string;
  msg_analysis : option Analysis;
  msg_audio_metadata : option string;
  msg_question_type : option QuestionType
}.

(** The [session_data] dictionary. *)
Record Session := {
  session_id : string;
  startup_id : Z;
  founder_name : string;
  interview_type : string;
  start_time : string;
  current_topic : string;
  conversation_history : list Message;
  questions_asked : list string;
  follow_up_needed : list string;
  insights_gathered : gmap string bool;
  rapport_level : Q;
  energy_level : string
}.

(** The dictionaries returned by the question generators. *)
Record Interaction := {
  q_message : string;
  q_topic : string;
  q_type : QuestionType
}.

(** The dictionary returned by [calculate_interview_progress]. *)
Record Progress := {
  p_current_topic : string;
  progress_percentage : Q;
  elapsed_minutes : Q;
  topics_completed : nat;
  total_topics : nat;
  estimated_remaining_minutes : nat
}.

(** What [datetime.now()] yields during one call of
    [process_founder_response]. *)
Record Clock := {
  now_founder : string;
  now_interviewer : string;
  minutes_since_start : Q
}.

(** The dictionary returned by [process_founder_response]. *)
Inductive Result :=
| Success (next_message : string) (new_topic : string)
          (conversation_progress : Progress) (session_data : Session)
| Error.

(** In-place updates of [session_data]. *)
Definition set_conversation_history (h : list Message) (s : Session) : Session :=
  {| session_id := session_id s; startup_id := startup_id s;
     founder_name := founder_name s; interview_type := interview_type s;
     start_time := start_time s; current_topic := current_topic s;
     conversation_history := h; questions_asked := questions_asked s;
     follow_up_needed := follow_up_needed s;
     insights_gathered := insights_gathered s;
     rapport_level := rapport_level s; energy_level := energy_level s |}.

Definition set_insights_gathered (m : gmap string bool) (s : Session) : Session :=
  {| session_id := session_id s; startup_id := startup_id s;
     founder_name := founder_name s; interview_type := interview_type s;
     start_time := start_time s; current_topic := current_topic s;
     conversation_history := conversation_history s;
     questions_asked := questions_asked s;
     follow_up_needed := follow_up_needed s;
     insights_gathered := m;
     rapport_level := rapport_level s; energy_level := energy_level s |}.

Definition set_rapport_level (r : Q) (s : Session) : Session :=
  {| session_id := session_id s; startup_id := startup_id s;
     founder_name := founder_name s; interview_type := interview_type s;
     start_time := start_time s; current_topic := current_topic s;
     conversation_history := conversation_history s;
     questions_asked := questions_asked s;
     follow_up_needed := follow_up_needed s;
     insights_gathered := insights_gathered s;
     rapport_level := r; energy_level := energy_level s |}.

Definition set_current_topic (t : string) (s : Session) : Session :=
  {| session_id := session_id s; startup_id := startup_id s;
     founder_name := founder_name s; interview_type := interview_type s;
     start_time := start_time s; current_topic := t;
     conversation_history := conversation_history s;
     questions_asked := questions_asked s;
     follow_up_needed := follow_up_needed s;
     insights_gathered := insights_gathered s;
     rapport_level := rapport_level s; energy_level := energy_level s |}.

Definition generate_conversational_opening (founder_name interview_type : string) : string :=
  let openings := [
    ("comprehensive", "Hi " ++ founder_name ++ "! Thanks for taking the time to chat with me today. I'm really excited to learn more about what you're building. Before we dive in, how are you doing? And maybe you could start by telling me a bit about yourself and what inspired you to start this company?");
    ("screening", "Hello " ++ founder_name ++ "! Great to meet you. I've been looking forward to our conversation. I know your time is valuable, so I'd love to hear your story. Could you give me the elevator pitch - what's your company all about and what problem are you solving?");
    ("deep_dive", "Hi " ++ founder_name ++ "! Thanks for joining me for this deeper conversation about your company. I've reviewed some initial materials, and I'm impressed by what I've seen so far. I'd love to dig into the details with you. Shall we start with you telling me how the business has evolved since you first started?")
  ] in
  default ("Hi " ++ founder_name ++ "! Thanks for taking the time to chat with me today. I'm really excited to learn more about what you're building. Before we dive in, how are you doing? And maybe you could start by telling me a bit about yourself and what inspired you to start this company?")
          (dict_get interview_type openings).

(** [start_live_voice_interview]: the initial session and the opening
    message.  [stamp] and [iso] are the two renderings of the current
    time. *)
Definition start_live_voice_interview
    (startup_id : Z) (founder_name interview_type stamp iso : string)
  : Session * string :=
  ({| session_id := "voice_interview_"
                      ++ NilZero.string_of_int (Z.to_int startup_id)
                      ++ "_" ++ stamp;
      startup_id := startup_id;
      founder_name := founder_name;
      interview_type := interview_type;
      start_time := iso;
      current_topic := "introduction";
      conversation_history := [];
      questions_asked := [];
      follow_up_needed := [];
      insights_gathered := ∅;
      rapport_level := (1 # 2)%Q;
      energy_level := "medium" |},
   generate_conversational_opening founder_name interview_type).

(** *** Response analysis *)

Definition positive_words : list string :=
  ["excited"; "confident"; "growing"; "successful"; "strong"; "excellent";
   "passionate"; "love"; "amazing"; "fantastic"].

Definition negative_words : list string :=
  ["challenging"; "difficult"; "struggling"; "worried"; "concerned";
   "problem"; "issue"; "hard"; "tough"].

Definition positive_count (response_lower : string) : nat :=
  count_if (fun word => contains word response_lower) positive_words.

Definition negative_count (response_lower : string) : nat :=
  count_if (fun word => contains word response_lower) negative_words.

Definition insight_keywords : list (string * list string) :=
  [("business_model", ["revenue"; "pricing"; "customers"; "sales"; "subscription"; "b2b"; "b2c"]);
   ("market_opportunity", ["market"; "competitors"; "competition"; "differentiate"; "market share"; "tam"; "sam"]);
   ("traction_metrics", ["revenue"; "customers"; "retention"; "growth"; "metrics"; "kpi"; "mrr"; "arr"]);
   ("team_execution", ["team"; "founder"; "hiring"; "culture"; "experience"; "cto"; "ceo"]);
   ("financial_planning", ["burn rate"; "funding"; "runway"; "profitability"; "projections"; "cash"]);
   ("product_development", ["product"; "roadmap"; "feedback"; "technical"; "development"; "features"]);
   ("risks_challenges", ["risk"; "challenge"; "regulatory"; "competitor"; "problem"; "threat"]);
   ("vision_strategy", ["vision"; "strategy"; "expansion"; "partnership"; "future"; "exit"])].

Definition extract_topic_insights (response_lower current_topic : string)
  : gmap string bool :=
  let keywords := default [] (dict_get current_topic insight_keywords) in
  foldl (fun insights keyword =>
           if contains keyword response_lower
           then <[keyword := true]> insights else insights)
        ∅ keywords.

Definition business_phrases : list string :=
  ["product market fit"; "go to market"; "customer acquisition cost"; "lifetime value";
   "monthly recurring revenue"; "annual recurring revenue"; "burn rate"; "runway";
   "series a"; "series b"; "seed funding"; "venture capital"; "market size"].

Definition extract_key_phrases (response_lower : string) : list string :=
  filter (fun phrase => contains phrase response_lower = true) business_phrases.

Definition specificity_indicators : list string :=
  ["for example"; "specifically"; "$"; "%"; "customers"; "months"; "years"].

Definition assess_response_quality
    (response current_topic : string) (word_count : nat) : Q :=
  let length_score :=
    (if (word_count <? 20)%nat then 2 # 10
     else if (word_count <? 50)%nat then 6 # 10
     else if (word_count <=? 200)%nat then 1
     else 8 # 10)%Q in
  let specificity_count :=
    count_if (fun indicator => contains indicator (lower response))
             specificity_indicators in
  let specificity_score := PyNum.min1 (PyNum.of_nat specificity_count / 3)%Q in
  let quality_score :=
    (length_score * (4 # 10) + specificity_score * (6 # 10))%Q in
  PyNum.round quality_score 2.

Definition sentiment_of (positive_count negative_count : nat) : Q :=
  if (0 <? positive_count + negative_count)%nat
  then (PyNum.of_nat positive_count / PyNum.of_nat (positive_count + negative_count))%Q
  else (1 # 2)%Q.

(** [analyze_response_content].  Nothing in its body raises on a string,
    so the error dictionary of its [except] branch is never produced. *)
Definition analyze_response_content (response current_topic : string) : Analysis :=
  let response_lower := lower response in
  let word_count := length (split response) in
  let sentiment_score :=
    sentiment_of (positive_count response_lower) (negative_count response_lower) in
  let insights := extract_topic_insights response_lower current_topic in
  let quality_score := assess_response_quality response current_topic word_count in
  {| word_count := word_count;
     sentiment_score := sentiment_score;
     quality_score := quality_score;
     insights := insights;
     key_phrases := extract_key_phrases response_lower;
     needs_follow_up := PyNum.ltb quality_score (6 # 10)%Q || (word_count <? 20)%nat |}.

(** *** Rapport and coverage *)

Definition is_founder (msg : Message) : bool :=
  bool_decide (msg_speaker msg = founder).

Definition words_of (msg : Message) : nat := length (split (msg_content msg)).

Definition total_words (msgs : list Message) : nat :=
  foldr (fun msg n => (words_of msg + n)%nat) 0%nat msgs.

(** [msg.get("analysis", {}).get("sentiment_score", 0.5)] *)
Definition sentiment_or_default (msg : Message) : Q :=
  match msg_analysis msg with
  | Some a => sentiment_score a
  | None => (1 # 2)%Q
  end.

(** [calculate_rapport_level]; [None] is the [ZeroDivisionError] raised
    when a history of two or more entries has no founder entry. *)
Definition calculate_rapport_level (conversation_history : list Message) : option Q :=
  if (length conversation_history <? 2)%nat then Some (1 # 2)%Q
  else
    let founder_responses := filter (fun msg => is_founder msg = true) conversation_history in
    match founder_responses with
    | [] => None
    | _ :: _ =>
        let avg_response_length :=
          (PyNum.of_nat (total_words founder_responses)
             / PyNum.of_nat (length founder_responses))%Q in
        let length_score := PyNum.min1 (avg_response_length / 100)%Q in
        let sentiment_scores := sentiment_or_default <$> founder_responses in
        let avg_sentiment :=
          match sentiment_scores with
          | [] => (1 # 2)%Q
          | _ :: _ =>
              (PyNum.sum sentiment_scores / PyNum.of_nat (length sentiment_scores))%Q
          end in
        let rapport := (length_score * (4 # 10) + avg_sentiment * (6 # 10))%Q in
        Some (PyNum.round rapport 2)
    end.

Definition coverage_keywords : list (string * list string) :=
  [("business_model", ["revenue"; "pricing"; "customers"; "sales"]);
   ("market_opportunity", ["market"; "competitors"; "competition"; "differentiate"]);
   ("traction_metrics", ["revenue"; "customers"; "retention"; "growth"]);
   ("team_execution", ["team"; "founder"; "hiring"; "culture"]);
   ("financial_planning", ["burn rate"; "funding"; "runway"; "profitability"]);
   ("product_development", ["product"; "roadmap"; "feedback"; "technical"]);
   ("risks_challenges", ["risk"; "challenge"; "regulatory"; "competitor"]);
   ("vision_strategy", ["vision"; "strategy"; "expansion"; "partnership"])].

(** The founder entries recorded under [topic]. *)
Definition topic_messages (history : list Message) (topic : string) : list Message :=
  filter (fun msg => String.eqb (msg_topic msg) topic && is_founder msg = true) history.

(** [topic_insights.get(keyword, False)] *)
Definition flag_set (topic_insights : gmap string bool) (keyword : string) : bool :=
  default false (topic_insights !! keyword).

Definition covered_keywords (topic_insights : gmap string bool)
    (expected_keywords : list string) : nat :=
  count_if (flag_set topic_insights) expected_keywords.

Definition calculate_topic_coverage (session_data : Session) (topic : string) : Q :=
  let msgs := topic_messages (conversation_history session_data) topic in
  match msgs with
  | [] => 0%Q
  | _ :: _ =>
      let total := total_words msgs in
      let topic_insights := insights_gathered session_data in
      let expected_keywords := default [] (dict_get topic coverage_keywords) in
      let covered := covered_keywords topic_insights expected_keywords in
      let keyword_coverage :=
        match expected_keywords with
        | [] => 0%Q
        | _ :: _ => (PyNum.of_nat covered / PyNum.of_nat (length expected_keywords))%Q
        end in
      let word_score := PyNum.min1 (PyNum.of_nat total / 150)%Q in
      let coverage_score := (word_score * (4 # 10) + keyword_coverage * (6 # 10))%Q in
      PyNum.round coverage_score 2
  end.

(** *** Topic flow *)

Definition topic_flow : list string :=
  ["introduction"; "business_model"; "market_opportunity"; "traction_metrics";
   "team_execution"; "financial_planning"; "product_development";
   "risks_challenges"; "vision_strategy"].

Definition determine_next_topic (session_data : Session) : string :=
  match index (current_topic session_data) topic_flow with
  | Some current_index =>
      if (current_index <? length topic_flow - 1)%nat
      then default "" (topic_flow !! (current_index + 1)%nat)
      else "conclusion"
  | None => "business_model"
  end.

(** *** Question generation *)

Definition follow_ups (founder_name : string) : list (string * list string) :=
  [("introduction",
    ["That's fascinating, " ++ founder_name ++ "! Can you tell me more about that specific moment when you realized this was a problem worth solving?";
     "I love the passion I'm hearing! What was the 'aha moment' that made you think this could be a big business?";
     "That sounds like quite a journey! What's been the most surprising thing you've learned so far?"]);
   ("business_model",
    ["That's interesting! Can you walk me through a specific example of how that works in practice?";
     "I see! And how do your customers typically respond to that pricing model?";
     "Got it! What's been the biggest challenge in getting customers to adopt this approach?"]);
   ("market_opportunity",
    ["That market size sounds significant! How did you validate those numbers?";
     "Interesting positioning! Can you give me a concrete example of how you're different from [competitor]?";
     "That's a compelling opportunity! What gives you confidence you can capture that market share?"]);
   ("traction_metrics",
    ["Those are solid numbers! What's driving that growth specifically?";
     "That's impressive! Can you tell me about one of those customer success stories?";
     "Great progress! What's the story behind your best-performing customer segment?"])].

(** [follow_ups.get(current_topic, follow_ups["introduction"])] *)
Definition follow_up_bank (founder_name current_topic : string) : list string :=
  let table := follow_ups founder_name in
  default (default [] (dict_get "introduction" table)) (dict_get current_topic table).

(** [generate_follow_up_question]; [None] would be an exception from the
    indexing. *)
Definition generate_follow_up_question
    (session_data : Session) (response_analysis : Analysis) : option Interaction :=
  let current_topic := current_topic session_data in
  let topic_questions := follow_up_bank (founder_name session_data) current_topic in
  match topic_questions with
  | [] => None
  | _ :: _ =>
      question ← topic_questions
                   !! (length (questions_asked session_data) mod length topic_questions)%nat;
      Some {| q_message := question; q_topic := current_topic; q_type := follow_up |}
  end.

Definition transitions (founder_name : string) : list (string * string * string) :=
  [("introduction", "business_model",
    "Thanks for sharing that background, " ++ founder_name ++ "! Now I'd love to understand the business side better. How exactly do you make money? Walk me through your revenue model.");
   ("business_model", "market_opportunity",
    "That business model makes sense! Now let's talk about the market you're going after. How big is this opportunity, and who else is competing for it?");
   ("market_opportunity", "traction_metrics",
    "The market opportunity sounds compelling! I'm curious about the traction you're seeing. What does your growth look like so far?");
   ("traction_metrics", "team_execution",
    "Those metrics are encouraging! Let's talk about the team behind this growth. Tell me about your founding team and how you're thinking about scaling.");
   ("team_execution", "financial_planning",
    "Sounds like you have a strong team! Now let's get into the numbers. What's your current financial situation and funding needs?");
   ("financial_planning", "product_development",
    "Got it on the financials! I'd love to hear about your product roadmap. Where is the product heading next?");
   ("product_development", "risks_challenges",
    "Exciting product plans! Now, every business faces challenges. What keeps you up at night as a founder?");
   ("risks_challenges", "vision_strategy",
    "I appreciate your honesty about those challenges, " ++ founder_name ++ "! Let's end on a high note - where do you see this company in 5 years?")].

(** [transitions.get((current_topic, next_topic))] *)
Fixpoint pair_get (a b : string) (d : list (string * string * string)) : option string :=
  match d with
  | [] => None
  | (a', b', v) :: d' =>
      if String.eqb a' a && String.eqb b' b then Some v else pair_get a b d'
  end.

Definition generate_topic_transition
    (session_data : Session) (current_topic next_topic : string) : Interaction :=
  let message :=
    default ("Great! Now let's talk about " ++ replace_char "_" " " next_topic ++ ".")
            (pair_get current_topic next_topic (transitions (founder_name session_data))) in
  {| q_message := message; q_topic := next_topic; q_type := transition |}.

(** The ["questions"] table of [get_interview_questions]: for each topic
    its ["primary"] and its ["follow_ups"] bank. *)
Definition interview_questions : list (string * (list string * list string)) :=
  [("business_model",
    (["Walk me through how you make money. What's your revenue model?";
      "How do you price your product, and what's the thinking behind that strategy?";
      "Who exactly is your customer, and what problem are you solving for them?";
      "Tell me about your sales process. How do you actually get customers?"],
     ["Can you give me a specific example of that in action?";
      "How do customers typically respond to that approach?";
      "What's been the biggest surprise in your customer interactions?"]));
   ("market_opportunity",
    (["How big is this market, and how fast is it growing?";
      "Who are you competing against, and how are you different?";
      "What barriers exist to entering this market?";
      "How do you plan to win market share?"],
     ["How did you validate those market size numbers?";
      "Can you give me a concrete example of your differentiation?";
      "What gives you confidence in your competitive position?"]));
   ("traction_metrics",
    (["What do your revenue and growth numbers look like?";
      "How many customers do you have, and how sticky are they?";
      "What are your key metrics, and how are they trending?";
      "Can you share a customer success story that excites you?"],
     ["What's driving that specific growth?";
      "Tell me more about that customer's journey with you.";
      "What patterns do you see in your best customers?"]));
   ("team_execution",
    (["Tell me about your founding team and what you each bring to the table.";
      "What are your biggest hiring needs in the next year?";
      "How do you think about scaling your team and culture?";
      "What's your leadership philosophy as you grow?"],
     ["What's a specific example of how that experience has helped?";
      "How do you plan to maintain culture as you scale?";
      "What's been your biggest learning as a leader?"]));
   ("financial_planning",
    (["What's your current burn rate and runway situation?";
      "How much are you raising, and what will you use it for?";
      "What do your revenue projections look like?";
      "When do you expect to reach profitability?"],
     ["Walk me through the assumptions behind those projections.";
      "What's your biggest financial risk right now?";
      "How do you think about capital efficiency?"]));
   ("product_development",
    (["What's on your product roadmap for the next year?";
      "How do you gather and prioritize customer feedback?";
      "What are your biggest technical challenges?";
      "How do you know you have product-market fit?"],
     ["Can you give me an example of how customer feedback changed your product?";
      "What's a specific technical challenge you're proud of solving?";
      "What evidence do you have of product-market fit?"]));
   ("risks_challenges",
    (["What are the biggest risks to your business right now?";
      "What keeps you up at night as a founder?";
      "How would you handle a major competitor entering your space?";
      "What regulatory or market changes worry you most?"],
     ["How are you actively mitigating that risk?";
      "What would your response plan look like?";
      "How do you stay ahead of those potential challenges?"]));
   ("vision_strategy",
    (["Where do you see this company in 5 years?";
      "What's your long-term vision and potential exit strategy?";
      "How do you think about geographic or market expansion?";
      "What strategic partnerships are you pursuing?"],
     ["What needs to happen for that vision to become reality?";
      "How do you balance long-term vision with short-term execution?";
      "What would success look like from an investor's perspective?"]))].

(** The interviewer entries recorded under [topic]. *)
Definition interviewer_messages (history : list Message) (topic : string) : list Message :=
  filter (fun msg => String.eqb (msg_topic msg) topic
                     && bool_decide (msg_speaker msg = interviewer) = true) history.

(** [generate_topic_continuation]; [None] would be an exception from the
    indexing. *)
Definition generate_topic_continuation
    (session_data : Session) (current_topic : string) : option Interaction :=
  let entry := dict_get current_topic interview_questions in
  let topic_questions := match entry with Some (primary, _) => primary | None => [] end in
  let questions_asked_count :=
    length (interviewer_messages (conversation_history session_data) current_topic) in
  question ←
    (if (questions_asked_count <? length topic_questions)%nat
     then topic_questions !! questions_asked_count
     else
       let bank := match entry with
                   | Some (_, follow_ups) => follow_ups
                   | None => ["Can you tell me more about that?"]
                   end in
       match bank with
       | [] => None
       | _ :: _ => bank !! (questions_asked_count mod length bank)%nat
       end);
  Some {| q_message := question; q_topic := current_topic; q_type := continuation |}.

(** [generate_next_conversational_question]; [None] stands for its error
    dictionary, which has no ["message"] key. *)
Definition generate_next_conversational_question
    (session_data : Session) (response_analysis : Analysis) : option Interaction :=
  let current_topic := current_topic session_data in
  if needs_follow_up response_analysis
  then generate_follow_up_question session_data response_analysis
  else
    let topic_coverage := calculate_topic_coverage session_data current_topic in
    if PyNum.ltb topic_coverage (7 # 10)%Q
    then generate_topic_continuation session_data current_topic
    else
      let next_topic := determine_next_topic session_data in
      Some (generate_topic_transition session_data current_topic next_topic).

(** [calculate_interview_progress]; [None] is the [UnboundLocalError]
    raised when the current topic is not in the flow ([current_index] is
    then never assigned). *)
Definition calculate_interview_progress
    (session_data : Session) (minutes : Q) : option Progress :=
  let current_topic := current_topic session_data in
  match index current_topic topic_flow with
  | Some current_index =>
      Some {| p_current_topic := current_topic;
              progress_percentage :=
                PyNum.round (PyNum.of_nat current_index
                               / PyNum.of_nat (length topic_flow) * 100)%Q 1;
              elapsed_minutes := PyNum.round minutes 1;
              topics_completed := current_index;
              total_topics := length topic_flow;
              estimated_remaining_minutes :=
                ((length topic_flow - current_index) * 5)%nat |}
  | None => None
  end.

(** *** One exchange *)

Definition founder_message (now : string) (session_data : Session)
    (founder_response : string) (response_analysis : Analysis)
    (audio_metadata : option string) : Message :=
  {| msg_timestamp := now;
     msg_speaker := founder;
     msg_content := founder_response;
     msg_topic := current_topic session_data;
     msg_analysis := Some response_analysis;
     msg_audio_metadata := audio_metadata;
     msg_question_type := None |}.

Definition interviewer_message (now : string) (next_interaction : Interaction) : Message :=
  {| msg_timestamp := now;
     msg_speaker := interviewer;
     msg_content := q_message next_interaction;
     msg_topic := q_topic next_interaction;
     msg_analysis := None;
     msg_audio_metadata := None;
     msg_question_type := Some (q_type next_interaction) |}.

(** [session_data["insights_gathered"].update(new)] *)
Definition update_insights (old new : gmap string bool) : gmap string bool := new ∪ old.

(** The first half of [process_founder_response]: the founder entry is
    appended and the insights of its analysis are merged. *)
Definition record_founder_turn
    (session_data : Session) (founder_response : string)
    (audio_metadata : option string) (now : string) : Session :=
  let response_analysis :=
    analyze_response_content founder_response (current_topic session_data) in
  let s1 :=
    set_conversation_history
      (conversation_history session_data
         ++ [founder_message now session_data founder_response
                             response_analysis audio_metadata])
      session_data in
  set_insights_gathered
    (update_insights (insights_gathered s1) (insights response_analysis)) s1.

(** [process_founder_response].  The first component is [session_data] as
    the call leaves it (the dictionary is updated in place, also when an
    exception ends the call early), the second the returned status. *)
Definition process_founder_response
    (session_data : Session) (founder_response : string)
    (audio_metadata : option string) (clock : Clock) : Session * Result :=
  let response_analysis :=
    analyze_response_content founder_response (current_topic session_data) in
  let s2 :=
    record_founder_turn session_data founder_response audio_metadata
                        (now_founder clock) in
  match calculate_rapport_level (conversation_history s2) with
  | None => (s2, Error)
  | Some rapport =>
      let s3 := set_rapport_level rapport s2 in
      match generate_next_conversational_question s3 response_analysis with
      | None => (s3, Error)
      | Some next_interaction =>
          let s4 :=
            set_conversation_history
              (conversation_history s3
                 ++ [interviewer_message (now_interviewer clock) next_interaction])
              s3 in
          let s5 := set_current_topic (q_topic next_interaction) s4 in
          match calculate_interview_progress s5 (minutes_since_start clock) with
          | None => (s5, Error)
          | Some progress =>
              (s5, Success (q_message next_interaction) (q_topic next_interaction)
                           progress s5)
          end
      end
  end.

(** A run: the session after a sequence of calls, whatever they return. *)
Definition Exchange : Type := string * option string * Clock.

Definition exchange (session_data : Session) (e : Exchange) : Session :=
  let '(founder_response, audio_metadata, clock) := e in
  fst (process_founder_response session_data founder_response audio_metadata clock).

Definition run (session_data : Session) (es : list Exchange) : Session :=
  foldl exchange session_data es.

(** The sessions an interview can be in: started by
    [start_live_voice_interview], then driven by [process_founder_response]. *)
Inductive reachable : Session -> Prop :=
| reachable_start startup_id founder_name interview_type stamp iso :
    reachable (fst (start_live_voice_interview startup_id founder_name
                                               interview_type stamp iso))
| reachable_exchange s e : reachable s -> reachable (exchange s e).

(** *** Notions used to state the properties *)

(** The topic after position [i] of the flow, ["conclusion"] after the
    last one. *)
Definition next_in_sequence (i : nat) : string :=
  default "conclusion" (topic_flow !! S i).

(** The place of a topic in the interview: its index in the flow, and the
    place after the last topic for ["conclusion"] and any other name. *)
Definition position (topic : string) : nat :=
  default (length topic_flow) (index topic topic_flow).


(** The sentiment read off an entry lies between 0 and 1. *)
Definition sentiment_in_range (msg : Message) : Prop :=
  (0 <= sentiment_or_default msg <= 1)%Q.

(** The histories of an interview: every entry has a sentiment in range,
    and a history that is not empty has a founder entry. *)
Definition well_formed_history (h : list Message) : Prop :=
  Forall sentiment_in_range h
  /\ (h = [] \/ (0 < length (filter (fun msg => is_founder msg = true) h))%nat).

(** The last entry of a history is an interviewer question of the given
    kind and topic. *)
Definition asked (history : list Message) (kind : QuestionType) (topic : string) : Prop :=
  exists m, last history = Some m /\ msg_speaker m = interviewer
            /\ msg_question_type m = Some kind /\ msg_topic m = topic.

End VoiceAgent.

(** ** live_text_interview.py *)

Module LiveText.
Import PyStr.

Inductive Speaker := founder | interviewer.

(** The dictionary returned by [analyze_response]; the early return for
    an empty text has no ["word_count"] key. *)
Record Analysis := {
  quality_score : Q;
  sentiment_score : Q;
  insights : list (string * bool);
  word_count : option nat
}.

(** An entry of [conversation_history]: founder entries carry the
    analysis, interviewer entries the topic. *)
Record Message := {
  msg_timestamp : string;
  msg_speaker : Speaker;
  msg_content : string;
  msg_analysis : option Analysis;
  msg_topic : option string
}.

(** [self.session_data] *)
Record Session := {
  session_id : string;
  founder_name : string;
  startup_name : string;
  start_time : string;
  current_topic : string;
  conversation_history : list Message;
  insights_gathered : list (string * bool);
  rapport_level : Q;
  interview_active : bool
}.

(** The [LiveTextInterviewer] object. *)
Record LiveTextInterviewer := {
  self_founder_name : string;
  self_startup_name : string;
  session_data : Session
}.

(** [LiveTextInterviewer.__init__]; [stamp] and [iso] render the current
    time. *)
Definition init (founder_name startup_name stamp iso : string) : LiveTextInterviewer :=
  {| self_founder_name := founder_name;
     self_startup_name := startup_name;
     session_data :=
       {| session_id := "live_interview_" ++ stamp;
          founder_name := founder_name;
          startup_name := startup_name;
          start_time := iso;
          current_topic := "introduction";
          conversation_history := [];
          insights_gathered := [];
          rapport_level := (1 # 2)%Q;
          interview_active := true |} |}.

Definition with_session (self : LiveTextInterviewer) (s : Session) : LiveTextInterviewer :=
  {| self_founder_name := self_founder_name self;
     self_startup_name := self_startup_name self;
     session_data := s |}.

Definition set_conversation_history (h : list Message) (s : Session) : Session :=
  {| session_id := session_id s; founder_name := founder_name s;
     startup_name := startup_name s; start_time := start_time s;
     current_topic := current_topic s; conversation_history := h;
     insights_gathered := insights_gathered s;
     rapport_level := rapport_level s; interview_active := interview_active s |}.

Definition set_insights_gathered (m : list (string * bool)) (s : Session) : Session :=
  {| session_id := session_id s; founder_name := founder_name s;
     startup_name := startup_name s; start_time := start_time s;
     current_topic := current_topic s;
     conversation_history := conversation_history s;
     insights_gathered := m;
     rapport_level := rapport_level s; interview_active := interview_active s |}.

Definition set_rapport_level (r : Q) (s : Session) : Session :=
  {| session_id := session_id s; founder_name := founder_name s;
     startup_name := startup_name s; start_time := start_time s;
     current_topic := current_topic s;
     conversation_history := conversation_history s;
     insights_gathered := insights_gathered s;
     rapport_level := r; interview_active := interview_active s |}.

Definition set_current_topic (t : string) (s : Session) : Session :=
  {| session_id := session_id s; founder_name := founder_name s;
     startup_name := startup_name s; start_time := start_time s;
     current_topic := t;
     conversation_history := conversation_history s;
     insights_gathered := insights_gathered s;
     rapport_level := rapport_level s; interview_active := interview_active s |}.

(** An insertion-ordered dictionary: [d[k] = v] and [d.update(e)]. *)
Fixpoint dict_set (k : string) (v : bool) (d : list (string * bool)) : list (string * bool) :=
  match d with
  | [] => [(k, v)]
  | (k', v') :: d' =>
      if String.eqb k' k then (k', v) :: d' else (k', v') :: dict_set k v d'
  end.

Definition dict_update (d e : list (string * bool)) : list (string * bool) :=
  foldl (fun d kv => dict_set (fst kv) (snd kv) d) d e.

(** *** Reading the founder *)

(** What one call of [input()] does. *)
Inductive Input :=
| Line (text : string)
| KeyboardInterrupt
| InputError.

Definition stop_phrases : list string := ["stop interview"; "stop"; "quit"; "exit"].

(** [listen_for_response]: ["STOP_INTERVIEW"], [None] or the stripped
    text. *)
Definition listen_for_response (i : Input) : option string :=
  match i with
  | Line text =>
      let response := strip text in
      if mem (lower response) stop_phrases then Some "STOP_INTERVIEW"
      else if is_empty response then None
      else Some response
  | KeyboardInterrupt => Some "STOP_INTERVIEW"
  | InputError => None
  end.

(** *** Response analysis *)

Definition positive_words : list string :=
  ["excited"; "fantastic"; "great"; "amazing"; "successful"; "growing";
   "confident"; "passionate"; "love"; "excellent"; "strong"; "profitable"].

Definition negative_words : list string :=
  ["challenging"; "difficult"; "struggling"; "worried"; "concerned";
   "problem"; "issue"; "hard"; "tough"; "failing"].

Definition business_keywords : list (string * list string) :=
  [("revenue", ["revenue"; "money"; "income"; "sales"; "profit"; "pricing"; "$"]);
   ("customers", ["customers"; "clients"; "users"; "market"; "customer"]);
   ("team", ["team"; "founder"; "employees"; "hiring"; "ceo"; "cto"]);
   ("funding", ["funding"; "investment"; "capital"; "raise"; "investor"]);
   ("growth", ["growth"; "growing"; "scale"; "expansion"; "traction"]);
   ("product", ["product"; "platform"; "technology"; "software"; "ai"]);
   ("competition", ["competitors"; "competition"; "differentiate"; "advantage"])].

Definition analyze_response (response_text : string) : Analysis :=
  if is_empty response_text
  then {| quality_score := 0; sentiment_score := 1 # 2; insights := [];
          word_count := None |}
  else
    let word_count := length (split response_text) in
    let positive_count :=
      count_if (fun word => contains (lower word) (lower response_text)) positive_words in
    let negative_count :=
      count_if (fun word => contains (lower word) (lower response_text)) negative_words in
    let sentiment_score :=
      if (0 <? positive_count + negative_count)%nat
      then (PyNum.of_nat positive_count / PyNum.of_nat (positive_count + negative_count))%Q
      else (1 # 2)%Q in
    let insights :=
      foldl (fun insights entry =>
               if existsb (fun keyword => contains keyword (lower response_text)) (snd entry)
               then dict_set (fst entry) true insights else insights)
            [] business_keywords in
    let length_score := PyNum.min1 (PyNum.of_nat word_count / 50)%Q in
    let specificity_score :=
      (PyNum.of_nat (length insights) / PyNum.of_nat (length business_keywords))%Q in
    let quality_score :=
      (length_score * (4 # 10) + sentiment_score * (3 # 10)
       + specificity_score * (3 # 10))%Q in
    {| quality_score := quality_score; sentiment_score := sentiment_score;
       insights := insights; word_count := Some word_count |}.

(** *** Next question *)

(** For each topic its ["next_topic"] and its ["question"]. *)
Definition topic_questions (enthusiasm_prefix founder_name startup_name : string)
  : list (string * (string * string)) :=
  [
     ("introduction", ("business_model",
        enthusiasm_prefix ++ "Thanks for sharing that background, " ++ founder_name ++ "! I'm really excited to learn more about " ++ startup_name ++ ". Now let's dive into the business mechanics - how exactly do you make money? What's your revenue model and pricing strategy?"));
     ("business_model", ("market_opportunity",
        enthusiasm_prefix ++ "That business model makes sense! Now I'm curious about the market you're targeting. How big is this opportunity? Who are your main competitors and how do you differentiate from them?"));
     ("market_opportunity", ("traction_metrics",
        enthusiasm_prefix ++ "The market opportunity sounds compelling! Let's talk about your traction. What does your growth look like? Can you share some key metrics, customer numbers, or success stories?"));
     ("traction_metrics", ("team_execution",
        enthusiasm_prefix ++ "Those are encouraging numbers! Tell me about the team behind this success. What's your background? Who are your co-founders? How are you thinking about scaling the team?"));
     ("team_execution", ("funding_vision",
        enthusiasm_prefix ++ "Sounds like you have a strong foundation! Looking ahead, what are your funding needs? How much are you raising and what will you use it for? What's your long-term vision for " ++ startup_name ++ "?"));
     ("funding_vision", ("conclusion",
        enthusiasm_prefix ++ "That's an exciting vision, " ++ founder_name ++ "! Before we wrap up, what questions do you have for me? What would you like to know about our investment process or what we typically look for in startups?"))
  ].

(** [generate_next_question]: the interviewer after the call and the
    returned question. *)
Definition generate_next_question (self : LiveTextInterviewer)
    (response_analysis : Analysis) : LiveTextInterviewer * string :=
  let s := session_data self in
  let current_topic := current_topic s in
  let founder_name := self_founder_name self in
  let startup_name := self_startup_name self in
  let s1 :=
    if PyNum.gtb (quality_score response_analysis) (7 # 10)%Q
    then set_rapport_level (PyNum.min1 (rapport_level s + (15 # 100))%Q) s
    else if PyNum.gtb (quality_score response_analysis) (5 # 10)%Q
    then set_rapport_level (PyNum.min1 (rapport_level s + (5 # 100))%Q) s
    else s in
  let enthusiasm_prefix :=
    if PyNum.gtb (sentiment_score response_analysis) (7 # 10)%Q then "That's fantastic! "
    else if PyNum.gtb (sentiment_score response_analysis) (5 # 10)%Q then "That sounds great! "
    else "" in
  match dict_get current_topic (topic_questions enthusiasm_prefix founder_name startup_name) with
  | Some (next_topic, question) =>
      (with_session self (set_current_topic next_topic s1), question)
  | None =>
      (with_session self s1,
       "Thank you so much for this conversation, " ++ founder_name ++ "! This has been really insightful learning about " ++ startup_name ++ ". We'll review everything and be in touch soon with next steps. I'm excited about what you're building!")
  end.

(** *** The interview *)

Definition opening_message (founder_name startup_name : string) : string :=
  "Hi " ++ founder_name ++ "! Welcome to your live interview session. 
        
I'm really excited to learn about " ++ startup_name ++ " and what you're building. This will be a natural conversation where we'll explore your business model, market opportunity, traction, team, and vision.

Just respond naturally to my questions - I'll ask follow-up questions based on your answers. The whole conversation should take about 15-20 minutes.

To get started, could you tell me a bit about yourself and what inspired you to start " ++ startup_name ++ "? What problem are you solving and why is it important?".

Definition closing_message (founder_name startup_name : string) : string :=
  "Perfect! Thank you so much for your time, " ++ founder_name ++ ". 
                    
This has been a fantastic conversation about " ++ startup_name ++ ". I'm really impressed with what you're building and your vision for the future.

We'll review everything from our conversation today and get back to you with next steps within 48 hours. Based on what I've heard, I'm excited to continue the conversation with our investment team.

Have a great day, and thank you again for sharing your story with us!".

Definition stop_message (founder_name startup_name : string) : string :=
  "Thank you for the interview, " ++ founder_name ++ "! It was great talking with you about " ++ startup_name ++ ".".

(** The console: the inputs still to be read and the messages handed to
    [speak] so far. *)
Record Console := {
  inputs : list Input;
  spoken : list string
}.

(** [input()]; at the end of the input it raises [EOFError]. *)
Definition read (c : Console) : Input * Console :=
  match inputs c with
  | [] => (InputError, c)
  | i :: rest => (i, {| inputs := rest; spoken := spoken c |})
  end.

Definition speak (text : string) (c : Console) : Console :=
  {| inputs := inputs c; spoken := spoken c ++ [text] |}.

(** How the loop of [conduct_live_interview] is left: normally, or by the
    [KeyError] of [show_real_time_analysis] on an analysis without
    ["word_count"]. *)
Inductive LoopEnd :=
| Left (self : LiveTextInterviewer) (c : Console)
| Raised (self : LiveTextInterviewer) (c : Console).

Definition max_exchanges : nat := 6.

(** The [while] loop, [remaining] being [max_exchanges - exchange_count].
    [clock n] is the time at which the history entry number [n] is written. *)
Fixpoint interview_loop (clock : nat -> string) (remaining : nat)
    (self : LiveTextInterviewer) (c : Console) : LoopEnd :=
  match remaining with
  | O => Left self c
  | S remaining' =>
      if negb (interview_active (session_data self)) then Left self c
      else
        let '(i, c) := read c in
        match listen_for_response i with
        | None => interview_loop clock remaining' self c
        | Some response =>
            if String.eqb response "STOP_INTERVIEW"
            then Left self (speak (stop_message (self_founder_name self)
                                                (self_startup_name self)) c)
            else
              let analysis := analyze_response response in
              match word_count analysis with
              | None => Raised self c
              | Some _ =>
                  let s := session_data self in
                  let h1 :=
                    (conversation_history s
                       ++ [{| msg_timestamp := clock (length (conversation_history s));
                              msg_speaker := founder;
                              msg_content := response;
                              msg_analysis := Some analysis;
                              msg_topic := None |}])%list in
                  let s := set_conversation_history h1 s in
                  let s := set_insights_gathered
                             (dict_update (insights_gathered s) (insights analysis)) s in
                  let '(self, next_question) :=
                    generate_next_question (with_session self s) analysis in
                  let s := session_data self in
                  let h2 :=
                    (conversation_history s
                       ++ [{| msg_timestamp := clock (length (conversation_history s));
                              msg_speaker := interviewer;
                              msg_content := next_question;
                              msg_analysis := None;
                              msg_topic := Some (current_topic s) |}])%list in
                  let self := with_session self (set_conversation_history h2 s) in
                  if String.eqb (current_topic (session_data self)) "conclusion"
                  then
                    let c := speak next_question c in
                    let '(i, c) := read c in
                    match listen_for_response i with
                    | Some final_response =>
                        if negb (is_empty final_response)
                           && negb (String.eqb final_response "STOP_INTERVIEW")
                        then Left self (speak (closing_message (self_founder_name self)
                                                               (self_startup_name self)) c)
                        else Left self c
                    | None => Left self c
                    end
                  else interview_loop clock remaining' self (speak next_question c)
              end
        end
  end.

(** *** The summary *)

Definition is_lower (c : ascii) : bool :=
  (97 <=? nat_of_ascii c)%nat && (nat_of_ascii c <=? 122)%nat.

Definition upper_char (c : ascii) : ascii :=
  if is_lower c then ascii_of_nat (nat_of_ascii c - 32) else c.

(** [s.title()] *)
Fixpoint title_from (after_letter : bool) (s : string) : string :=
  match s with
  | EmptyString => EmptyString
  | String c s' =>
      String (if after_letter then lower_char c else upper_char c)
             (title_from (is_lower c || is_upper c) s')
  end.

Definition title (s : string) : string := title_from false s.

(** What [print_interview_summary] prints. *)
Record Summary := {
  duration_minutes : nat;
  duration_seconds : nat;
  total_exchanges : nat;
  final_rapport_level : Q;
  topics_covered : string;
  key_business_areas : list string;
  summary_session_id : string;
  summary_founder : string;
  summary_startup : string;
  summary_date : string;
  investment_interest_level : string
}.

(** [print_interview_summary]; [seconds] is [duration.seconds] and [date]
    the rendered end time. *)
Definition print_interview_summary (self : LiveTextInterviewer)
    (seconds : nat) (date : string) : Summary :=
  let s := session_data self in
  let recommendation :=
    if PyNum.gtb (rapport_level s) (8 # 10)%Q && (5 <=? length (insights_gathered s))%nat
    then "High Interest - Recommend Next Steps"
    else if PyNum.gtb (rapport_level s) (6 # 10)%Q && (3 <=? length (insights_gathered s))%nat
    then "Moderate Interest - Further Evaluation"
    else if PyNum.ltb (rapport_level s) (5 # 10)%Q || (length (insights_gathered s) <? 2)%nat
    then "Limited Interest - Pass"
    else "Strong Interest" in
  {| duration_minutes := (seconds / 60)%nat;
     duration_seconds := (seconds mod 60)%nat;
     total_exchanges := (length (conversation_history s) / 2)%nat;
     final_rapport_level := rapport_level s;
     topics_covered := title (replace_char "_" " " (current_topic s));
     key_business_areas := fst <$> insights_gathered s;
     summary_session_id := session_id s;
     summary_founder := self_founder_name self;
     summary_startup := self_startup_name self;
     summary_date := date;
     investment_interest_level := recommendation |}.

(** The end of [conduct_live_interview]: the summary is printed when the
    loop is left normally; an exception raised in the loop skips it. *)
Definition summary_after (e : LoopEnd) (seconds : nat) (date : string) : option Summary :=
  match e with
  | Left self' _ => Some (print_interview_summary self' seconds date)
  | Raised _ _ => None
  end.

(** [conduct_live_interview]: the opening, the loop and the summary. *)
Definition conduct_live_interview (self : LiveTextInterviewer) (ins : list Input)
    (clock : nat -> string) (seconds : nat) (date : string)
  : LoopEnd * option Summary :=
  let c := speak (opening_message (self_founder_name self) (self_startup_name self))
                 {| inputs := ins; spoken := [] |} in
  let e := interview_loop clock max_exchanges self c in
  (e, summary_after e seconds date).

End LiveText.

(** ** Concrete interviews *)

Module Scenario.
Import VoiceAgent.

Definition clock : Clock :=
  {| now_founder := "2025-09-21T11:36:00";
     now_interviewer := "2025-09-21T11:36:01";
     minutes_since_start := 1 |}.

(** A session as [start_live_voice_interview] returns it. *)
Definition started : Session :=
  fst (start_live_voice_interview 1 "Ann" "comprehensive"
                                  "20250921_113511" "2025-09-21T11:35:11").

(** The same session placed on the second topic. *)
Definition at_business_model : Session := set_current_topic "business_model" started.

(** The same session placed on the last topic. *)
Definition at_vision_strategy : Session := set_current_topic "vision_strategy" started.

(** Four words: a follow-up is needed. *)
Definition brief : string := "It's fine, I guess.".

(** 41 words naming revenue, pricing, customers and sales. *)
Definition rich : string :=
  "Our revenue comes from subscription pricing: customers pay $99 per month, and our sales team closes about 20% of qualified leads within two months. For example, last year revenue doubled while the number of paying customers tripled across all three regions.".

(** 26 words naming customers, sales and revenue only. *)
Definition partial_answer : string :=
  "We sell to customers through a small sales team and the revenue has been steady for many months, for example in the retail segment last spring.".

(** 40 words naming vision, strategy, expansion and partnership. *)
Definition visionary : string :=
  "Our vision and strategy rest on expansion through partnership; for example, within months our customers in three new regions will be served by local partners, and within two years we expect most of the revenue to come from outside our home market.".

(** An interviewer of the text interview, one exchange into the interview. *)
Definition text_interviewer : LiveText.LiveTextInterviewer :=
  match LiveText.interview_loop (fun _ => "2025-09-21T11:36:00") 1
          (LiveText.init "Ann" "Acme" "20250921_113511" "2025-09-21T11:35:11")
          {| LiveText.inputs := [LiveText.Line "We love our customers and revenue is growing."];
             LiveText.spoken := [] |} with
  | LiveText.Left self _ => self
  | LiveText.Raised self _ => self
  end.

End Scenario.

(** ** Notions used to state the properties of the text interview *)

Module LiveTextSteps.
Import LiveText.

(** What one turn of the loop of [conduct_live_interview] does to the
    interviewer when the answer is analyzed: the founder entry, the merged
    insights, the next question with its rapport and topic update, and the
    interviewer entry.  The second component is the question. *)
Definition record_exchange (clock : nat -> string) (self : LiveTextInterviewer)
    (response : string) : LiveTextInterviewer * string :=
  let analysis := analyze_response response in
  let s := session_data self in
  let h1 :=
    (conversation_history s
       ++ [{| msg_timestamp := clock (length (conversation_history s));
              msg_speaker := founder;
              msg_content := response;
              msg_analysis := Some analysis;
              msg_topic := None |}])%list in
  let s := set_conversation_history h1 s in
  let s := set_insights_gathered
             (dict_update (insights_gathered s) (insights analysis)) s in
  let '(self, next_question) :=
    generate_next_question (with_session self s) analysis in
  let s := session_data self in
  let h2 :=
    (conversation_history s
       ++ [{| msg_timestamp := clock (length (conversation_history s));
              msg_speaker := interviewer;
              msg_content := next_question;
              msg_analysis := None;
              msg_topic := Some (current_topic s) |}])%list in
  (with_session self (set_conversation_history h2 s), next_question).

(** [exchanges clock k self self']: [self'] is [self] after [k] analyzed
    answers, none of them empty. *)
Inductive exchanges (clock : nat -> string)
  : nat -> LiveTextInterviewer -> LiveTextInterviewer -> Prop :=
| exchanges_done self : exchanges clock 0 self self
| exchanges_more k self response self' :
    PyStr.is_empty response = false ->
    exchanges clock k (fst (record_exchange clock self response)) self' ->
    exchanges clock (S k) self self'.

(** The topics of the text interview in the order of the table of
    [generate_next_question], ["conclusion"] last. *)
Definition text_flow : list string :=
  ["introduction"; "business_model"; "market_opportunity"; "traction_metrics";
   "team_execution"; "funding_vision"; "conclusion"].

(** The keys of an insertion-ordered dictionary. *)
Definition keys (d : list (string * bool)) : list string := fst <$> d.

(** Dictionaries whose flags are all true and whose keys do not repeat. *)
Definition true_flags (d : list (string * bool)) : Prop :=
  Forall (fun kv => snd kv = true) d /\ NoDup (keys d).

End LiveTextSteps.

(** ** voice_interview_agent.py: working on a whole transcript *)

Module Transcript.
Import PyStr.

(** A returned dictionary: ["status": "success"] with its payload, or
    ["status": "error"] with its message. *)
Inductive Outcome (A : Type) :=
| Ok (payload : A)
| Err (error_message : string).
Arguments Ok {A} payload.
Arguments Err {A} error_message.

(** [get_interview_questions()["total_questions"]]: the primary questions
    of all topics. *)
Definition total_questions : nat :=
  foldr (fun entry n => (length (fst (snd entry)) + n)%nat) 0%nat
        VoiceAgent.interview_questions.

(** *** [analyze_interview_responses] *)

Definition transcript_keywords : list (string * list string) :=
  [("business_model", ["revenue"; "pricing"; "customers"; "sales"; "business model"]);
   ("market_opportunity", ["market"; "competitors"; "competition"; "differentiate"; "market share"]);
   ("traction_metrics", ["revenue"; "customers"; "retention"; "growth"; "metrics"; "kpi"]);
   ("team_execution", ["team"; "founder"; "hiring"; "culture"; "experience"]);
   ("financial_planning", ["burn rate"; "funding"; "runway"; "profitability"; "projections"]);
   ("product_development", ["product"; "roadmap"; "feedback"; "technical"; "development"]);
   ("risks_challenges", ["risk"; "challenge"; "regulatory"; "competitor"; "problem"]);
   ("vision_strategy", ["vision"; "strategy"; "expansion"; "partnership"; "future"])].

(** An entry of ["topic_coverage"]. *)
Record TopicCoverage := {
  coverage_score : Q;
  keywords_found : list string;
  assessment : string
}.

Definition topic_coverage_entry (transcript_lower topic : string) : TopicCoverage :=
  let keywords := default [] (dict_get topic transcript_keywords) in
  let keyword_mentions :=
    count_if (fun keyword => contains keyword transcript_lower) keywords in
  let coverage_score :=
    match keywords with
    | [] => 0%Q
    | _ :: _ => PyNum.min1 (PyNum.of_nat keyword_mentions / PyNum.of_nat (length keywords))%Q
    end in
  {| coverage_score := PyNum.round coverage_score 2;
     keywords_found := filter (fun kw => contains kw transcript_lower = true) keywords;
     assessment :=
       if PyNum.gtb coverage_score (7 # 10)%Q then "comprehensive"
       else if PyNum.gtb coverage_score (3 # 10)%Q then "partial"
       else "minimal" |}.

Definition positive_indicators : list string :=
  ["excited"; "confident"; "strong"; "excellent"; "successful"; "growing"; "profitable";
   "traction"; "momentum"; "opportunity"; "optimistic"; "passionate"; "committed"].

Definition negative_indicators : list string :=
  ["concerned"; "worried"; "challenging"; "difficult"; "struggling"; "uncertain";
   "risky"; "problem"; "issue"; "declining"; "losing"; "competitive pressure"].

(** [any(word in transcript_lower for word in words)] *)
Definition any_in (transcript_lower : string) (words : list string) : bool :=
  existsb (fun word => contains word transcript_lower) words.

(** The ["analysis"] dictionary. *)
Record Analysis := {
  topic_coverage : list (string * TopicCoverage);
  overall_coverage_score : Q;
  interview_quality_score : Q;
  sentiment_score : Q;
  confidence_score : Q;
  key_insights : list string;
  red_flags : list string;
  positive_signals : list string;
  word_count : nat;
  positive_indicator_count : nat;
  negative_indicator_count : nat;
  questions_addressed : nat
}.

Definition analyze_interview_responses (transcript : string) : Outcome Analysis :=
  if is_empty transcript || is_empty (strip transcript)
  then Err "No transcript content to analyze"
  else
    let transcript_lower := lower transcript in
    let topic_coverage :=
      (fun entry => (fst entry, topic_coverage_entry transcript_lower (fst entry)))
        <$> VoiceAgent.interview_questions in
    let positive_count :=
      count_if (fun word => contains word transcript_lower) positive_indicators in
    let negative_count :=
      count_if (fun word => contains word transcript_lower) negative_indicators in
    let sentiment_score :=
      if (0 <? positive_count + negative_count)%nat
      then ((PyNum.of_nat positive_count - PyNum.of_nat negative_count)
              / PyNum.of_nat (positive_count + negative_count))%Q
      else 0%Q in
    let positive_signals :=
      ((if any_in transcript_lower ["recurring"; "subscription"; "saas"]
        then ["Recurring revenue business model mentioned"] else [])
       ++ (if any_in transcript_lower ["profitable"; "profitability"; "positive cash flow"]
           then ["Path to profitability discussed"] else [])
       ++ (if any_in transcript_lower ["market leader"; "first mover"; "dominant"]
           then ["Strong market position claimed"] else [])
       ++ (if any_in transcript_lower ["experienced team"; "industry veterans"; "track record"]
           then ["Experienced team highlighted"] else []))%list in
    let key_insights :=
      if any_in transcript_lower ["b2b"; "enterprise"; "corporate"]
      then ["B2B/Enterprise focus identified"] else [] in
    let red_flags :=
      ((if any_in transcript_lower ["burn"; "runway"]
           && any_in transcript_lower ["short"; "limited"; "months"]
        then ["Limited runway or high burn rate concerns"] else [])
       ++ (if any_in transcript_lower ["crowded market"; "intense competition"]
           then ["Highly competitive market acknowledged"] else [])
       ++ (if any_in transcript_lower ["hiring challenges"; "talent shortage"; "key person risk"]
           then ["Team scaling or key person dependency risks"] else []))%list in
    let avg_coverage :=
      (PyNum.sum ((fun entry => coverage_score (snd entry)) <$> topic_coverage)
         / PyNum.of_nat (length topic_coverage))%Q in
    let interview_quality := PyNum.min1 (avg_coverage * (12 # 10))%Q in
    Ok {| topic_coverage := topic_coverage;
          overall_coverage_score := PyNum.round avg_coverage 2;
          interview_quality_score := PyNum.round interview_quality 2;
          sentiment_score := PyNum.round sentiment_score 2;
          confidence_score := (8 # 10)%Q;
          key_insights := key_insights;
          red_flags := red_flags;
          positive_signals := positive_signals;
          word_count := length (split transcript);
          positive_indicator_count := positive_count;
          negative_indicator_count := negative_count;
          questions_addressed :=
            count_if (fun entry => PyNum.gtb (coverage_score (snd entry)) (3 # 10)%Q)
                     topic_coverage |}.

(** *** [extract_key_topics] *)

Definition key_topic_keywords : list (string * list string) :=
  [("business_model", ["revenue"; "monetization"; "pricing"; "business model"; "income"]);
   ("market", ["market"; "customer"; "target"; "segment"; "competition"; "competitor"]);
   ("product", ["product"; "feature"; "development"; "technology"; "platform"; "solution"]);
   ("team", ["team"; "founder"; "employee"; "hire"; "talent"; "experience"]);
   ("funding", ["funding"; "investment"; "capital"; "raise"; "investor"; "valuation"]);
   ("growth", ["growth"; "scale"; "expansion"; "traction"; "user"; "customer acquisition"]);
   ("challenges", ["challenge"; "problem"; "difficulty"; "obstacle"; "risk"; "concern"]);
   ("future_plans", ["plan"; "roadmap"; "future"; "goal"; "vision"; "strategy"])].

(** An entry of ["topics"]. *)
Record TopicMentions := {
  mentions : nat;
  relevance_score : Q
}.

Definition extract_key_topics (transcript : string)
  : Outcome (list (string * TopicMentions)) :=
  if is_empty transcript then Err "No transcript provided"
  else
    let transcript_lower := lower transcript in
    Ok (foldr (fun entry topics_discussed =>
                 let mentions :=
                   count_if (fun keyword => contains keyword transcript_lower) (snd entry) in
                 if (0 <? mentions)%nat
                 then (fst entry,
                       {| mentions := mentions;
                          relevance_score :=
                            PyNum.min1 (PyNum.of_nat mentions
                                          / PyNum.of_nat (length (snd entry)))%Q |})
                        :: topics_discussed
                 else topics_discussed)
              [] key_topic_keywords).

(** *** [generate_interview_questions_prompt] *)

(** A value of the questions dictionary: the two banks of a topic of
    [get_interview_questions] (a dictionary with two keys), or the plain
    list of an added category. *)
Inductive Questions :=
| Banks (primary follow_ups : list string)
| Plain (questions : list string).

(** [len(questions)] *)
Definition questions_len (q : Questions) : nat :=
  match q with
  | Banks _ _ => 2
  | Plain l => length l
  end.

(** The keys of [startup_data] the function reads. *)
Record StartupData := {
  sector : option string;
  stage : option string
}.

Record ScriptEntry := {
  category : string;
  script_questions : Questions;
  estimated_time : string
}.

Record InterviewScript := {
  interview_script : list ScriptEntry;
  total_categories : nat;
  script_total_questions : nat;
  estimated_duration : string
}.

Definition show_nat (n : nat) : string := NilZero.string_of_uint (Nat.to_uint n).

Definition sector_questions (sector : string) : list (string * Questions) :=
  if contains "fintech" sector
  then [("regulatory_compliance",
         Plain ["How do you handle financial regulations and compliance requirements?";
                "What licenses or regulatory approvals do you need?";
                "How do you ensure data security and privacy for financial information?"])]
  else if contains "healthtech" sector || contains "health" sector
  then [("regulatory_compliance",
         Plain ["How do you comply with healthcare regulations like HIPAA?";
                "What clinical trials or FDA approvals are required?";
                "How do you handle patient data privacy and security?"])]
  else if contains "saas" sector || contains "software" sector
  then [("technical_scalability",
         Plain ["How does your technical architecture handle scaling?";
                "What is your approach to data security and infrastructure?";
                "How do you manage technical debt and maintain code quality?"])]
  else [].

Definition stage_questions (stage : string) : list (string * Questions) :=
  if contains "pre-seed" stage
  then [("early_stage",
         Plain ["What validation have you done for your product-market fit?";
                "How are you testing your assumptions about the market?";
                "What are your plans for building an MVP?"])]
  else if contains "series a" stage
  then [("growth_stage",
         Plain ["What are your plans for scaling sales and marketing?";
                "How will you use this funding to accelerate growth?";
                "What operational challenges do you anticipate as you scale?"])]
  else [].

(** The base dictionary with the added categories; their keys are new, so
    they come last, the sector's before the stage's. *)
Definition customized_questions (startup_data : option StartupData)
  : list (string * Questions) :=
  let base :=
    (fun entry => (fst entry, Banks (fst (snd entry)) (snd (snd entry))))
      <$> VoiceAgent.interview_questions in
  match startup_data with
  | None => base
  | Some data =>
      (base ++ sector_questions (lower (default "" (sector data)))
            ++ stage_questions (lower (default "" (stage data))))%list
  end.

Definition sum_len (d : list (string * Questions)) : nat :=
  foldr (fun entry n => (questions_len (snd entry) + n)%nat) 0%nat d.

Definition generate_interview_questions_prompt (startup_data : option StartupData)
  : InterviewScript :=
  let customized := customized_questions startup_data in
  {| interview_script :=
       (fun entry =>
          {| category := LiveText.title (replace_char "_" " " (fst entry));
             script_questions := snd entry;
             estimated_time :=
               show_nat (questions_len (snd entry) * 2) ++ "-"
               ++ show_nat (questions_len (snd entry) * 3) ++ " minutes" |})
         <$> customized;
     total_categories := length customized;
     script_total_questions := sum_len customized;
     estimated_duration :=
       show_nat (sum_len customized * 2) ++ "-" ++ show_nat (sum_len customized * 3)
       ++ " minutes" |}.

(** *** Notions used to state the properties *)

(** The string starts with a character that is not white space. *)
Definition starts_with_text (s : string) : bool :=
  match s with
  | EmptyString => false
  | String c _ => negb (is_space c)
  end.

(** What [extract_key_topics] records for a topic of a keyword table. *)
Definition recorded_from (table : list (string * list string))
    (transcript_lower : string) (entry : string * TopicMentions) : Prop :=
  exists keywords,
    (fst entry, keywords) ∈ table
    /\ mentions (snd entry)
       = count_if (fun keyword => contains keyword transcript_lower) keywords
    /\ (1 <= mentions (snd entry) <= length keywords)%nat
    /\ (relevance_score (snd entry)
        == PyNum.of_nat (mentions (snd entry)) / PyNum.of_nat (length keywords))%Q
    /\ (0 < relevance_score (snd entry) <= 1)%Q.

Definition topic_entry_ok : string -> string * TopicMentions -> Prop :=
  recorded_from key_topic_keywords.

End Transcript.

(** * Properties *)

(** ** The Python primitives on examples *)

Example lower_ex : PyStr.lower "We Charge $99" = "we charge $99".
Proof. reflexivity. Qed.

Example split_ex : PyStr.split "  It's fine,  I guess. " = ["It's"; "fine,"; "I"; "guess."].
Proof. reflexivity. Qed.

Example strip_ex : PyStr.strip "  stop interview  " = "stop interview".
Proof. reflexivity. Qed.

Example contains_ex : PyStr.contains "hard" "hardware" = true /\ PyStr.contains "pricing" "price" = false.
Proof. split; reflexivity. Qed.

Example round_ex :
  (PyNum.round (48 # 100) 2 == 48 # 100)%Q /\ (PyNum.round (1 # 8) 2 == 12 # 100)%Q
  /\ (PyNum.round (3 # 8) 2 == 38 # 100)%Q /\ (PyNum.round (100 # 9) 1 == 111 # 10)%Q.
Proof. repeat split; vm_compute; reflexivity. Qed.


(** ** Rounding and clamping *)

Section PyNumFacts.
Import PyNum.
Local Open Scope Q_scope.

Lemma round_half_even_bounds x :
  (Qfloor x <= round_half_even x <= Qfloor x + 1)%Z.
Proof.
  unfold round_half_even.
  destruct (x - inject_Z (Qfloor x) ?= 1 # 2); [destruct (Z.even _)| |]; lia.
Qed.

Lemma round_half_even_mono x y : x <= y -> (round_half_even x <= round_half_even y)%Z.
Proof.
  intros Hxy.
  pose proof (Qfloor_resp_le _ _ Hxy) as Hf.
  destruct (Z.eq_dec (Qfloor x) (Qfloor y)) as [Heq | Hne].
  - unfold round_half_even. rewrite <- Heq.
    destruct (Qcompare_spec (x - inject_Z (Qfloor x)) (1 # 2));
      destruct (Qcompare_spec (y - inject_Z (Qfloor x)) (1 # 2));
      try (destruct (Z.even (Qfloor x))); try lia; exfalso; lra.
  - pose proof (round_half_even_bounds x). pose proof (round_half_even_bounds y). lia.
Qed.

Lemma pow10_pos n : (0 < 10 ^ Z.of_nat n)%Z.
Proof. apply Z.pow_pos_nonneg; lia. Qed.

Lemma round_mono x y n : x <= y -> round x n <= round y n.
Proof.
  intros Hxy. unfold round.
  assert (Hp : 0 < inject_Z (10 ^ Z.of_nat n)).
  { change 0 with (inject_Z 0). rewrite <- Zlt_Qlt. apply pow10_pos. }
  apply Qmult_le_compat_r.
  - rewrite <- Zle_Qle. apply round_half_even_mono.
    apply Qmult_le_compat_r; [assumption | lra].
  - apply Qlt_le_weak, Qinv_lt_0_compat, Hp.
Qed.

Lemma round_nonneg x n : 0 <= x -> 0 <= round x n.
Proof.
  intros Hx. unfold round.
  assert (Hp : 0 < inject_Z (10 ^ Z.of_nat n)).
  { change 0 with (inject_Z 0). rewrite <- Zlt_Qlt. apply pow10_pos. }
  apply Qmult_le_0_compat.
  - change 0 with (inject_Z 0). rewrite <- Zle_Qle.
    pose proof (round_half_even_bounds (x * inject_Z (10 ^ Z.of_nat n))) as Hb.
    assert (Hf : (Qfloor 0 <= Qfloor (x * inject_Z (10 ^ Z.of_nat n)))%Z).
    { apply Qfloor_resp_le, Qmult_le_0_compat; [assumption | lra]. }
    change (Qfloor 0) with 0%Z in Hf. lia.
  - apply Qlt_le_weak, Qinv_lt_0_compat, Hp.
Qed.

Lemma round2_le_1 x : x <= 1 -> round x 2 <= 1.
Proof.
  intros Hx. apply Qle_trans with (round 1 2); [apply round_mono, Hx |].
  vm_compute. discriminate.
Qed.

Lemma min1_cases x : (x <= 1 /\ min1 x = x) \/ (1 < x /\ min1 x = 1).
Proof.
  unfold min1. destruct (Qle_bool x 1) eqn:E.
  - left. split; [apply Qle_bool_iff, E | reflexivity].
  - right. split; [| reflexivity].
    apply Qnot_le_lt. rewrite <- Qle_bool_iff. congruence.
Qed.

Lemma min1_le_1 x : min1 x <= 1.
Proof. destruct (min1_cases x) as [[? ->] | [? ->]]; lra. Qed.

Lemma min1_nonneg x : 0 <= x -> 0 <= min1 x.
Proof. intros. destruct (min1_cases x) as [[? ->] | [? ->]]; lra. Qed.

Lemma min1_mono x y : x <= y -> min1 x <= min1 y.
Proof.
  intros. destruct (min1_cases x) as [[? ->] | [? ->]];
    destruct (min1_cases y) as [[? ->] | [? ->]]; lra.
Qed.

Lemma ltb_true x y : ltb x y = true <-> x < y.
Proof.
  unfold ltb. rewrite negb_true_iff. split.
  - intros E. apply Qnot_le_lt. rewrite <- Qle_bool_iff. congruence.
  - intros H. destruct (Qle_bool y x) eqn:E; [| reflexivity].
    apply Qle_bool_iff in E. lra.
Qed.

Lemma ltb_false x y : ltb x y = false <-> y <= x.
Proof.
  unfold ltb. rewrite negb_false_iff. apply Qle_bool_iff.
Qed.

Lemma of_nat_nonneg n : 0 <= of_nat n.
Proof. unfold of_nat. change 0 with (inject_Z 0). rewrite <- Zle_Qle. lia. Qed.

Lemma of_nat_le m n : (m <= n)%nat -> of_nat m <= of_nat n.
Proof. intros. unfold of_nat. rewrite <- Zle_Qle. lia. Qed.

Lemma of_nat_pos n : (0 < n)%nat -> 0 < of_nat n.
Proof. intros. unfold of_nat. change 0 with (inject_Z 0). rewrite <- Zlt_Qlt. lia. Qed.

End PyNumFacts.

(** ** The response analyzer *)

Section ResponseAnalyzer.
Import PyStr VoiceAgent.
Local Open Scope Q_scope.

Lemma sentiment_of_bounds p n : 0 <= sentiment_of p n <= 1.
Proof.
  unfold sentiment_of. destruct (0 <? p + n)%nat eqn:E; [| lra].
  apply Nat.ltb_lt in E.
  pose proof (PyNumFacts_of_nat_pos := of_nat_pos (p + n) E).
  pose proof (of_nat_nonneg p). pose proof (of_nat_le p (p + n) ltac:(lia)).
  split.
  - apply Qle_shift_div_l; [assumption | lra].
  - apply Qle_shift_div_r; [assumption | lra].
Qed.



(** Every flag an analysis carries is [true]. *)
Lemma extract_topic_insights_true response_lower topic k b :
  extract_topic_insights response_lower topic !! k = Some b -> b = true.
Proof.
  unfold extract_topic_insights.
  generalize (default [] (dict_get topic insight_keywords)). intros kws.
  assert (Hacc : forall b', (∅ : gmap string bool) !! k = Some b' -> b' = true).
  { intros b'. rewrite lookup_empty. discriminate. }
  revert Hacc. generalize (∅ : gmap string bool). revert b.
  induction kws as [| kw kws IH]; intros b acc Hacc; simpl.
  - apply Hacc.
  - apply IH. destruct (contains kw response_lower); [| exact Hacc].
    intros b'. rewrite lookup_insert. case_decide; [congruence | apply Hacc].
Qed.

(** A word of the lexicon counts once however often it occurs, and it
    counts wherever its letters occur, also inside a longer word. *)
Example lexicon_hits_are_per_word :
  positive_count (lower "Love, love, LOVE!") = 1%nat
  /\ negative_count (lower "New hardware") = 1%nat.
Proof. split; reflexivity. Qed.

End ResponseAnalyzer.

(** C3: the sentiment score of an analysis is
  positive_count / (positive_count + negative_count) when that sum is
  positive, and exactly 0.5 when it is 0; the counts are the numbers of
  words of the positive and of the negative lexicon that occur in the
  lower-cased utterance. *)
Theorem C3_sentiment_score (response current_topic : string) :
let a := VoiceAgent.analyze_response_content response current_topic in
let p := VoiceAgent.positive_count (PyStr.lower response) in
let n := VoiceAgent.negative_count (PyStr.lower response) in
((0 < p + n)%nat ->
 (VoiceAgent.sentiment_score a == PyNum.of_nat p / PyNum.of_nat (p + n))%Q)
/\ ((p + n = 0)%nat -> VoiceAgent.sentiment_score a = (1 # 2)%Q).
Proof.
cbn zeta. unfold VoiceAgent.analyze_response_content; cbn [VoiceAgent.sentiment_score].
unfold VoiceAgent.sentiment_of. split; intros H.
- destruct (Nat.ltb_spec 0
    (VoiceAgent.positive_count (PyStr.lower response)
     + VoiceAgent.negative_count (PyStr.lower response))); [reflexivity | lia].
- rewrite H. reflexivity.
Qed.

Lemma C3_sentiment_score_witness :
let r := "We love the product but hiring is a hard problem." in
(VoiceAgent.positive_count (PyStr.lower r) = 1
 /\ VoiceAgent.negative_count (PyStr.lower r) = 2)%nat
/\ (VoiceAgent.sentiment_score (VoiceAgent.analyze_response_content r "team_execution")
    == 1 # 3)%Q
/\ VoiceAgent.sentiment_score
     (VoiceAgent.analyze_response_content "It's fine, I guess." "introduction")
   = (1 # 2)%Q.
Proof.
cbn zeta. split; [split; reflexivity |]. split.
- rewrite (proj1 (C3_sentiment_score _ _)); [reflexivity | vm_compute; lia].
- apply (proj2 (C3_sentiment_score _ _)). reflexivity.
Defined.




(** C7 (as the code has it): for the utterance of scenario A at topic
  business_model the only insight flag set is customers (the word
  "pricing" does not occur in the utterance), and the quality score is
  0.48, above 0.4. *)
Theorem C7_scenario_A :
let a := VoiceAgent.analyze_response_content
           "We charge $99 per month and our customers love the product." "business_model" in
VoiceAgent.insights a = {[ "customers" := true ]}
/\ VoiceAgent.word_count a = 11%nat
/\ (VoiceAgent.quality_score a == 48 # 100)%Q
/\ (4 # 10 < VoiceAgent.quality_score a)%Q.
Proof. cbn zeta. repeat split; vm_compute; reflexivity. Qed.

(** C7, as stated, fails: the pricing flag is not set. *)
Lemma C7_counterexample :
let a := VoiceAgent.analyze_response_content
           "We charge $99 per month and our customers love the product." "business_model" in
VoiceAgent.insights a !! "pricing" = None
/\ VoiceAgent.insights a !! "pricing" <> Some true
/\ PyStr.contains "pricing" (PyStr.lower "We charge $99 per month and our customers love the product.") = false.
Proof. cbn zeta. repeat split; try (vm_compute; reflexivity). vm_compute. discriminate. Qed.

(** ** The dialogue manager *)

Section DialogueManager.
Import PyStr VoiceAgent.
Local Open Scope Q_scope.

(** *** Lists and tables *)

Lemma index_lookup x l i : index x l = Some i -> l !! i = Some x.
Proof.
  revert i. induction l as [| y l IH]; intros i; simpl; [discriminate |].
  destruct (String.eqb_spec y x) as [-> | _].
  - intros [= <-]. reflexivity.
  - destruct (index x l) as [j |]; simpl; [| discriminate].
    intros [= <-]. simpl. apply IH. reflexivity.
Qed.

Lemma index_lt x l i : index x l = Some i -> (i < length l)%nat.
Proof. intros H. apply index_lookup in H. eapply lookup_lt_Some, H. Qed.

Lemma coverage_keywords_in_flow topic kws :
  dict_get topic coverage_keywords = Some kws ->
  exists i, index topic topic_flow = Some i.
Proof.
  unfold coverage_keywords. cbn [dict_get]. intros H.
  repeat (match type of H with
          | context [String.eqb ?k topic] =>
              destruct (String.eqb_spec k topic) as [<- | _]; [eexists; reflexivity |]
          end).
  discriminate.
Qed.

Lemma follow_up_bank_length name topic : length (follow_up_bank name topic) = 3%nat.
Proof.
  unfold follow_up_bank, follow_ups. cbn [dict_get].
  repeat (match goal with
          | |- context [String.eqb ?k topic] =>
              destruct (String.eqb k topic); [reflexivity |]
          end).
  reflexivity.
Qed.

Lemma interview_questions_banks topic primary bank :
  dict_get topic interview_questions = Some (primary, bank) ->
  length primary = 4%nat /\ length bank = 3%nat.
Proof.
  unfold interview_questions. cbn [dict_get]. intros H.
  repeat (match type of H with
          | context [String.eqb ?k topic] =>
              destruct (String.eqb k topic);
              [injection H as <- <-; split; reflexivity |]
          end).
  discriminate.
Qed.

(** *** The question generators never raise *)

Lemma generate_follow_up_question_spec s a :
  exists q, generate_follow_up_question s a = Some q
            /\ q_topic q = current_topic s /\ q_type q = follow_up
            /\ follow_up_bank (founder_name s) (current_topic s)
                 !! (length (questions_asked s) mod 3)%nat = Some (q_message q).
Proof.
  unfold generate_follow_up_question.
  pose proof (follow_up_bank_length (founder_name s) (current_topic s)) as Hlen.
  destruct (follow_up_bank (founder_name s) (current_topic s)) as [| q0 bank] eqn:Hb;
    [discriminate |].
  rewrite Hlen.
  destruct (lookup_lt_is_Some_2 (q0 :: bank) (length (questions_asked s) mod 3)) as [q Hq].
  { rewrite Hlen. apply Nat.mod_upper_bound. lia. }
  rewrite Hq. simpl. eexists. repeat split.
Qed.

Lemma generate_topic_continuation_spec s topic :
  exists q, generate_topic_continuation s topic = Some q
            /\ q_topic q = topic /\ q_type q = continuation.
Proof.
  unfold generate_topic_continuation.
  set (n := length (interviewer_messages (conversation_history s) topic)).
  destruct (dict_get topic interview_questions) as [[primary bank] |] eqn:Ht.
  - destruct (interview_questions_banks _ _ _ Ht) as [Hp Hb].
    destruct (Nat.ltb_spec n (length primary)) as [Hn | Hn].
    + destruct (lookup_lt_is_Some_2 primary n Hn) as [q Hq].
      rewrite Hq. simpl. eexists. repeat split.
    + destruct bank as [| b0 bank]; [discriminate |].
      destruct (lookup_lt_is_Some_2 (b0 :: bank) (n mod length (b0 :: bank))) as [q Hq].
      { apply Nat.mod_upper_bound. rewrite Hb. lia. }
      rewrite Hq. simpl. eexists. repeat split.
  - cbn [length]. rewrite Nat.mod_1_r.
    destruct (Nat.ltb_spec n 0); [lia |]. simpl. eexists. repeat split.
Qed.

(** *** Coverage of a topic without keywords *)

Lemma total_words_app l1 l2 :
  total_words (l1 ++ l2) = (total_words l1 + total_words l2)%nat.
Proof. induction l1 as [| m l1 IH]; simpl; [reflexivity |]. rewrite IH. lia. Qed.

Lemma calculate_topic_coverage_no_keywords s topic :
  dict_get topic coverage_keywords = None ->
  calculate_topic_coverage s topic <= 4 # 10.
Proof.
  intros H. unfold calculate_topic_coverage.
  destruct (topic_messages (conversation_history s) topic) as [| m msgs]; [lra |].
  rewrite H. cbn [default].
  apply Qle_trans with (PyNum.round (4 # 10) 2); [| vm_compute; discriminate].
  apply round_mono.
  pose proof (min1_le_1 (PyNum.of_nat (total_words (m :: msgs)) / 150)). lra.
Qed.

Lemma calculate_topic_coverage_set_rapport_level r s topic :
  calculate_topic_coverage (set_rapport_level r s) topic = calculate_topic_coverage s topic.
Proof. reflexivity. Qed.

(** *** The next topic *)

Lemma determine_next_topic_spec s i :
  index (current_topic s) topic_flow = Some i ->
  topic_flow !! i = Some (current_topic s)
  /\ determine_next_topic s = next_in_sequence i.
Proof.
  intros H. split; [apply index_lookup, H |].
  pose proof (index_lt _ _ _ H) as Hi.
  unfold determine_next_topic, next_in_sequence. rewrite H, Nat.add_1_r.
  destruct (Nat.ltb_spec i (length topic_flow - 1)) as [Hlt | Hge].
  - destruct (lookup_lt_is_Some_2 topic_flow (S i)) as [t Ht]; [lia |].
    rewrite Ht. reflexivity.
  - rewrite (lookup_ge_None_2 topic_flow (S i)); [reflexivity | lia].
Qed.

(** The decision of [generate_next_conversational_question]. *)
Lemma generate_next_conversational_question_spec s a :
  exists q, generate_next_conversational_question s a = Some q
    /\ ((needs_follow_up a = true
         /\ q_topic q = current_topic s /\ q_type q = follow_up)
        \/ (needs_follow_up a = false
            /\ calculate_topic_coverage s (current_topic s) < 7 # 10
            /\ q_topic q = current_topic s /\ q_type q = continuation)
        \/ (needs_follow_up a = false
            /\ 7 # 10 <= calculate_topic_coverage s (current_topic s)
            /\ q_type q = transition
            /\ exists i, topic_flow !! i = Some (current_topic s)
                         /\ index (current_topic s) topic_flow = Some i
                         /\ q_topic q = next_in_sequence i)).
Proof.
  unfold generate_next_conversational_question.
  destruct (needs_follow_up a) eqn:Hf.
  - destruct (generate_follow_up_question_spec s a) as (q & -> & Ht & Hk & _).
    exists q. split; [reflexivity |]. left. auto.
  - destruct (PyNum.ltb (calculate_topic_coverage s (current_topic s)) (7 # 10)) eqn:Hc.
    + apply ltb_true in Hc.
      destruct (generate_topic_continuation_spec s (current_topic s)) as (q & -> & Ht & Hk).
      exists q. split; [reflexivity |]. right; left. auto.
    + apply ltb_false in Hc.
      eexists. split; [reflexivity |]. right; right.
      repeat split; [assumption |]. cbn [q_topic generate_topic_transition].
      destruct (dict_get (current_topic s) coverage_keywords) as [kws |] eqn:Hk.
      * destruct (coverage_keywords_in_flow _ _ Hk) as [i Hi].
        destruct (determine_next_topic_spec s i Hi) as [Hl Hn].
        exists i. auto.
      * pose proof (calculate_topic_coverage_no_keywords s _ Hk). lra.
Qed.

End DialogueManager.

(** ** One exchange *)

Section Exchange.
Import PyStr VoiceAgent.
Local Open Scope Q_scope.

Lemma calculate_rapport_level_after_founder h m :
  msg_speaker m = founder ->
  exists r, calculate_rapport_level (h ++ [m]) = Some r.
Proof.
  intros Hm. unfold calculate_rapport_level.
  destruct (length (h ++ [m]) <? 2)%nat; [eauto |].
  rewrite filter_app.
  assert (Hf : filter (fun msg => is_founder msg = true) [m] = [m]).
  { rewrite filter_cons_True; [reflexivity |].
    unfold is_founder. rewrite Hm. reflexivity. }
  rewrite Hf.
  destruct (filter (fun msg => is_founder msg = true) h); simpl; eauto.
Qed.

(** [process_founder_response] always gets through its first five steps:
    the session it leaves is the recorded one with the new rapport, the
    interviewer entry and the topic of the generated question. *)
Lemma process_founder_response_spec s r audio clock :
  let a := analyze_response_content r (current_topic s) in
  let s2 := record_founder_turn s r audio (now_founder clock) in
  exists rapport q,
    calculate_rapport_level (conversation_history s2) = Some rapport
    /\ generate_next_conversational_question (set_rapport_level rapport s2) a = Some q
    /\ fst (process_founder_response s r audio clock)
       = set_current_topic (q_topic q)
           (set_conversation_history
              (conversation_history s2 ++ [interviewer_message (now_interviewer clock) q])
              (set_rapport_level rapport s2))
    /\ (snd (process_founder_response s r audio clock) = Error
        \/ exists progress,
             snd (process_founder_response s r audio clock)
             = Success (q_message q) (q_topic q) progress
                       (fst (process_founder_response s r audio clock))).
Proof.
  cbn zeta.
  assert (exists rapport,
            calculate_rapport_level
              (conversation_history (record_founder_turn s r audio (now_founder clock)))
            = Some rapport) as [rapport Hr].
  { exact (calculate_rapport_level_after_founder (conversation_history s)
             (founder_message (now_founder clock) s r
                (analyze_response_content r (current_topic s)) audio) eq_refl). }
  destruct (generate_next_conversational_question_spec
              (set_rapport_level rapport (record_founder_turn s r audio (now_founder clock)))
              (analyze_response_content r (current_topic s))) as (q & Hq & _).
  exists rapport, q. unfold process_founder_response. rewrite Hr, Hq.
  destruct (calculate_interview_progress _ _) as [progress |]; cbn [fst snd]; eauto 6.
Qed.

(** The decision taken in one call, read on the session the founder turn
    was recorded in. *)
Lemma process_founder_response_decision s r audio clock :
  let a := analyze_response_content r (current_topic s) in
  let s2 := record_founder_turn s r audio (now_founder clock) in
  let s' := fst (process_founder_response s r audio clock) in
  exists q,
    conversation_history s'
    = (conversation_history s2 ++ [interviewer_message (now_interviewer clock) q])%list
    /\ current_topic s' = q_topic q
    /\ insights_gathered s' = insights_gathered s2
    /\ questions_asked s' = questions_asked s
    /\ ((needs_follow_up a = true
         /\ q_topic q = current_topic s /\ q_type q = follow_up)
        \/ (needs_follow_up a = false
            /\ calculate_topic_coverage s2 (current_topic s) < 7 # 10
            /\ q_topic q = current_topic s /\ q_type q = continuation)
        \/ (needs_follow_up a = false
            /\ 7 # 10 <= calculate_topic_coverage s2 (current_topic s)
            /\ q_type q = transition
            /\ exists i, topic_flow !! i = Some (current_topic s)
                         /\ index (current_topic s) topic_flow = Some i
                         /\ q_topic q = next_in_sequence i)).
Proof.
  cbn zeta.
  destruct (process_founder_response_spec s r audio clock) as (rapport & q & _ & Hq & -> & _).
  destruct (generate_next_conversational_question_spec
              (set_rapport_level rapport (record_founder_turn s r audio (now_founder clock)))
              (analyze_response_content r (current_topic s))) as (q' & Hq' & Hcases).
  rewrite Hq in Hq'. injection Hq' as <-.
  exists q. repeat split. exact Hcases.
Qed.

Lemma position_next_in_sequence i :
  (i < length topic_flow)%nat -> position (next_in_sequence i) = S i.
Proof.
  intros Hi. do 9 (destruct i as [| i]; [reflexivity |]). simpl in Hi. lia.
Qed.

Lemma position_in_flow topic i : index topic topic_flow = Some i -> position topic = i.
Proof. intros H. unfold position. rewrite H. reflexivity. Qed.

(** What one exchange does to the topic. *)
Lemma exchange_current_topic s e :
  current_topic (exchange s e) = current_topic s
  \/ exists i, topic_flow !! i = Some (current_topic s)
               /\ index (current_topic s) topic_flow = Some i
               /\ current_topic (exchange s e) = next_in_sequence i.
Proof.
  destruct e as [[r audio] clock]. unfold exchange.
  destruct (process_founder_response_decision s r audio clock)
    as (q & _ & -> & _ & _ & Hcases).
  destruct Hcases as [(_ & Ht & _) | [(_ & _ & Ht & _) | (_ & _ & _ & i & Hl & Hi & Ht)]];
    [left; exact Ht | left; exact Ht | right; exists i; auto].
Qed.

Lemma exchange_position s e :
  current_topic (exchange s e) = current_topic s
  \/ (position (current_topic s) < position (current_topic (exchange s e)))%nat.
Proof.
  destruct (exchange_current_topic s e) as [H | (i & Hl & Hi & Ht)]; [left; exact H |].
  right. rewrite Ht, (position_in_flow _ _ Hi), position_next_in_sequence; [lia |].
  eapply index_lt, Hi.
Qed.

Lemma run_app s es1 es2 : run s (es1 ++ es2) = run (run s es1) es2.
Proof. unfold run. apply foldl_app. Qed.

Lemma run_position s es :
  current_topic (run s es) = current_topic s
  \/ (position (current_topic s) < position (current_topic (run s es)))%nat.
Proof.
  revert s. induction es as [| e es IH]; intros s; [left; reflexivity |].
  change (run s (e :: es)) with (run (exchange s e) es).
  destruct (IH (exchange s e)) as [-> | H1]; destruct (exchange_position s e) as [H2 | H2].
  - left. exact H2.
  - right. exact H2.
  - right. rewrite <- H2. exact H1.
  - right. lia.
Qed.

Lemma exchange_questions_asked s e : questions_asked (exchange s e) = questions_asked s.
Proof.
  destruct e as [[r audio] clock]. unfold exchange.
  destruct (process_founder_response_decision s r audio clock) as (q & _ & _ & _ & H & _).
  exact H.
Qed.

Lemma reachable_questions_asked s : reachable s -> questions_asked s = [].
Proof.
  induction 1 as [| s e _ IH]; [reflexivity |]. rewrite exchange_questions_asked. exact IH.
Qed.

(** In an interview started by [start_live_voice_interview] every
    follow-up question is the first entry of the bank. *)
Lemma reachable_follow_up_is_first_entry s a :
  reachable s ->
  exists q, generate_follow_up_question s a = Some q
            /\ follow_up_bank (founder_name s) (current_topic s) !! 0%nat = Some (q_message q).
Proof.
  intros Hs. destruct (generate_follow_up_question_spec s a) as (q & Hq & _ & _ & Hm).
  exists q. split; [exact Hq |].
  rewrite (reachable_questions_asked s Hs) in Hm. exact Hm.
Qed.

(** The introduction has no coverage keywords, so its coverage never
    reaches the threshold: an interview started by
    [start_live_voice_interview] stays on its first topic. *)
Lemma reachable_current_topic s : reachable s -> current_topic s = "introduction".
Proof.
  induction 1 as [| s e _ IH]; [reflexivity |].
  destruct e as [[r audio] clock]. unfold exchange.
  destruct (process_founder_response_decision s r audio clock)
    as (q & _ & -> & _ & _ & Hcases).
  destruct Hcases as [(_ & Ht & _) | [(_ & _ & Ht & _) | (_ & Hc & _)]];
    [congruence | congruence |].
  rewrite IH in Hc.
  pose proof (calculate_topic_coverage_no_keywords
                (record_founder_turn s r audio (now_founder clock))
                "introduction" eq_refl).
  lra.
Qed.

End Exchange.

(** ** The claims on the topic flow and on the exchange *)

Lemma asked_snoc h now q :
  VoiceAgent.asked (h ++ [VoiceAgent.interviewer_message now q])
                   (VoiceAgent.q_type q) (VoiceAgent.q_topic q).
Proof.
  eexists. split; [apply last_snoc |]. repeat split.
Qed.

(** C1: the transition rule.  After the founder turn is analyzed and
    recorded: if the analysis needs a follow-up, the session stays on the
    current topic and asks a follow-up question; otherwise, if the coverage
    of the current topic is at least 0.7, the session moves to the next topic
    of the fixed sequence (to "conclusion" after the last one) with a
    transition question; otherwise it stays on the current topic and asks a
    continuation question. *)
Theorem C1_transition_rule
    (s : VoiceAgent.Session) (r : string) (audio : option string) (clock : VoiceAgent.Clock) :
  let a := VoiceAgent.analyze_response_content r (VoiceAgent.current_topic s) in
  let recorded := VoiceAgent.record_founder_turn s r audio (VoiceAgent.now_founder clock) in
  let coverage := VoiceAgent.calculate_topic_coverage recorded (VoiceAgent.current_topic s) in
  let s' := fst (VoiceAgent.process_founder_response s r audio clock) in
  (VoiceAgent.needs_follow_up a = true ->
   VoiceAgent.current_topic s' = VoiceAgent.current_topic s
   /\ VoiceAgent.asked (VoiceAgent.conversation_history s')
                       VoiceAgent.follow_up (VoiceAgent.current_topic s))
  /\ (VoiceAgent.needs_follow_up a = false -> (7 # 10 <= coverage)%Q ->
      exists i, VoiceAgent.topic_flow !! i = Some (VoiceAgent.current_topic s)
                /\ VoiceAgent.current_topic s' = VoiceAgent.next_in_sequence i
                /\ VoiceAgent.asked (VoiceAgent.conversation_history s')
                                    VoiceAgent.transition (VoiceAgent.next_in_sequence i))
  /\ (VoiceAgent.needs_follow_up a = false -> (coverage < 7 # 10)%Q ->
      VoiceAgent.current_topic s' = VoiceAgent.current_topic s
      /\ VoiceAgent.asked (VoiceAgent.conversation_history s')
                          VoiceAgent.continuation (VoiceAgent.current_topic s)).
Proof.
  cbn zeta.
  destruct (process_founder_response_decision s r audio clock)
    as (q & Hh & Ht & _ & _ & Hcases).
  cbn zeta in Hh, Ht, Hcases. rewrite Hh, Ht.
  pose proof (asked_snoc
                (VoiceAgent.conversation_history
                   (VoiceAgent.record_founder_turn s r audio (VoiceAgent.now_founder clock)))
                (VoiceAgent.now_interviewer clock) q) as Hasked.
  destruct Hcases as [(Hf & Hq & Hk) | [(Hf & Hc & Hq & Hk) | (Hf & Hc & Hk & i & Hl & _ & Hq)]];
    rewrite Hk, Hq in Hasked; rewrite Hq.
  - split; [auto |]. split; intros; congruence.
  - split; [intros; congruence |]. split; [intros; exfalso; lra | auto].
  - split; [intros; congruence |]. split; [intros; exists i; auto | intros; exfalso; lra].
Qed.

(** C2: the topic only moves forward.  One exchange keeps the current
    topic or moves it to its immediate successor in the fixed sequence; along
    any run the place of the topic in the sequence never decreases; and a
    topic that was left is never the current topic again. *)
Theorem C2_topic_monotone :
  (forall s e,
     VoiceAgent.current_topic (VoiceAgent.exchange s e) = VoiceAgent.current_topic s
     \/ exists i, VoiceAgent.topic_flow !! i = Some (VoiceAgent.current_topic s)
                  /\ VoiceAgent.current_topic (VoiceAgent.exchange s e)
                     = VoiceAgent.next_in_sequence i)
  /\ (forall s es,
        (VoiceAgent.position (VoiceAgent.current_topic s)
         <= VoiceAgent.position (VoiceAgent.current_topic (VoiceAgent.run s es)))%nat)
  /\ (forall s es1 es2,
        VoiceAgent.current_topic (VoiceAgent.run s (es1 ++ es2)) = VoiceAgent.current_topic s ->
        VoiceAgent.current_topic (VoiceAgent.run s es1) = VoiceAgent.current_topic s).
Proof.
  split; [| split].
  - intros s e. destruct (exchange_current_topic s e) as [H | (i & Hl & _ & Ht)]; eauto.
  - intros s es. destruct (run_position s es) as [-> | H]; lia.
  - intros s es1 es2 H. rewrite run_app in H.
    destruct (run_position s es1) as [H1 | H1]; [exact H1 |].
    destruct (run_position (VoiceAgent.run s es1) es2) as [H2 | H2].
    + rewrite H2 in H. exact H.
    + rewrite H in H2. lia.
Qed.

(** C10: one call of [process_founder_response] appends exactly two
    entries to the history, the founder turn with its analysis and then the
    interviewer turn of the generated question; the entries already stored
    are unchanged; no insight flag is removed or set to false and every new
    one is true; the current topic becomes the topic of the interviewer
    turn.  A successful call returns that session, that topic and that
    question. *)
Theorem C10_exchange_appends_two_entries
    (s : VoiceAgent.Session) (r : string) (audio : option string) (clock : VoiceAgent.Clock) :
  let a := VoiceAgent.analyze_response_content r (VoiceAgent.current_topic s) in
  let s' := fst (VoiceAgent.process_founder_response s r audio clock) in
  exists q,
    VoiceAgent.conversation_history s'
    = (VoiceAgent.conversation_history s
         ++ [VoiceAgent.founder_message (VoiceAgent.now_founder clock) s r a audio;
             VoiceAgent.interviewer_message (VoiceAgent.now_interviewer clock) q])%list
    /\ VoiceAgent.current_topic s' = VoiceAgent.q_topic q
    /\ (forall i m, VoiceAgent.conversation_history s !! i = Some m ->
                    VoiceAgent.conversation_history s' !! i = Some m)
    /\ (forall k, is_Some (VoiceAgent.insights_gathered s !! k) ->
                  is_Some (VoiceAgent.insights_gathered s' !! k))
    /\ (forall k, VoiceAgent.insights_gathered s !! k = Some true ->
                  VoiceAgent.insights_gathered s' !! k = Some true)
    /\ (forall k, VoiceAgent.insights_gathered s' !! k = Some false ->
                  VoiceAgent.insights_gathered s !! k = Some false)
    /\ (forall k, VoiceAgent.insights_gathered s !! k = None ->
                  is_Some (VoiceAgent.insights_gathered s' !! k) ->
                  VoiceAgent.insights a !! k = Some true)
    /\ (forall message topic progress session_data,
          snd (VoiceAgent.process_founder_response s r audio clock)
          = VoiceAgent.Success message topic progress session_data ->
          message = VoiceAgent.q_message q /\ topic = VoiceAgent.q_topic q
          /\ session_data = s').
Proof.
  cbn zeta.
  destruct (process_founder_response_decision s r audio clock)
    as (q & Hh & Ht & Hi & _ & _).
  cbn zeta in Hh, Ht, Hi.
  assert (Htrue : forall k b,
             VoiceAgent.insights
               (VoiceAgent.analyze_response_content r (VoiceAgent.current_topic s)) !! k
             = Some b -> b = true).
  { intros k b. apply extract_topic_insights_true. }
  assert (Hu : VoiceAgent.insights_gathered
                 (fst (VoiceAgent.process_founder_response s r audio clock))
               = VoiceAgent.insights
                   (VoiceAgent.analyze_response_content r (VoiceAgent.current_topic s))
                 ∪ VoiceAgent.insights_gathered s).
  { rewrite Hi. reflexivity. }
  exists q. split; [| split; [exact Ht |]].
  { rewrite Hh. cbn. rewrite <- app_assoc. reflexivity. }
  split.
  { intros i m Hm. rewrite Hh. cbn. rewrite <- app_assoc.
    apply lookup_app_l_Some, Hm. }
  rewrite Hu. clear Hu.
  set (ia := VoiceAgent.insights
               (VoiceAgent.analyze_response_content r (VoiceAgent.current_topic s))) in *.
  repeat split.
  - intros k [b Hb]. destruct (ia !! k) as [b' |] eqn:Hk.
    + exists b'. apply lookup_union_Some_l, Hk.
    + exists b. rewrite lookup_union_r; assumption.
  - intros k Hb. destruct (ia !! k) as [b' |] eqn:Hk.
    + rewrite (Htrue _ _ Hk) in Hk. apply lookup_union_Some_l, Hk.
    + rewrite lookup_union_r; assumption.
  - intros k Hb. apply lookup_union_Some_raw in Hb as [Hb | [_ Hb]]; [| exact Hb].
    apply Htrue in Hb. discriminate.
  - intros k Hn [b Hb]. apply lookup_union_Some_raw in Hb as [Hb | [_ Hb]]; [| congruence].
    rewrite (Htrue _ _ Hb) in Hb. exact Hb.
  - destruct (process_founder_response_spec s r audio clock)
      as (rapport & q' & _ & _ & Hfst & [He | [p Hp]]); [congruence |].
    rewrite Hp in H. injection H as <- <- _ <-.
    assert (VoiceAgent.interviewer_message (VoiceAgent.now_interviewer clock) q
            = VoiceAgent.interviewer_message (VoiceAgent.now_interviewer clock) q') as Hqq.
    { rewrite Hfst in Hh. cbn in Hh. apply app_inj_tail in Hh. symmetry. apply Hh. }
    injection Hqq as Hm _ _. congruence.
  - destruct (process_founder_response_spec s r audio clock)
      as (rapport & q' & _ & _ & Hfst & [He | [p Hp]]); [congruence |].
    rewrite Hp in H. injection H as _ <- _ _.
    rewrite Hfst in Ht. cbn in Ht. congruence.
  - destruct (process_founder_response_spec s r audio clock)
      as (rapport & q' & _ & _ & Hfst & [He | [p Hp]]); [congruence |].
    rewrite Hp in H. injection H as _ _ _ <-. reflexivity.
Qed.

Lemma C1_transition_rule_witness :
  (VoiceAgent.current_topic
     (fst (VoiceAgent.process_founder_response
             Scenario.at_business_model Scenario.brief None Scenario.clock))
   = "business_model"
   /\ VoiceAgent.asked
        (VoiceAgent.conversation_history
           (fst (VoiceAgent.process_founder_response
                   Scenario.at_business_model Scenario.brief None Scenario.clock)))
        VoiceAgent.follow_up "business_model")
  /\ (exists i,
        VoiceAgent.topic_flow !! i = Some "business_model"
        /\ VoiceAgent.current_topic
             (fst (VoiceAgent.process_founder_response
                     Scenario.at_business_model Scenario.rich None Scenario.clock))
           = VoiceAgent.next_in_sequence i
        /\ VoiceAgent.asked
             (VoiceAgent.conversation_history
                (fst (VoiceAgent.process_founder_response
                        Scenario.at_business_model Scenario.rich None Scenario.clock)))
             VoiceAgent.transition (VoiceAgent.next_in_sequence i))
  /\ (VoiceAgent.current_topic
        (fst (VoiceAgent.process_founder_response
                Scenario.at_business_model Scenario.partial_answer None Scenario.clock))
      = "business_model"
      /\ VoiceAgent.asked
           (VoiceAgent.conversation_history
              (fst (VoiceAgent.process_founder_response
                      Scenario.at_business_model Scenario.partial_answer None Scenario.clock)))
           VoiceAgent.continuation "business_model").
Proof.
  split; [| split].
  - apply (proj1 (C1_transition_rule
                    Scenario.at_business_model Scenario.brief None Scenario.clock)).
    vm_compute. reflexivity.
  - apply (proj1 (proj2 (C1_transition_rule
                           Scenario.at_business_model Scenario.rich None Scenario.clock))).
    + vm_compute. reflexivity.
    + vm_compute. discriminate.
  - apply (proj2 (proj2 (C1_transition_rule
                           Scenario.at_business_model Scenario.partial_answer None
                           Scenario.clock))).
    + vm_compute. reflexivity.
    + vm_compute. reflexivity.
Defined.

(** After the last topic the session moves to "conclusion"; the call then
    reports an error, because [calculate_interview_progress] raises on a
    topic outside the flow. *)
Example last_topic_to_conclusion :
  VoiceAgent.process_founder_response
    Scenario.at_vision_strategy Scenario.visionary None Scenario.clock
  = (VoiceAgent.exchange Scenario.at_vision_strategy
       (Scenario.visionary, None, Scenario.clock),
     VoiceAgent.Error)
  /\ VoiceAgent.current_topic
       (VoiceAgent.exchange Scenario.at_vision_strategy
          (Scenario.visionary, None, Scenario.clock))
     = "conclusion".
Proof. split; vm_compute; reflexivity. Qed.

Lemma C2_topic_monotone_witness :
  VoiceAgent.current_topic
    (VoiceAgent.run Scenario.at_business_model
       ([(Scenario.partial_answer, None, Scenario.clock)]
          ++ [(Scenario.brief, None, Scenario.clock)]))
  = VoiceAgent.current_topic Scenario.at_business_model
  /\ VoiceAgent.current_topic
       (VoiceAgent.run Scenario.at_business_model
          [(Scenario.partial_answer, None, Scenario.clock)])
     = VoiceAgent.current_topic Scenario.at_business_model.
Proof.
  assert (H : VoiceAgent.current_topic
                (VoiceAgent.run Scenario.at_business_model
                   ([(Scenario.partial_answer, None, Scenario.clock)]
                      ++ [(Scenario.brief, None, Scenario.clock)]))
              = VoiceAgent.current_topic Scenario.at_business_model)
    by (vm_compute; reflexivity).
  split; [exact H |].
  exact (proj2 (proj2 C2_topic_monotone) _ _ _ H).
Defined.

Lemma C10_exchange_appends_two_entries_witness :
  length (VoiceAgent.conversation_history
            (fst (VoiceAgent.process_founder_response
                    Scenario.started Scenario.brief None Scenario.clock)))
  = 2%nat.
Proof.
  destruct (C10_exchange_appends_two_entries
              Scenario.started Scenario.brief None Scenario.clock) as (q & Hh & _).
  cbn zeta in Hh. rewrite Hh. reflexivity.
Defined.

(** C9, on the code: two follow-ups in a row.  Both answers need a
    follow-up, both questions are follow-ups on the introduction, and the
    second question is the first entry of the bank again: nothing ever
    extends [questions_asked], whose length is the index into the bank. *)
Theorem C9_follow_up_repeats :
  let e := (Scenario.brief, None, Scenario.clock) in
  let s1 := VoiceAgent.exchange Scenario.started e in
  let s2 := VoiceAgent.exchange s1 e in
  let bank := VoiceAgent.follow_up_bank "Ann" "introduction" in
  VoiceAgent.asked (VoiceAgent.conversation_history s1) VoiceAgent.follow_up "introduction"
  /\ VoiceAgent.asked (VoiceAgent.conversation_history s2) VoiceAgent.follow_up "introduction"
  /\ VoiceAgent.msg_content <$> last (VoiceAgent.conversation_history s1) = bank !! 0%nat
  /\ VoiceAgent.msg_content <$> last (VoiceAgent.conversation_history s2) = bank !! 0%nat
  /\ length bank = 3%nat
  /\ VoiceAgent.questions_asked s2 = [].
Proof.
  cbn zeta. repeat split; try (vm_compute; reflexivity);
    eexists; (split; [vm_compute; reflexivity |]); repeat split.
Qed.

(** ** Coverage and rapport *)

Section Tracker.
Import PyStr VoiceAgent.
Local Open Scope Q_scope.

Lemma Qdiv_le_mono x y c : 0 < c -> x <= y -> x / c <= y / c.
Proof.
  intros Hc Hxy. unfold Qdiv. apply Qmult_le_compat_r; [exact Hxy |].
  apply Qlt_le_weak, Qinv_lt_0_compat, Hc.
Qed.

Lemma Qdiv_unit_interval x c : 0 < c -> 0 <= x <= c -> 0 <= x / c <= 1.
Proof.
  intros Hc [H0 H1]. split.
  - apply Qle_shift_div_l; [exact Hc | lra].
  - apply Qle_shift_div_r; [exact Hc | lra].
Qed.

Lemma of_nat_S n : PyNum.of_nat (S n) == PyNum.of_nat n + 1.
Proof.
  unfold PyNum.of_nat. rewrite Nat2Z.inj_succ. unfold Z.succ.
  rewrite inject_Z_plus. reflexivity.
Qed.

Lemma count_if_mono {A} (p q : A -> bool) l :
  (forall x, p x = true -> q x = true) -> (count_if p l <= count_if q l)%nat.
Proof.
  intros Hpq. unfold count_if. induction l as [| x l IH]; [reflexivity |].
  rewrite !filter_cons.
  destruct (decide (p x = true)) as [Hp | Hp]; destruct (decide (q x = true)) as [Hq | Hq];
    simpl; try lia.
  exfalso. apply Hq, Hpq, Hp.
Qed.

Lemma count_if_le_length {A} (p : A -> bool) l : (count_if p l <= length l)%nat.
Proof. unfold count_if. apply length_filter. Qed.

Lemma calculate_topic_coverage_nonneg s topic : 0 <= calculate_topic_coverage s topic.
Proof.
  unfold calculate_topic_coverage.
  destruct (topic_messages (conversation_history s) topic) as [| m msgs]; [lra |].
  apply round_nonneg.
  set (kws := default [] (dict_get topic coverage_keywords)).
  pose proof (min1_nonneg (PyNum.of_nat (total_words (m :: msgs)) / 150)) as Hw.
  assert (0 <= PyNum.of_nat (total_words (m :: msgs)) / 150).
  { apply Qle_shift_div_l; [reflexivity |].
    pose proof (of_nat_nonneg (total_words (m :: msgs))). lra. }
  assert (0 <= match kws with
               | [] => 0
               | _ :: _ => PyNum.of_nat (covered_keywords (insights_gathered s) kws)
                           / PyNum.of_nat (length kws)
               end).
  { destruct kws as [| k kws']; [lra |].
    apply Qle_shift_div_l; [apply of_nat_pos; simpl; lia |].
    pose proof (of_nat_nonneg (covered_keywords (insights_gathered s) (k :: kws'))). lra. }
  specialize (Hw ltac:(assumption)). lra.
Qed.

Lemma calculate_topic_coverage_mono s s' topic extra :
  conversation_history s' = (conversation_history s ++ extra)%list ->
  (forall k, flag_set (insights_gathered s) k = true ->
             flag_set (insights_gathered s') k = true) ->
  calculate_topic_coverage s topic <= calculate_topic_coverage s' topic.
Proof.
  intros Hh Hflags.
  destruct (topic_messages (conversation_history s) topic) as [| m msgs] eqn:Hm.
  { unfold calculate_topic_coverage at 1. rewrite Hm. apply calculate_topic_coverage_nonneg. }
  unfold calculate_topic_coverage. rewrite Hh.
  unfold topic_messages in *. rewrite filter_app, Hm. cbn [app].
  apply round_mono.
  set (old := m :: msgs).
  set (new := m :: (msgs ++ filter _ extra)%list).
  set (kws := default [] (dict_get topic coverage_keywords)).
  assert (Hwords : PyNum.min1 (PyNum.of_nat (total_words old) / 150)
                   <= PyNum.min1 (PyNum.of_nat (total_words new) / 150)).
  { apply min1_mono, Qdiv_le_mono; [reflexivity |]. apply of_nat_le.
    subst old new. change (m :: (msgs ++ ?l)%list) with ((m :: msgs) ++ l)%list.
    rewrite total_words_app. lia. }
  assert (Hkeys : match kws with
                  | [] => 0
                  | _ :: _ => PyNum.of_nat (covered_keywords (insights_gathered s) kws)
                              / PyNum.of_nat (length kws)
                  end
                  <= match kws with
                     | [] => 0
                     | _ :: _ => PyNum.of_nat (covered_keywords (insights_gathered s') kws)
                                 / PyNum.of_nat (length kws)
                     end).
  { destruct kws as [| k kws']; [lra |].
    apply Qdiv_le_mono; [apply of_nat_pos; simpl; lia |].
    apply of_nat_le, count_if_mono, Hflags. }
  lra.
Qed.

(** *** Rapport *)

Lemma sum_unit_interval l :
  Forall (fun x => 0 <= x <= 1) l -> 0 <= PyNum.sum l <= PyNum.of_nat (length l).
Proof.
  induction 1 as [| x l Hx _ IH]; simpl.
  - split; [lra | apply of_nat_nonneg].
  - rewrite of_nat_S. lra.
Qed.

Lemma rapport_formula_bounds fr :
  (0 < length fr)%nat -> Forall sentiment_in_range fr ->
  0 <= PyNum.round
         (PyNum.min1 (PyNum.of_nat (total_words fr) / PyNum.of_nat (length fr) / 100)
            * (4 # 10)
          + PyNum.sum (sentiment_or_default <$> fr)
              / PyNum.of_nat (length (sentiment_or_default <$> fr)) * (6 # 10)) 2
  <= 1.
Proof.
  intros Hlen Hfr.
  set (n := PyNum.of_nat (length fr)).
  assert (Hn : 0 < n) by (apply of_nat_pos; exact Hlen).
  pose proof (min1_le_1 (PyNum.of_nat (total_words fr) / n / 100)) as Hl1.
  assert (Hl0 : 0 <= PyNum.min1 (PyNum.of_nat (total_words fr) / n / 100)).
  { apply min1_nonneg. apply Qle_shift_div_l; [reflexivity |].
    assert (0 <= PyNum.of_nat (total_words fr) / n); [| lra].
    apply Qle_shift_div_l; [exact Hn |].
    pose proof (of_nat_nonneg (total_words fr)). lra. }
  assert (Hs : 0 <= PyNum.sum (sentiment_or_default <$> fr)
                    / PyNum.of_nat (length (sentiment_or_default <$> fr)) <= 1).
  { rewrite length_fmap. apply Qdiv_unit_interval; [exact Hn |].
    rewrite <- (length_fmap sentiment_or_default fr).
    apply sum_unit_interval. apply Forall_fmap. exact Hfr. }
  split; [apply round_nonneg | apply round2_le_1]; lra.
Qed.

Lemma calculate_rapport_level_bounds h r :
  Forall sentiment_in_range h ->
  calculate_rapport_level h = Some r -> 0 <= r <= 1.
Proof.
  intros Hall. unfold calculate_rapport_level.
  destruct (length h <? 2)%nat; [intros [= <-]; lra |].
  assert (Hfr : Forall sentiment_in_range (filter (fun msg => is_founder msg = true) h)).
  { rewrite Forall_forall in *. intros m Hm. apply Hall.
    apply list_elem_of_filter in Hm. apply Hm. }
  destruct (filter (fun msg => is_founder msg = true) h) as [| m fr]; [discriminate |].
  intros [= <-].
  apply (rapport_formula_bounds (m :: fr)); [simpl; lia | exact Hfr].
Qed.

Lemma calculate_rapport_level_well_formed h :
  well_formed_history h ->
  exists r, calculate_rapport_level h = Some r /\ 0 <= r <= 1.
Proof.
  intros [Hall Hf].
  destruct (calculate_rapport_level h) as [r |] eqn:Hr.
  - exists r. split; [reflexivity |]. eapply calculate_rapport_level_bounds; eassumption.
  - exfalso. unfold calculate_rapport_level in Hr.
    destruct Hf as [-> | Hf]; [discriminate |].
    destruct (length h <? 2)%nat; [discriminate |].
    destruct (filter (fun msg => is_founder msg = true) h); [simpl in Hf; lia | discriminate].
Qed.

Lemma well_formed_history_founder h fm :
  well_formed_history h -> msg_speaker fm = founder -> sentiment_in_range fm ->
  well_formed_history (h ++ [fm]).
Proof.
  intros [Hall _] Hs Hr. split.
  - apply Forall_app. split; [exact Hall |]. constructor; [exact Hr | constructor].
  - right. rewrite filter_app, length_app.
    rewrite (filter_cons_True _ fm []); [simpl; lia |].
    unfold is_founder. rewrite Hs. reflexivity.
Qed.

Lemma well_formed_history_interviewer h im :
  well_formed_history h -> h <> [] -> msg_analysis im = None ->
  well_formed_history (h ++ [im]).
Proof.
  intros [Hall Hf] Hne Ha. split.
  - apply Forall_app. split; [exact Hall |]. constructor; [| constructor].
    unfold sentiment_in_range, sentiment_or_default. rewrite Ha. lra.
  - right. destruct Hf as [-> | Hf]; [congruence |].
    rewrite filter_app, length_app. lia.
Qed.

Lemma record_founder_turn_well_formed s r audio now :
  well_formed_history (conversation_history s) ->
  well_formed_history (conversation_history (record_founder_turn s r audio now)).
Proof.
  intros H.
  exact (well_formed_history_founder (conversation_history s)
           (founder_message now s r (analyze_response_content r (current_topic s)) audio)
           H eq_refl (sentiment_of_bounds _ _)).
Qed.

Lemma exchange_well_formed s e :
  well_formed_history (conversation_history s) ->
  well_formed_history (conversation_history (exchange s e))
  /\ 0 <= rapport_level (exchange s e) <= 1.
Proof.
  intros H. destruct e as [[r audio] clock]. unfold exchange.
  destruct (process_founder_response_spec s r audio clock)
    as (rapport & q & Hr & _ & -> & _).
  pose proof (record_founder_turn_well_formed s r audio (now_founder clock) H) as H2.
  split.
  - apply (well_formed_history_interviewer
             (conversation_history (record_founder_turn s r audio (now_founder clock)))
             (interviewer_message (now_interviewer clock) q) H2); [| reflexivity].
    cbn. intros Hnil. apply app_eq_nil in Hnil as [_ Hnil]. discriminate.
  - eapply calculate_rapport_level_bounds; [apply H2 | exact Hr].
Qed.

Lemma reachable_well_formed s :
  reachable s ->
  well_formed_history (conversation_history s) /\ 0 <= rapport_level s <= 1.
Proof.
  induction 1 as [| s e _ [IH _]].
  - split; [split; [constructor | left; reflexivity] | cbn; lra].
  - apply exchange_well_formed, IH.
Qed.

End Tracker.

(** An exchange only adds true flags. *)
Lemma exchange_flags_grow s e k :
  VoiceAgent.flag_set (VoiceAgent.insights_gathered s) k = true ->
  VoiceAgent.flag_set (VoiceAgent.insights_gathered (VoiceAgent.exchange s e)) k = true.
Proof.
  destruct e as [[r audio] clock]. unfold VoiceAgent.exchange, VoiceAgent.flag_set.
  destruct (process_founder_response_decision s r audio clock)
    as (q & _ & _ & Hi & _).
  cbn zeta in Hi. rewrite Hi.
  change (VoiceAgent.insights_gathered
            (VoiceAgent.record_founder_turn s r audio (VoiceAgent.now_founder clock)))
    with (VoiceAgent.insights
            (VoiceAgent.analyze_response_content r (VoiceAgent.current_topic s))
          ∪ VoiceAgent.insights_gathered s).
  set (ia := VoiceAgent.insights
               (VoiceAgent.analyze_response_content r (VoiceAgent.current_topic s))).
  intros H. destruct (ia !! k) as [b |] eqn:Hk.
  - rewrite (lookup_union_Some_l _ _ _ _ Hk).
    apply (extract_topic_insights_true _ _ _ _ Hk).
  - rewrite lookup_union_r; assumption.
Qed.

(** C5: the coverage of a topic is exactly 0 while the history holds no
    founder turn on that topic, and it does not decrease when the history is
    extended by further entries and the set of true insight flags grows (the
    keyword table being fixed). *)
Theorem C5_coverage_zero_and_monotone
    (s s' : VoiceAgent.Session) (topic : string) (extra : list VoiceAgent.Message) :
  (VoiceAgent.topic_messages (VoiceAgent.conversation_history s) topic = [] ->
   VoiceAgent.calculate_topic_coverage s topic = 0%Q)
  /\ (VoiceAgent.conversation_history s'
      = (VoiceAgent.conversation_history s ++ extra)%list ->
      (forall k, VoiceAgent.flag_set (VoiceAgent.insights_gathered s) k = true ->
                 VoiceAgent.flag_set (VoiceAgent.insights_gathered s') k = true) ->
      (VoiceAgent.calculate_topic_coverage s topic
       <= VoiceAgent.calculate_topic_coverage s' topic)%Q).
Proof.
  split.
  - intros H. unfold VoiceAgent.calculate_topic_coverage. rewrite H. reflexivity.
  - apply calculate_topic_coverage_mono.
Qed.

Lemma C5_coverage_zero_and_monotone_witness :
  VoiceAgent.calculate_topic_coverage Scenario.at_business_model "business_model" = 0%Q
  /\ (VoiceAgent.calculate_topic_coverage
        (VoiceAgent.exchange Scenario.at_business_model
           (Scenario.partial_answer, None, Scenario.clock)) "business_model"
      <= VoiceAgent.calculate_topic_coverage
           (VoiceAgent.exchange
              (VoiceAgent.exchange Scenario.at_business_model
                 (Scenario.partial_answer, None, Scenario.clock))
              (Scenario.rich, None, Scenario.clock)) "business_model")%Q.
Proof.
  split.
  - apply (proj1 (C5_coverage_zero_and_monotone
                    Scenario.at_business_model Scenario.at_business_model
                    "business_model" [])).
    reflexivity.
  - apply (proj2 (C5_coverage_zero_and_monotone
                    (VoiceAgent.exchange Scenario.at_business_model
                       (Scenario.partial_answer, None, Scenario.clock))
                    (VoiceAgent.exchange
                       (VoiceAgent.exchange Scenario.at_business_model
                          (Scenario.partial_answer, None, Scenario.clock))
                       (Scenario.rich, None, Scenario.clock))
                    "business_model"
                    (drop 2 (VoiceAgent.conversation_history
                               (VoiceAgent.exchange
                                  (VoiceAgent.exchange Scenario.at_business_model
                                     (Scenario.partial_answer, None, Scenario.clock))
                                  (Scenario.rich, None, Scenario.clock)))))).
    + vm_compute. reflexivity.
    + intros k. apply exchange_flags_grow.
Defined.

(** C6: the rapport computation yields 0.5 on every history with fewer
    than two entries, the empty one included, and on every history of an
    interview (after a whole exchange, and at the point of the call, when the
    founder turn has just been recorded) it returns a value between 0 and 1
    without raising; the rapport stored in the session stays between 0 and
    1. *)
Theorem C6_rapport_in_unit_interval :
  (forall h, (length h < 2)%nat ->
             VoiceAgent.calculate_rapport_level h = Some (1 # 2)%Q)
  /\ (forall s, VoiceAgent.reachable s ->
        (exists r, VoiceAgent.calculate_rapport_level (VoiceAgent.conversation_history s)
                   = Some r /\ (0 <= r <= 1)%Q)
        /\ (0 <= VoiceAgent.rapport_level s <= 1)%Q
        /\ (forall response audio now,
              exists r,
                VoiceAgent.calculate_rapport_level
                  (VoiceAgent.conversation_history
                     (VoiceAgent.record_founder_turn s response audio now))
                = Some r /\ (0 <= r <= 1)%Q)).
Proof.
  split.
  - intros h Hh. unfold VoiceAgent.calculate_rapport_level.
    destruct (Nat.ltb_spec (length h) 2); [reflexivity | lia].
  - intros s Hs. destruct (reachable_well_formed s Hs) as [Hwf Hr].
    split; [apply calculate_rapport_level_well_formed, Hwf |].
    split; [exact Hr |].
    intros response audio now.
    apply calculate_rapport_level_well_formed, record_founder_turn_well_formed, Hwf.
Qed.

Lemma C6_rapport_in_unit_interval_witness :
  VoiceAgent.calculate_rapport_level [] = Some (1 # 2)%Q
  /\ (0 <= VoiceAgent.rapport_level
             (VoiceAgent.exchange
                (VoiceAgent.exchange Scenario.started
                   (Scenario.rich, None, Scenario.clock))
                (Scenario.brief, None, Scenario.clock)) <= 1)%Q.
Proof.
  split.
  - apply (proj1 C6_rapport_in_unit_interval). simpl. lia.
  - apply (proj2 C6_rapport_in_unit_interval).
    apply VoiceAgent.reachable_exchange, VoiceAgent.reachable_exchange.
    exact (VoiceAgent.reachable_start 1 "Ann" "comprehensive"
             "20250921_113511" "2025-09-21T11:35:11").
Defined.

(** A history of two interviewer entries makes the computation divide by
    zero; no interview produces such a history. *)
Example rapport_without_founder_raises :
  VoiceAgent.calculate_rapport_level
    [VoiceAgent.interviewer_message "t"
       {| VoiceAgent.q_message := "a"; VoiceAgent.q_topic := "introduction";
          VoiceAgent.q_type := VoiceAgent.follow_up |};
     VoiceAgent.interviewer_message "t"
       {| VoiceAgent.q_message := "b"; VoiceAgent.q_topic := "introduction";
          VoiceAgent.q_type := VoiceAgent.follow_up |}]
  = None.
Proof. reflexivity. Qed.

(** ** The stop phrase of the text interview *)

(** C8: a typed line that is one of the stop phrases, at any topic and
    after any history, is recognized by [listen_for_response] before any
    analysis; the loop is left at once with the session exactly as it was (no
    analysis, no insight, no rapport update, no history entry for the stop
    phrase, so at most one), the closing words are spoken, and the summary is
    produced from that unchanged session. *)
Theorem C8_stop_phrase_ends_interview
    (clock : nat -> string) (remaining : nat) (self : LiveText.LiveTextInterviewer)
    (c : LiveText.Console) (text : string) (rest : list LiveText.Input)
    (seconds : nat) (date : string) :
  LiveText.interview_active (LiveText.session_data self) = true ->
  LiveText.inputs c = LiveText.Line text :: rest ->
  PyStr.mem (PyStr.lower (PyStr.strip text)) LiveText.stop_phrases = true ->
  let e := LiveText.interview_loop clock (S remaining) self c in
  LiveText.listen_for_response (LiveText.Line text) = Some "STOP_INTERVIEW"
  /\ e = LiveText.Left self
           {| LiveText.inputs := rest;
              LiveText.spoken :=
                LiveText.spoken c
                  ++ [LiveText.stop_message (LiveText.self_founder_name self)
                                            (LiveText.self_startup_name self)] |}
  /\ LiveText.summary_after e seconds date
     = Some (LiveText.print_interview_summary self seconds date)
  /\ (forall self' c', e = LiveText.Left self' c' ->
        LiveText.conversation_history (LiveText.session_data self')
        = LiveText.conversation_history (LiveText.session_data self)
        /\ (length (LiveText.conversation_history (LiveText.session_data self'))
            <= length (LiveText.conversation_history (LiveText.session_data self)) + 1)%nat).
Proof.
  intros Hactive Hin Hstop. cbn zeta.
  assert (Hl : LiveText.listen_for_response (LiveText.Line text) = Some "STOP_INTERVIEW").
  { unfold LiveText.listen_for_response. rewrite Hstop. reflexivity. }
  assert (He : LiveText.interview_loop clock (S remaining) self c
               = LiveText.Left self
                   {| LiveText.inputs := rest;
                      LiveText.spoken :=
                        LiveText.spoken c
                          ++ [LiveText.stop_message (LiveText.self_founder_name self)
                                                    (LiveText.self_startup_name self)] |}).
  { cbn [LiveText.interview_loop]. rewrite Hactive. cbn [negb].
    unfold LiveText.read. rewrite Hin, Hl. reflexivity. }
  rewrite He. repeat split; try assumption.
  - injection H as <- _. reflexivity.
  - injection H as <- _. lia.
Qed.

Lemma C8_stop_phrase_ends_interview_witness :
  LiveText.conduct_live_interview Scenario.text_interviewer
    [LiveText.Line "  Stop Interview "; LiveText.Line "one more thing"]
    (fun _ => "2025-09-21T11:40:00") 275 "2025-09-21 11:40:00"
  = (LiveText.Left Scenario.text_interviewer
       {| LiveText.inputs := [LiveText.Line "one more thing"];
          LiveText.spoken :=
            [LiveText.opening_message "Ann" "Acme"; LiveText.stop_message "Ann" "Acme"] |},
     Some (LiveText.print_interview_summary Scenario.text_interviewer
             275 "2025-09-21 11:40:00"))
  /\ length (LiveText.conversation_history (LiveText.session_data Scenario.text_interviewer))
     = 2%nat
  /\ LiveText.current_topic (LiveText.session_data Scenario.text_interviewer)
     = "business_model".
Proof.
  split; [| split; reflexivity].
  unfold LiveText.conduct_live_interview.
  destruct (C8_stop_phrase_ends_interview (fun _ => "2025-09-21T11:40:00") 5
              Scenario.text_interviewer
              (LiveText.speak (LiveText.opening_message "Ann" "Acme")
                 {| LiveText.inputs :=
                      [LiveText.Line "  Stop Interview "; LiveText.Line "one more thing"];
                    LiveText.spoken := [] |})
              "  Stop Interview " [LiveText.Line "one more thing"]
              275 "2025-09-21 11:40:00" eq_refl eq_refl eq_refl)
    as (_ & He & Hs & _).
  cbn zeta in He, Hs.
  change LiveText.max_exchanges with 6%nat.
  change (LiveText.self_founder_name Scenario.text_interviewer) with "Ann".
  change (LiveText.self_startup_name Scenario.text_interviewer) with "Acme".
  rewrite Hs, He. reflexivity.
Defined.

(** * Further properties of the voice interview agent *)

Section VoiceAgentStatus.
Import PyStr VoiceAgent.
Local Open Scope Q_scope.

(** The status of a call is decided by the last step alone. *)
Lemma process_founder_response_status s r audio clock :
  let res := process_founder_response s r audio clock in
  match calculate_interview_progress (fst res) (minutes_since_start clock) with
  | Some progress =>
      exists message,
        snd res = Success message (current_topic (fst res)) progress (fst res)
  | None => snd res = Error
  end.
Proof.
  cbn zeta.
  destruct (process_founder_response_spec s r audio clock) as (rapport & q & Hr & Hq & _).
  cbn zeta in Hr, Hq. unfold process_founder_response. rewrite Hr, Hq.
  set (s5 := set_current_topic (q_topic q) _).
  destruct (calculate_interview_progress s5 (minutes_since_start clock))
    as [progress |] eqn:Hp; cbn [fst snd]; rewrite Hp.
  - eexists. reflexivity.
  - reflexivity.
Qed.

(** X1: a call of [process_founder_response] reports success exactly when
    the topic it leaves the session on is one of the nine topics of the
    flow, and the progress it returns counts the topics before that one;
    when the session is left on any other topic ("conclusion" after the last
    topic) the call reports an error, although the session has been
    updated. *)
Theorem X1_success_iff_topic_in_flow
    (s : Session) (r : string) (audio : option string) (clock : Clock) :
  let res := process_founder_response s r audio clock in
  (index (current_topic (fst res)) topic_flow = None /\ snd res = Error)
  \/ (exists i message progress,
        index (current_topic (fst res)) topic_flow = Some i
        /\ snd res = Success message (current_topic (fst res)) progress (fst res)
        /\ topics_completed progress = i
        /\ p_current_topic progress = current_topic (fst res)).
Proof.
  cbn zeta. pose proof (process_founder_response_status s r audio clock) as H.
  cbn zeta in H. unfold calculate_interview_progress in H.
  destruct (index (current_topic (fst (process_founder_response s r audio clock))) topic_flow)
    as [i |] eqn:Hi.
  - right. destruct H as [message H]. exists i. eexists. eexists.
    repeat split; [exact H | reflexivity | reflexivity].
  - left. split; [reflexivity | exact H].
Qed.

(** X24 (immutable fields): a call never changes the identity of the
    session, its start time, the interview type, the energy level, nor the
    two bookkeeping lists [questions_asked] and [follow_up_needed]. *)
Theorem X24_exchange_keeps_identity
    (s : Session) (r : string) (audio : option string) (clock : Clock) :
  let s' := fst (process_founder_response s r audio clock) in
  session_id s' = session_id s /\ startup_id s' = startup_id s
  /\ founder_name s' = founder_name s /\ interview_type s' = interview_type s
  /\ start_time s' = start_time s /\ energy_level s' = energy_level s
  /\ questions_asked s' = questions_asked s
  /\ follow_up_needed s' = follow_up_needed s.
Proof.
  cbn zeta.
  destruct (process_founder_response_spec s r audio clock) as (rapport & q & _ & _ & -> & _).
  repeat split.
Qed.

End VoiceAgentStatus.

Section VoiceAgentStartedInterview.
Import PyStr VoiceAgent.
Local Open Scope Q_scope.

Lemma generate_topic_continuation_no_bank s topic :
  dict_get topic interview_questions = None ->
  generate_topic_continuation s topic
  = Some {| q_message := "Can you tell me more about that?";
            q_topic := topic; q_type := continuation |}.
Proof.
  intros H. unfold generate_topic_continuation. rewrite H. cbn [length].
  rewrite Nat.mod_1_r.
  destruct (Nat.ltb_spec (length (interviewer_messages (conversation_history s) topic)) 0);
    [lia | reflexivity].
Qed.

(** The two sentences an interview on the introduction can produce. *)
Lemma introduction_question s a :
  current_topic s = "introduction" -> questions_asked s = [] ->
  exists q, generate_next_conversational_question s a = Some q
            /\ q_topic q = "introduction"
            /\ (q_message q
                = "That's fascinating, " ++ founder_name s
                  ++ "! Can you tell me more about that specific moment when you realized this was a problem worth solving?"
                \/ q_message q = "Can you tell me more about that?").
Proof.
  intros Ht Hqa. unfold generate_next_conversational_question.
  destruct (needs_follow_up a).
  - destruct (generate_follow_up_question_spec s a) as (q & Hq & Hqt & _ & Hm).
    exists q. rewrite Ht in Hqt, Hm. rewrite Hqa in Hm. cbn in Hm.
    split; [exact Hq |]. split; [exact Hqt |]. left. congruence.
  - rewrite Ht.
    destruct (PyNum.ltb (calculate_topic_coverage s "introduction") (7 # 10)) eqn:Hc.
    + rewrite (generate_topic_continuation_no_bank s "introduction" eq_refl).
      eexists. split; [reflexivity |]. split; [reflexivity |]. right. reflexivity.
    + apply ltb_false in Hc.
      pose proof (calculate_topic_coverage_no_keywords s "introduction" eq_refl). lra.
Qed.

(** X2: an interview started by [start_live_voice_interview] never leaves
    its first topic: the introduction has no coverage keywords, so its
    coverage stays at 0.4 or below and the threshold 0.7 is never reached.
    Every call on such a session succeeds, reports no completed topic, and
    answers with one of two sentences: the first follow-up of the
    introduction bank, or "Can you tell me more about that?". *)
Theorem X2_started_interview_stays_on_introduction (s : Session) :
  reachable s ->
  current_topic s = "introduction"
  /\ forall r audio clock,
       exists message progress,
         process_founder_response s r audio clock
         = (exchange s (r, audio, clock),
            Success message "introduction" progress (exchange s (r, audio, clock)))
         /\ topics_completed progress = 0%nat
         /\ (message
             = "That's fascinating, " ++ founder_name s
               ++ "! Can you tell me more about that specific moment when you realized this was a problem worth solving?"
             \/ message = "Can you tell me more about that?").
Proof.
  intros Hs. split; [apply reachable_current_topic, Hs |].
  intros r audio clock.
  pose proof (reachable_current_topic _ (reachable_exchange s (r, audio, clock) Hs)) as Ht'.
  pose proof (reachable_current_topic s Hs) as Ht.
  pose proof (reachable_questions_asked s Hs) as Hqa.
  unfold exchange in *.
  destruct (process_founder_response_spec s r audio clock)
    as (rapport & q & _ & Hq & Hfst & Hsnd).
  cbn zeta in Hq.
  destruct (introduction_question
              (set_rapport_level rapport (record_founder_turn s r audio (now_founder clock)))
              (analyze_response_content r (current_topic s)) Ht Hqa)
    as (q' & Hq' & Hqt & Hm).
  rewrite Hq in Hq'. injection Hq' as <-.
  pose proof (process_founder_response_status s r audio clock) as Hst.
  cbn zeta in Hst. unfold calculate_interview_progress in Hst.
  rewrite Ht' in Hst. cbn in Hst. destruct Hst as [message Hst].
  destruct Hsnd as [Hsnd | [progress Hsnd]]; [congruence |].
  exists (q_message q), progress.
  split; [| split; [| exact Hm]].
  - rewrite (surjective_pairing (process_founder_response s r audio clock)).
    rewrite Hsnd, Hqt. reflexivity.
  - rewrite Hsnd in Hst. injection Hst as _ _ ->. reflexivity.
Qed.

Lemma X2_started_interview_stays_on_introduction_witness :
  current_topic
    (exchange (exchange Scenario.started (Scenario.rich, None, Scenario.clock))
              (Scenario.visionary, None, Scenario.clock))
  = "introduction".
Proof.
  apply X2_started_interview_stays_on_introduction.
  apply reachable_exchange, reachable_exchange.
  exact (reachable_start 1 "Ann" "comprehensive" "20250921_113511" "2025-09-21T11:35:11").
Defined.

End VoiceAgentStartedInterview.

Section VoiceAgentScores.
Import PyStr VoiceAgent.
Local Open Scope Q_scope.

Lemma assess_response_quality_bounds response topic wc :
  8 # 100 <= assess_response_quality response topic wc <= 1
  /\ ((wc < 20)%nat -> assess_response_quality response topic wc <= 68 # 100)
  /\ ((20 <= wc)%nat -> 24 # 100 <= assess_response_quality response topic wc).
Proof.
  unfold assess_response_quality.
  set (c := count_if _ specificity_indicators).
  assert (Hs : 0 <= PyNum.min1 (PyNum.of_nat c / 3) <= 1).
  { split; [| apply min1_le_1]. apply min1_nonneg.
    apply Qle_shift_div_l; [reflexivity |]. pose proof (of_nat_nonneg c). lra. }
  assert (Hlow : forall x, 8 # 100 <= x -> 8 # 100 <= PyNum.round x 2).
  { intros x Hx. apply Qle_trans with (PyNum.round (8 # 100) 2);
      [vm_compute; discriminate | apply round_mono, Hx]. }
  assert (Hmid : forall x, 24 # 100 <= x -> 24 # 100 <= PyNum.round x 2).
  { intros x Hx. apply Qle_trans with (PyNum.round (24 # 100) 2);
      [vm_compute; discriminate | apply round_mono, Hx]. }
  assert (Hup : forall x, x <= 68 # 100 -> PyNum.round x 2 <= 68 # 100).
  { intros x Hx. apply Qle_trans with (PyNum.round (68 # 100) 2);
      [apply round_mono, Hx | vm_compute; discriminate]. }
  destruct (Nat.ltb_spec wc 20); [| destruct (Nat.ltb_spec wc 50);
    [| destruct (Nat.leb_spec wc 200)]];
    (split; [split; [apply Hlow | apply round2_le_1]; lra |]);
    (split; [intros; try lia; apply Hup; lra | intros; try lia; apply Hmid; lra]).
Qed.

(** X3: for every utterance and topic the analysis has a sentiment between
    0 and 1 and a quality score between 0.08 and 1; an utterance of fewer
    than 20 words always needs a follow-up and scores at most 0.68; an
    analysis that needs no follow-up has at least 20 words and a quality of
    at least 0.6. *)
Theorem X3_analysis_scores_in_range (response current_topic : string) :
  let a := analyze_response_content response current_topic in
  0 <= sentiment_score a <= 1
  /\ 8 # 100 <= quality_score a <= 1
  /\ ((word_count a < 20)%nat -> needs_follow_up a = true /\ quality_score a <= 68 # 100)
  /\ (needs_follow_up a = false -> (20 <= word_count a)%nat /\ 6 # 10 <= quality_score a).
Proof.
  cbn zeta. unfold analyze_response_content.
  cbn [sentiment_score quality_score word_count needs_follow_up].
  set (wc := length (split response)).
  destruct (assess_response_quality_bounds response current_topic wc) as (Hq & Hshort & _).
  split; [apply sentiment_of_bounds |]. split; [exact Hq |]. split.
  - intros Hwc. split; [| apply Hshort, Hwc].
    apply orb_true_iff. right. apply Nat.ltb_lt, Hwc.
  - intros Hf. apply orb_false_iff in Hf as [Hf1 Hf2].
    split; [apply Nat.ltb_ge, Hf2 | apply ltb_false, Hf1].
Qed.

Lemma X3_analysis_scores_in_range_witness :
  needs_follow_up (analyze_response_content Scenario.brief "introduction") = true
  /\ (20 <= word_count (analyze_response_content Scenario.rich "business_model"))%nat.
Proof.
  split.
  - apply (proj1 (proj2 (proj2 (X3_analysis_scores_in_range Scenario.brief "introduction")))).
    vm_compute. lia.
  - apply (proj2 (proj2 (proj2 (X3_analysis_scores_in_range Scenario.rich "business_model")))).
    vm_compute. reflexivity.
Defined.

(** Flags set while folding over the keywords. *)
Lemma insight_fold_lookup (response_lower : string) (kws : list string)
    (acc : gmap string bool) (k : string) :
  foldl (fun insights keyword =>
           if contains keyword response_lower
           then <[keyword := true]> insights else insights) acc kws !! k = Some true
  <-> acc !! k = Some true \/ (k ∈ kws /\ contains k response_lower = true).
Proof.
  revert acc. induction kws as [| kw kws IH]; intros acc; cbn [foldl].
  - split; [left; assumption | intros [H | [H _]]; [assumption | inversion H]].
  - rewrite IH, elem_of_cons. destruct (contains kw response_lower) eqn:Hc.
    + rewrite lookup_insert. destruct (decide (kw = k)) as [-> | Hk].
      * split; intros _; [right; split; [left; reflexivity | exact Hc] | left; reflexivity].
      * split; (intros [H | [H1 H2]]; [left; exact H |]).
        -- right. split; [right; exact H1 | exact H2].
        -- destruct H1 as [-> | H1]; [congruence | right; split; assumption].
    + split; (intros [H | [H1 H2]]; [left; exact H |]).
      * right. split; [right; exact H1 | exact H2].
      * destruct H1 as [-> | H1]; [congruence | right; split; assumption].
Qed.

(** X4: an insight flag is set, and set to true, exactly for the keywords
    of the current topic's taxonomy that occur in the lower-cased utterance;
    no other key is present, so a topic outside the taxonomy yields no
    flag. *)
Theorem X4_insight_flag_iff_keyword_occurs (response current_topic k : string) :
  let a := analyze_response_content response current_topic in
  let keywords := default [] (dict_get current_topic insight_keywords) in
  (insights a !! k = Some true
   <-> k ∈ keywords /\ contains k (lower response) = true)
  /\ (insights a !! k = None
      <-> ~ (k ∈ keywords /\ contains k (lower response) = true)).
Proof.
  cbn zeta. unfold analyze_response_content. cbn [insights].
  assert (Hiff : extract_topic_insights (lower response) current_topic !! k = Some true
                 <-> k ∈ default [] (dict_get current_topic insight_keywords)
                     /\ contains k (lower response) = true).
  { unfold extract_topic_insights. rewrite insight_fold_lookup, lookup_empty.
    split; [intros [H | H]; [discriminate | exact H] | intros H; right; exact H]. }
  split; [exact Hiff |].
  destruct (extract_topic_insights (lower response) current_topic !! k) as [b |] eqn:Hk.
  - rewrite (extract_topic_insights_true _ _ _ _ Hk) in *.
    split; [discriminate | intros Hn; exfalso; apply Hn, Hiff; reflexivity].
  - split; [| reflexivity]. intros _ Hn. apply Hiff in Hn. discriminate.
Qed.

Lemma calculate_topic_coverage_le_1 s topic : calculate_topic_coverage s topic <= 1.
Proof.
  unfold calculate_topic_coverage.
  destruct (topic_messages (conversation_history s) topic) as [| m msgs]; [lra |].
  apply round2_le_1.
  set (kws := default [] (dict_get topic coverage_keywords)).
  pose proof (min1_le_1 (PyNum.of_nat (total_words (m :: msgs)) / 150)) as Hw.
  assert (match kws with
          | [] => 0
          | _ :: _ => PyNum.of_nat (covered_keywords (insights_gathered s) kws)
                      / PyNum.of_nat (length kws)
          end <= 1).
  { destruct kws as [| k kws']; [lra |].
    apply Qle_shift_div_r; [apply of_nat_pos; simpl; lia |].
    rewrite Qmult_1_l. apply of_nat_le, count_if_le_length. }
  lra.
Qed.

(** X5: the coverage of a topic always lies between 0 and 1, and for a
    topic without coverage keywords (the introduction, "conclusion" and any
    unknown name) it is at most 0.4, below the threshold 0.7 that lets the
    interview move on. *)
Theorem X5_coverage_range (s : Session) (topic : string) :
  0 <= calculate_topic_coverage s topic <= 1
  /\ (dict_get topic coverage_keywords = None ->
      calculate_topic_coverage s topic <= 4 # 10
      /\ PyNum.ltb (calculate_topic_coverage s topic) (7 # 10) = true).
Proof.
  split; [split; [apply calculate_topic_coverage_nonneg | apply calculate_topic_coverage_le_1] |].
  intros H. pose proof (calculate_topic_coverage_no_keywords s topic H).
  split; [assumption | apply ltb_true; lra].
Qed.

Lemma X5_coverage_range_witness :
  calculate_topic_coverage
    (exchange Scenario.started (Scenario.rich, None, Scenario.clock)) "introduction"
  <= 4 # 10.
Proof.
  apply (proj2 (X5_coverage_range _ "introduction")). reflexivity.
Defined.

End VoiceAgentScores.

Section VoiceAgentRapport.
Import PyStr VoiceAgent.
Local Open Scope Q_scope.

Lemma calculate_rapport_level_interviewer_entry h m :
  (2 <= length h)%nat -> msg_speaker m = interviewer ->
  calculate_rapport_level (h ++ [m]) = calculate_rapport_level h.
Proof.
  intros Hlen Hm. unfold calculate_rapport_level.
  rewrite length_app. cbn [length].
  destruct (Nat.ltb_spec (length h + 1) 2); [lia |].
  destruct (Nat.ltb_spec (length h) 2); [lia |].
  rewrite filter_app, filter_cons_False, filter_nil, app_nil_r; [reflexivity |].
  unfold is_founder. rewrite Hm. discriminate.
Qed.

(** X6: the first call on a session with an empty history leaves the stored
    rapport at 0.5 whatever the founder says (the rapport is computed when
    the history holds one entry only); on a session whose history is not
    empty the rapport stored by a call is the rapport of the history the call
    leaves behind, the interviewer entry not counting. *)
Theorem X6_stored_rapport
    (s : Session) (r : string) (audio : option string) (clock : Clock) :
  let s' := fst (process_founder_response s r audio clock) in
  (conversation_history s = [] -> rapport_level s' = 1 # 2)
  /\ (conversation_history s <> [] ->
      calculate_rapport_level (conversation_history s') = Some (rapport_level s')).
Proof.
  cbn zeta.
  destruct (process_founder_response_spec s r audio clock) as (rapport & q & Hr & _ & -> & _).
  cbn zeta in Hr.
  cbn [rapport_level conversation_history set_current_topic set_conversation_history
       set_rapport_level].
  split.
  - intros Hnil. unfold record_founder_turn in Hr. cbn in Hr. rewrite Hnil in Hr.
    cbn in Hr. congruence.
  - intros Hne.
    change (conversation_history
              (set_rapport_level rapport (record_founder_turn s r audio (now_founder clock))))
      with (conversation_history (record_founder_turn s r audio (now_founder clock))).
    rewrite calculate_rapport_level_interviewer_entry; [exact Hr | | reflexivity].
    cbn. rewrite length_app. cbn.
    destruct (conversation_history s); [congruence | cbn; lia].
Qed.

Lemma X6_stored_rapport_witness :
  rapport_level
    (fst (process_founder_response Scenario.started Scenario.rich None Scenario.clock))
  = 1 # 2.
Proof.
  apply (proj1 (X6_stored_rapport Scenario.started Scenario.rich None Scenario.clock)).
  reflexivity.
Defined.

(** The rapport stored after the first exchange is not the rapport of the
    history it leaves: recomputed on the two entries it would be 0.46. *)
Example first_rapport_lags :
  let s' := exchange Scenario.started (Scenario.rich, None, Scenario.clock) in
  rapport_level s' = 1 # 2
  /\ exists r, calculate_rapport_level (conversation_history s') = Some r /\ r == 46 # 100.
Proof.
  cbn zeta. split; [reflexivity |]. eexists. split; [vm_compute; reflexivity |].
  vm_compute. reflexivity.
Qed.

(** X7: whenever [calculate_interview_progress] returns, the number of
    completed topics is below the total of 9, the percentage is at most
    88.9 (it never reaches 100), and the estimated remaining time is five
    minutes for each topic not completed, so between 5 and 45 minutes; it
    raises exactly when the current topic is outside the flow. *)
Theorem X7_progress_bounds (s : Session) (minutes : Q) :
  match calculate_interview_progress s minutes with
  | Some p =>
      index (current_topic s) topic_flow = Some (topics_completed p)
      /\ (topics_completed p < total_topics p)%nat /\ total_topics p = 9%nat
      /\ 0 <= progress_percentage p <= 889 # 10
      /\ estimated_remaining_minutes p = (5 * (9 - topics_completed p))%nat
      /\ (5 <= estimated_remaining_minutes p <= 45)%nat
  | None => index (current_topic s) topic_flow = None
  end.
Proof.
  unfold calculate_interview_progress.
  destruct (index (current_topic s) topic_flow) as [i |] eqn:Hi; [| reflexivity].
  pose proof (index_lt _ _ _ Hi) as Hlt.
  cbn [topics_completed total_topics progress_percentage estimated_remaining_minutes].
  split; [reflexivity |].
  do 9 (destruct i as [| i];
        [repeat split; try (vm_compute; discriminate); try (cbn; lia) |]).
  simpl in Hlt. lia.
Qed.

End VoiceAgentRapport.

Section VoiceAgentMessages.
Import PyStr VoiceAgent.

(** X8: every move the flow can make between two of its topics has its own
    sentence in the table of transitions, with the founder's name filled in
    where the sentence has one; only the move from the last topic to
    "conclusion" falls back to the generic sentence. *)
Theorem X8_transition_templates (s : Session) (i : nat) (topic : string) :
  topic_flow !! i = Some topic ->
  let q := generate_topic_transition s topic (next_in_sequence i) in
  q_topic q = next_in_sequence i /\ q_type q = transition
  /\ ((i < 8)%nat ->
      pair_get topic (next_in_sequence i) (transitions (founder_name s))
      = Some (q_message q))
  /\ (i = 8%nat -> q_message q = "Great! Now let's talk about conclusion.").
Proof.
  intros Hi. cbn zeta. split; [reflexivity |]. split; [reflexivity |].
  do 9 (destruct i as [| i];
        [injection Hi as <-;
         split; intros H; first [reflexivity | exfalso; lia] |]).
  discriminate.
Qed.

Lemma X8_transition_templates_witness :
  pair_get "business_model" "market_opportunity" (transitions "Ann")
  = Some (q_message (generate_topic_transition Scenario.at_business_model
                       "business_model" "market_opportunity")).
Proof.
  apply (proj1 (proj2 (proj2 (X8_transition_templates
                                Scenario.at_business_model 1 "business_model" eq_refl)))).
  lia.
Defined.

(** X9: an interview type other than "screening" and "deep_dive" gets the
    opening of the "comprehensive" interview, and the session is started on
    the introduction with an empty history, no insight and rapport 0.5. *)
Theorem X9_opening_fallback
    (startup_id : Z) (founder_name interview_type stamp iso : string) :
  interview_type <> "screening" -> interview_type <> "deep_dive" ->
  let started := start_live_voice_interview startup_id founder_name interview_type stamp iso in
  snd started = generate_conversational_opening founder_name "comprehensive"
  /\ current_topic (fst started) = "introduction"
  /\ conversation_history (fst started) = []
  /\ insights_gathered (fst started) = ∅
  /\ rapport_level (fst started) = (1 # 2)%Q.
Proof.
  intros H1 H2. cbn zeta. repeat split.
  cbn [snd start_live_voice_interview]. unfold generate_conversational_opening.
  cbn [dict_get].
  destruct (String.eqb_spec "comprehensive" interview_type) as [<- | _]; [reflexivity |].
  destruct (String.eqb_spec "screening" interview_type) as [<- | _]; [congruence |].
  destruct (String.eqb_spec "deep_dive" interview_type) as [<- | _]; [congruence |].
  reflexivity.
Qed.

Lemma X9_opening_fallback_witness :
  snd (start_live_voice_interview 7 "Ann" "coffee_chat" "20250921_113511" "2025-09-21T11:35:11")
  = generate_conversational_opening "Ann" "comprehensive".
Proof.
  apply (X9_opening_fallback 7 "Ann" "coffee_chat"); discriminate.
Defined.

End VoiceAgentMessages.

(** * Further properties of the text interview *)

Section TextInterviewInput.
Import PyStr LiveText LiveTextSteps.

Lemma listen_for_response_some i r :
  listen_for_response i = Some r ->
  is_empty r = false
  /\ (r = "STOP_INTERVIEW"
      \/ exists text, i = Line text /\ r = strip text
                      /\ mem (lower (strip text)) stop_phrases = false).
Proof.
  destruct i as [text | |]; cbn [listen_for_response]; [| intros [= <-]; auto | discriminate].
  destruct (mem (lower (strip text)) stop_phrases) eqn:Hm; [intros [= <-]; auto |].
  destruct (is_empty (strip text)) eqn:He; [discriminate |].
  intros [= <-]. split; [exact He |]. right. exists text. auto.
Qed.

(** X10: [listen_for_response] never hands an empty answer to the
    interview.  It yields the stop marker for an interrupt and for a line
    that is a stop phrase once stripped and lower-cased, nothing for a failed
    read and for a line of white space only, and otherwise the line without
    its surrounding white space. *)
Theorem X10_listen_for_response (i : Input) :
  match listen_for_response i with
  | None => i = InputError \/ exists text, i = Line text /\ strip text = ""
  | Some r =>
      is_empty r = false
      /\ ((r = "STOP_INTERVIEW"
           /\ (i = KeyboardInterrupt
               \/ exists text, i = Line text
                               /\ mem (lower (strip text)) stop_phrases = true))
          \/ exists text, i = Line text /\ r = strip text
                          /\ mem (lower (strip text)) stop_phrases = false)
  end.
Proof.
  destruct i as [text | |]; cbn [listen_for_response].
  - destruct (mem (lower (strip text)) stop_phrases) eqn:Hm.
    + split; [reflexivity |]. left. split; [reflexivity |]. right. eauto.
    + destruct (is_empty (strip text)) eqn:He.
      * right. exists text. split; [reflexivity |].
        destruct (strip text); [reflexivity | discriminate].
      * split; [exact He |]. right. eauto.
  - split; [reflexivity |]. left. auto.
  - left. reflexivity.
Qed.

End TextInterviewInput.

Section TextInterviewLoop.
Import PyStr LiveText LiveTextSteps.
Local Open Scope Q_scope.

Lemma analyze_response_word_count r :
  is_empty r = false -> exists n, word_count (analyze_response r) = Some n.
Proof. intros H. unfold analyze_response. rewrite H. eexists. reflexivity. Qed.

(** However the loop is driven, it is left normally, after at most
    [remaining] analyzed answers. *)
Lemma interview_loop_exchanges clock remaining self c :
  exists k self' c',
    (k <= remaining)%nat
    /\ interview_loop clock remaining self c = Left self' c'
    /\ exchanges clock k self self'.
Proof.
  revert self c. induction remaining as [| n IH]; intros self c.
  { exists 0%nat, self, c. split; [lia |]. split; [reflexivity | constructor]. }
  cbn [interview_loop].
  destruct (interview_active (session_data self)); cbn [negb];
    [| exists 0%nat, self, c; split; [lia |]; split; [reflexivity | constructor]].
  destruct (read c) as [i c1].
  destruct (listen_for_response i) as [response |] eqn:Hl.
  2:{ destruct (IH self c1) as (k & self' & c' & Hk & He & Hx).
      exists k, self', c'. split; [lia |]. split; assumption. }
  destruct (String.eqb response "STOP_INTERVIEW").
  { eexists 0%nat, self, _. split; [lia |]. split; [reflexivity | constructor]. }
  destruct (listen_for_response_some _ _ Hl) as [Hne _].
  destruct (analyze_response_word_count response Hne) as [w Hw]. rewrite Hw.
  pose proof (eq_refl (fst (record_exchange clock self response))) as Hrec.
  unfold record_exchange in Hrec at 2. cbv zeta in Hrec.
  destruct (generate_next_question _ (analyze_response response)) as [self2 q].
  cbn [fst] in Hrec.
  match type of Hrec with _ = ?x => set (self3 := x) in * end.
  destruct (String.eqb (current_topic (session_data self3)) "conclusion").
  - assert (Hx : exchanges clock 1 self self3).
    { apply (exchanges_more clock 0 self response self3 Hne). rewrite Hrec. constructor. }
    destruct (read (speak q c1)) as [i2 c2].
    destruct (listen_for_response i2) as [final |];
      [destruct (negb (is_empty final) && negb (String.eqb final "STOP_INTERVIEW")) |];
      eexists 1%nat, self3, _; (split; [lia |]); (split; [reflexivity | exact Hx]).
  - destruct (IH self3 (speak q c1)) as (k & self' & c' & Hk & He & Hx).
    exists (S k), self', c'. split; [lia |]. split; [exact He |].
    apply (exchanges_more clock k self response self' Hne). rewrite Hrec. exact Hx.
Qed.

(** X11: the loop of the text interview never raises: whatever is typed,
    [conduct_live_interview] leaves the loop normally and prints the summary
    of the session the loop ended with, which is the initial session after at
    most six analyzed answers. *)
Theorem X11_interview_always_summarized
    (self : LiveTextInterviewer) (ins : list Input) (clock : nat -> string)
    (seconds : nat) (date : string) :
  exists k self' c',
    (k <= 6)%nat
    /\ exchanges clock k self self'
    /\ conduct_live_interview self ins clock seconds date
       = (Left self' c', Some (print_interview_summary self' seconds date)).
Proof.
  unfold conduct_live_interview. cbv zeta.
  destruct (interview_loop_exchanges clock max_exchanges self
              (speak (opening_message (self_founder_name self) (self_startup_name self))
                     {| inputs := ins; spoken := [] |}))
    as (k & self' & c' & Hk & He & Hx).
  exists k, self', c'. split; [exact Hk |]. split; [exact Hx |].
  rewrite He. reflexivity.
Qed.

(** X12: an answer that cannot be used (a failed read, or a line of white
    space only) is not recorded, but it uses up one of the exchanges: when
    none of the next [remaining] inputs is usable, the loop of an active
    interview ends after reading them, with the interviewer untouched and
    nothing spoken. *)
Theorem X12_unusable_answers_use_up_exchanges
    (clock : nat -> string) (remaining : nat) (self : LiveTextInterviewer) (c : Console) :
  interview_active (session_data self) = true ->
  Forall (fun i => listen_for_response i = None) (take remaining (inputs c)) ->
  interview_loop clock remaining self c
  = Left self {| inputs := drop remaining (inputs c); spoken := spoken c |}.
Proof.
  intros Ha. revert c. induction remaining as [| n IH]; intros c Hall.
  { destruct c. reflexivity. }
  cbn [interview_loop]. rewrite Ha. cbn [negb].
  unfold read. destruct c as [[| i rest] sp]; cbn [inputs spoken] in *.
  - cbn. rewrite (IH {| inputs := []; spoken := sp |});
      [| cbn [inputs]; destruct n; constructor].
    cbn. rewrite drop_nil. reflexivity.
  - inversion Hall as [| ? ? Hi Hrest]; subst. rewrite Hi.
    rewrite (IH {| inputs := rest; spoken := sp |} Hrest). reflexivity.
Qed.

Lemma X12_unusable_answers_use_up_exchanges_witness :
  interview_loop (fun _ => "2025-09-21T11:40:00") 6 Scenario.text_interviewer
    {| inputs := [Line "   "; InputError; Line ""; Line "  "; InputError; Line "";
                  Line "We are growing."];
       spoken := [] |}
  = Left Scenario.text_interviewer
      {| inputs := [Line "We are growing."]; spoken := [] |}.
Proof.
  apply (X12_unusable_answers_use_up_exchanges (fun _ => "2025-09-21T11:40:00") 6
           Scenario.text_interviewer
           {| inputs := [Line "   "; InputError; Line ""; Line "  "; InputError; Line "";
                         Line "We are growing."];
              spoken := [] |}).
  - reflexivity.
  - repeat constructor.
Defined.

End TextInterviewLoop.

Section TextInterviewSteps.
Import PyStr LiveText LiveTextSteps.
Local Open Scope Q_scope.

(** [generate_next_question] touches the rapport and the topic only. *)
Lemma generate_next_question_frame self a :
  let self' := fst (generate_next_question self a) in
  self_founder_name self' = self_founder_name self
  /\ self_startup_name self' = self_startup_name self
  /\ conversation_history (session_data self') = conversation_history (session_data self)
  /\ insights_gathered (session_data self') = insights_gathered (session_data self)
  /\ interview_active (session_data self') = interview_active (session_data self)
  /\ session_id (session_data self') = session_id (session_data self)
  /\ start_time (session_data self') = start_time (session_data self).
Proof.
  cbn zeta. unfold generate_next_question. cbv zeta.
  destruct (dict_get _ _) as [[next_topic question] |];
    destruct (PyNum.gtb _ (7 # 10)); try destruct (PyNum.gtb _ (5 # 10));
    repeat split.
Qed.

Lemma generate_next_question_rapport self a :
  let r := rapport_level (session_data self) in
  let r' := rapport_level (session_data (fst (generate_next_question self a))) in
  r <= 1 -> r <= r' <= 1.
Proof.
  cbn zeta. intros Hr. unfold generate_next_question. cbv zeta.
  assert (H15 : rapport_level (session_data self)
                <= PyNum.min1 (rapport_level (session_data self) + (15 # 100)) <= 1).
  { destruct (min1_cases (rapport_level (session_data self) + (15 # 100)))
      as [[? ->] | [? ->]]; lra. }
  assert (H05 : rapport_level (session_data self)
                <= PyNum.min1 (rapport_level (session_data self) + (5 # 100)) <= 1).
  { destruct (min1_cases (rapport_level (session_data self) + (5 # 100)))
      as [[? ->] | [? ->]]; lra. }
  destruct (dict_get _ _) as [[next_topic question] |];
    destruct (PyNum.gtb (quality_score a) (7 # 10));
    try destruct (PyNum.gtb (quality_score a) (5 # 10));
    cbn [fst session_data with_session rapport_level set_current_topic set_rapport_level];
    first [exact H15 | exact H05 | lra].
Qed.

(** The topic after [generate_next_question]: the next one of the text
    flow, and the same one at "conclusion" and at any unknown topic. *)
Lemma generate_next_question_topic self a :
  let topic := current_topic (session_data self) in
  current_topic (session_data (fst (generate_next_question self a)))
  = match index topic text_flow with
    | Some i => default topic (text_flow !! S i)
    | None => topic
    end.
Proof.
  destruct self as [fn sn [sid fname sname st topic h ins r act]].
  cbn zeta. unfold generate_next_question. cbv zeta.
  cbn [session_data current_topic self_founder_name self_startup_name].
  unfold topic_questions, text_flow. cbn [dict_get index].
  repeat (match goal with
          | |- context [String.eqb ?k topic] =>
              destruct (String.eqb_spec k topic) as [<- | ?];
              [destruct (PyNum.gtb (quality_score a) (7 # 10));
               try destruct (PyNum.gtb (quality_score a) (5 # 10)); reflexivity |]
          end).
  destruct (PyNum.gtb (quality_score a) (7 # 10));
    try destruct (PyNum.gtb (quality_score a) (5 # 10)); reflexivity.
Qed.

(** What one analyzed answer does to the interviewer. *)
Lemma record_exchange_effect clock self response :
  let self' := fst (record_exchange clock self response) in
  let s := session_data self in
  let s' := session_data self' in
  self_founder_name self' = self_founder_name self
  /\ self_startup_name self' = self_startup_name self
  /\ interview_active s' = interview_active s
  /\ insights_gathered s'
     = dict_update (insights_gathered s) (insights (analyze_response response))
  /\ (exists fm im,
        conversation_history s' = (conversation_history s ++ [fm; im])%list
        /\ msg_speaker fm = founder /\ msg_content fm = response
        /\ msg_analysis fm = Some (analyze_response response)
        /\ msg_speaker im = interviewer
        /\ msg_content im = snd (record_exchange clock self response)
        /\ msg_topic im = Some (current_topic s'))
  /\ (rapport_level s <= 1 -> rapport_level s <= rapport_level s' <= 1)
  /\ current_topic s'
     = match index (current_topic s) text_flow with
       | Some i => default (current_topic s) (text_flow !! S i)
       | None => current_topic s
       end.
Proof.
  cbn zeta. unfold record_exchange. cbv zeta.
  set (self1 := with_session self _).
  pose proof (generate_next_question_frame self1 (analyze_response response)) as Hf.
  pose proof (generate_next_question_rapport self1 (analyze_response response)) as Hr.
  pose proof (generate_next_question_topic self1 (analyze_response response)) as Ht.
  cbn zeta in Hf, Hr, Ht.
  destruct (generate_next_question self1 (analyze_response response)) as [self2 q].
  cbn [fst snd] in *.
  destruct Hf as (Hn1 & Hn2 & Hh & Hi & Ha & _).
  cbn [session_data with_session self_founder_name self_startup_name interview_active
       insights_gathered conversation_history rapport_level current_topic
       set_conversation_history].
  split; [exact Hn1 |]. split; [exact Hn2 |]. split; [exact Ha |]. split; [exact Hi |].
  split; [| split; [exact Hr | exact Ht]].
  rewrite Hh. subst self1. cbn. rewrite <- app_assoc.
  eexists _, _. split; [reflexivity |]. repeat split.
Qed.

End TextInterviewSteps.

Section TextInterviewRuns.
Import PyStr LiveText LiveTextSteps.
Local Open Scope Q_scope.

Lemma text_flow_step topic i :
  index topic text_flow = Some i ->
  index (default topic (text_flow !! S i)) text_flow = Some (Nat.min (i + 1) 6).
Proof.
  intros Hi. pose proof (index_lookup _ _ _ Hi) as Hl.
  do 7 (destruct i as [| i]; [cbn in Hl; injection Hl as <-; reflexivity |]).
  discriminate.
Qed.

(** What [k] analyzed answers do to the interviewer. *)
Lemma exchanges_effect clock k self self' :
  exchanges clock k self self' ->
  let s := session_data self in
  let s' := session_data self' in
  self_founder_name self' = self_founder_name self
  /\ self_startup_name self' = self_startup_name self
  /\ interview_active s' = interview_active s
  /\ (exists added, conversation_history s' = (conversation_history s ++ added)%list
                    /\ length added = (2 * k)%nat)
  /\ (rapport_level s <= 1 -> rapport_level s <= rapport_level s' <= 1)
  /\ (forall i, index (current_topic s) text_flow = Some i ->
                index (current_topic s') text_flow = Some (Nat.min (i + k) 6))
  /\ (index (current_topic s) text_flow = None -> current_topic s' = current_topic s).
Proof.
  cbn zeta. induction 1 as [self | k self response self' Hne _ IH].
  { repeat split; try lra.
    - exists []. rewrite app_nil_r. split; reflexivity.
    - intros i Hi. rewrite Hi. f_equal.
      pose proof (index_lt _ _ _ Hi) as Hlt. cbn in Hlt. lia. }
  destruct (record_exchange_effect clock self response)
    as (Hn1 & Hn2 & Ha & _ & (fm & im & Hh & _) & Hr & Ht).
  cbn zeta in *.
  destruct IH as (IHn1 & IHn2 & IHa & (added & IHh & IHlen) & IHr & IHt & IHu).
  split; [congruence |]. split; [congruence |]. split; [congruence |].
  split; [| split; [| split]].
  - exists ([fm; im] ++ added)%list. rewrite IHh, Hh, <- app_assoc.
    split; [reflexivity |]. rewrite length_app, IHlen. cbn. lia.
  - intros H1. specialize (Hr H1). specialize (IHr ltac:(lra)). lra.
  - intros i Hi. rewrite Hi in Ht.
    rewrite (IHt (Nat.min (i + 1) 6)).
    + f_equal. lia.
    + rewrite Ht. apply text_flow_step, Hi.
  - intros Hu. rewrite Hu in Ht. rewrite IHu; [exact Ht |]. rewrite Ht. exact Hu.
Qed.

(** X13: however the loop of the text interview is left, the history it
    leaves is the one it started with followed by two entries for each
    analyzed answer, of which there are at most [remaining]; the names and
    the active flag are untouched, and a rapport of at most 1 never goes
    down and never passes 1. *)
Theorem X13_loop_appends_whole_exchanges
    (clock : nat -> string) (remaining : nat) (self : LiveTextInterviewer) (c : Console) :
  exists k self' c' added,
    interview_loop clock remaining self c = Left self' c'
    /\ (k <= remaining)%nat
    /\ conversation_history (session_data self')
       = (conversation_history (session_data self) ++ added)%list
    /\ length added = (2 * k)%nat
    /\ self_founder_name self' = self_founder_name self
    /\ self_startup_name self' = self_startup_name self
    /\ interview_active (session_data self') = interview_active (session_data self)
    /\ (rapport_level (session_data self) <= 1 ->
        rapport_level (session_data self) <= rapport_level (session_data self') <= 1).
Proof.
  destruct (interview_loop_exchanges clock remaining self c)
    as (k & self' & c' & Hk & He & Hx).
  destruct (exchanges_effect clock k self self' Hx)
    as (Hn1 & Hn2 & Ha & (added & Hh & Hlen) & Hr & _).
  exists k, self', c', added. repeat split; try assumption; apply Hr; assumption.
Qed.

(** X14: [generate_next_question] moves the interview to the next topic of
    the text flow on every analyzed answer, whatever its quality; at
    "conclusion" and at any unknown topic the topic stays and the question
    is the final word of thanks.  It never lowers a rapport of at most 1 and
    never raises it above 1. *)
Theorem X14_next_question_always_advances (self : LiveTextInterviewer) (a : Analysis) :
  let topic := current_topic (session_data self) in
  let self' := fst (generate_next_question self a) in
  (forall i, index topic text_flow = Some i -> (i < 6)%nat ->
             text_flow !! S i = Some (current_topic (session_data self')))
  /\ (index topic text_flow = None \/ topic = "conclusion" ->
      current_topic (session_data self') = topic
      /\ snd (generate_next_question self a)
         = "Thank you so much for this conversation, " ++ self_founder_name self
           ++ "! This has been really insightful learning about " ++ self_startup_name self
           ++ ". We'll review everything and be in touch soon with next steps. I'm excited about what you're building!")
  /\ (rapport_level (session_data self) <= 1 ->
      rapport_level (session_data self) <= rapport_level (session_data self') <= 1).
Proof.
  cbn zeta. split; [| split; [| apply generate_next_question_rapport]].
  - intros i Hi Hlt. rewrite generate_next_question_topic. cbn zeta. rewrite Hi.
    destruct (lookup_lt_is_Some_2 text_flow (S i)) as [t Ht]; [cbn; lia |].
    rewrite Ht. reflexivity.
  - intros Hend.
    assert (Hnone : dict_get (current_topic (session_data self))
                      (topic_questions
                         (if PyNum.gtb (sentiment_score a) (7 # 10) then "That's fantastic! "
                          else if PyNum.gtb (sentiment_score a) (5 # 10)
                               then "That sounds great! " else "")
                         (self_founder_name self) (self_startup_name self)) = None).
    { unfold topic_questions. cbn [dict_get].
      destruct Hend as [Hend | ->]; [| reflexivity].
      unfold text_flow in Hend. cbn [index] in Hend.
      repeat (match type of Hend with
              | context [String.eqb ?k ?t] =>
                  destruct (String.eqb k t); [discriminate |]
              end).
      reflexivity. }
    unfold generate_next_question. cbv zeta. rewrite Hnone.
    destruct (PyNum.gtb (quality_score a) (7 # 10));
      try destruct (PyNum.gtb (quality_score a) (5 # 10)); split; reflexivity.
Qed.

Lemma X14_next_question_always_advances_witness :
  text_flow !! 2%nat
  = Some (current_topic
            (session_data
               (fst (generate_next_question Scenario.text_interviewer
                       (analyze_response "No."))))).
Proof.
  apply (proj1 (X14_next_question_always_advances Scenario.text_interviewer
                  (analyze_response "No.")) 1%nat).
  - reflexivity.
  - lia.
Defined.

(** X15: an interview run by [conduct_live_interview] on a fresh
    interviewer ends after [k] analyzed answers, with [k] at most six: the
    history then holds [2 k] entries, the summary counts [k] exchanges, the
    topic is the one at place [k] of the text flow (so "conclusion" is
    reached exactly when all six answers were analyzed), and the rapport lies
    between 0.5 and 1. *)
Theorem X15_fresh_interview_outcome
    (founder_name startup_name stamp iso : string) (ins : list Input)
    (clock : nat -> string) (seconds : nat) (date : string) :
  exists k self' c' summary,
    conduct_live_interview (init founder_name startup_name stamp iso) ins clock seconds date
    = (Left self' c', Some summary)
    /\ (k <= 6)%nat
    /\ length (conversation_history (session_data self')) = (2 * k)%nat
    /\ total_exchanges summary = k
    /\ text_flow !! k = Some (current_topic (session_data self'))
    /\ (current_topic (session_data self') = "conclusion" <-> k = 6%nat)
    /\ 1 # 2 <= rapport_level (session_data self') <= 1
    /\ final_rapport_level summary = rapport_level (session_data self')
    /\ summary_founder summary = founder_name /\ summary_startup summary = startup_name.
Proof.
  unfold conduct_live_interview. cbv zeta.
  set (self := init founder_name startup_name stamp iso).
  destruct (interview_loop_exchanges clock max_exchanges self
              (speak (opening_message (self_founder_name self) (self_startup_name self))
                     {| inputs := ins; spoken := [] |}))
    as (k & self' & c' & Hk & He & Hx).
  destruct (exchanges_effect clock k self self' Hx)
    as (Hn1 & Hn2 & _ & (added & Hh & Hlen) & Hr & Ht & _).
  cbn zeta in *. specialize (Ht 0%nat eq_refl). specialize (Hr ltac:(cbn; lra)).
  change max_exchanges with 6%nat in Hk.
  rewrite Nat.min_l in Ht by lia. cbn [Nat.add] in Ht.
  pose proof (index_lookup _ _ _ Ht) as Hl.
  assert (Hlen' : length (conversation_history (session_data self')) = (2 * k)%nat).
  { rewrite Hh. cbn. exact Hlen. }
  exists k, self', c', (print_interview_summary self' seconds date).
  rewrite He. split; [reflexivity |]. split; [exact Hk |]. split; [exact Hlen' |].
  split.
  { cbn [total_exchanges print_interview_summary]. rewrite Hlen'.
    rewrite Nat.mul_comm. apply Nat.div_mul. lia. }
  split; [exact Hl |]. split.
  { split.
    - intros Hc. rewrite Hc in Ht. cbn in Ht. congruence.
    - intros ->. cbn in Hl. congruence. }
  split; [exact Hr |]. split; [reflexivity |]. split; assumption.
Qed.

End TextInterviewRuns.

Section TextInterviewInsights.
Import PyStr LiveText LiveTextSteps.
Local Open Scope Q_scope.

Lemma dict_set_keys k v d :
  ((k ∈ keys d) /\ keys (dict_set k v d) = keys d)
  \/ ((k ∉ keys d) /\ keys (dict_set k v d) = (keys d ++ [k])%list).
Proof.
  unfold keys. induction d as [| [k' v'] d IH]; cbn.
  - right. split; [apply not_elem_of_nil | reflexivity].
  - destruct (String.eqb_spec k' k) as [-> | Hne].
    + left. split; [left | reflexivity].
    + destruct IH as [[Hin Heq] | [Hnin Heq]].
      * left. split; [right; exact Hin | cbn; rewrite Heq; reflexivity].
      * right. split; [| cbn; rewrite Heq; reflexivity].
        intros Hin. apply elem_of_cons in Hin as [-> | Hin]; [congruence | auto].
Qed.

Lemma dict_set_values k d :
  Forall (fun kv => snd kv = true) d ->
  Forall (fun kv => snd kv = true) (dict_set k true d).
Proof.
  induction 1 as [| [k' v'] d Hv Hd IH]; cbn.
  - repeat constructor.
  - destruct (String.eqb k' k); constructor; auto.
Qed.

Lemma dict_set_true_flags k d : true_flags d -> true_flags (dict_set k true d).
Proof.
  intros [Hv Hn]. split; [apply dict_set_values, Hv |].
  destruct (dict_set_keys k true d) as [[_ ->] | [Hnin ->]]; [exact Hn |].
  apply NoDup_app. split; [exact Hn |]. split; [| apply NoDup_singleton].
  intros x Hx Hk. apply list_elem_of_singleton in Hk as ->. auto.
Qed.

Lemma dict_set_length k v d : (length (dict_set k v d) <= S (length d))%nat.
Proof.
  induction d as [| [k' v'] d IH]; cbn; [lia |].
  destruct (String.eqb k' k); cbn; lia.
Qed.

Lemma dict_update_true_flags d e :
  true_flags d -> Forall (fun kv => snd kv = true) e ->
  true_flags (dict_update d e)
  /\ keys d `prefix_of` keys (dict_update d e)
  /\ (forall k, k ∈ keys (dict_update d e) <-> k ∈ keys d \/ k ∈ keys e).
Proof.
  unfold dict_update. revert d. induction e as [| [k v] e IH]; intros d Hd He; cbn [foldl].
  - split; [exact Hd |]. split; [reflexivity |]. intros k. cbn. split; [auto |].
    intros [H | H]; [exact H | inversion H].
  - inversion He as [| ? ? Hv He']; subst. cbn in Hv. subst v. cbn [fst snd].
    destruct (IH (dict_set k true d) (dict_set_true_flags k d Hd) He') as (H1 & H2 & H3).
    split; [exact H1 |]. split.
    + etransitivity; [| exact H2].
      destruct (dict_set_keys k true d) as [[_ ->] | [_ ->]];
        [reflexivity | apply prefix_app_r; reflexivity].
    + intros x. rewrite H3. cbn. rewrite elem_of_cons.
      destruct (dict_set_keys k true d) as [[Hin ->] | [_ ->]].
      * split; [intros [H | H]; auto | intros [H | [-> | H]]; auto].
      * rewrite elem_of_app, list_elem_of_singleton.
        split; [intros [[H | H] | H]; auto | intros [H | [H | H]]; auto].
Qed.

(** The insights of an analysis: built by [dict_set] from the empty
    dictionary, one key for each category with a keyword in the text. *)
Lemma analyze_response_insights r :
  true_flags (insights (analyze_response r))
  /\ (forall k, k ∈ keys (insights (analyze_response r)) ->
                k ∈ (fst <$> business_keywords))
  /\ (length (insights (analyze_response r)) <= length business_keywords)%nat.
Proof.
  unfold analyze_response. destruct (is_empty r); cbn [insights].
  { split; [split; constructor |]. split; [intros k H; inversion H | cbn; lia]. }
  generalize business_keywords. intros table.
  assert (Hgen : forall acc,
             true_flags acc ->
             let d := foldl (fun insights entry =>
                               if existsb (fun keyword => contains keyword (lower r))
                                          (snd entry)
                               then dict_set (fst entry) true insights else insights)
                            acc table in
             true_flags d
             /\ (forall k, k ∈ keys d -> k ∈ keys acc \/ k ∈ (fst <$> table))
             /\ (length d <= length acc + length table)%nat).
  { induction table as [| entry table IH]; intros acc Hacc; cbn zeta; cbn [foldl].
    - split; [exact Hacc |]. split; [auto | lia].
    - destruct (existsb _ (snd entry)).
      + destruct (IH (dict_set (fst entry) true acc) (dict_set_true_flags _ _ Hacc))
          as (H1 & H2 & H3).
        cbn zeta in *. split; [exact H1 |]. split.
        * intros k Hk. destruct (H2 k Hk) as [H | H]; [| right; right; exact H].
          destruct (dict_set_keys (fst entry) true acc) as [[_ Heq] | [_ Heq]];
            rewrite Heq in H; [left; exact H |].
          apply elem_of_app in H as [H | H]; [left; exact H |].
          apply list_elem_of_singleton in H as ->. right. left.
        * pose proof (dict_set_length (fst entry) true acc). cbn [length]. lia.
      + destruct (IH acc Hacc) as (H1 & H2 & H3). cbn zeta in *.
        split; [exact H1 |]. split.
        * intros k Hk. destruct (H2 k Hk) as [H | H]; [left | right; right]; exact H.
        * cbn [length]. lia. }
  assert (Hnil : true_flags []) by (split; constructor).
  destruct (Hgen [] Hnil) as (H1 & H2 & H3).
  cbn zeta in *. split; [exact H1 |]. split; [| exact H3].
  intros k Hk. destruct (H2 k Hk) as [H | H]; [inversion H | exact H].
Qed.

(** X16: the analysis of the text interview has a sentiment and a quality
    score between 0 and 1; it holds at most seven insight flags, all true,
    one for each category that has a keyword in the text; only the analysis
    of the empty text lacks a word count. *)
Theorem X16_text_analysis_in_range (response_text : string) :
  let a := analyze_response response_text in
  0 <= sentiment_score a <= 1
  /\ 0 <= quality_score a <= 1
  /\ (length (insights a) <= 7)%nat
  /\ Forall (fun kv => snd kv = true) (insights a)
  /\ NoDup (keys (insights a))
  /\ (forall k, k ∈ keys (insights a) -> k ∈ (fst <$> business_keywords))
  /\ (word_count a = None <-> response_text = "").
Proof.
  cbn zeta.
  destruct (analyze_response_insights response_text) as ([Hv Hn] & Hk & Hlen).
  assert (Hwc : word_count (analyze_response response_text) = None <-> response_text = "").
  { unfold analyze_response. destruct response_text; cbn; split; congruence. }
  assert (Hs : 0 <= sentiment_score (analyze_response response_text) <= 1).
  { unfold analyze_response. destruct (is_empty response_text); cbn [sentiment_score]; [lra |].
    exact (sentiment_of_bounds _ _). }
  split; [exact Hs |].
  split; [| split; [exact Hlen | split; [exact Hv | split; [exact Hn | split; [exact Hk | exact Hwc]]]]].
  revert Hs Hlen. unfold analyze_response.
  destruct (is_empty response_text); cbn [sentiment_score quality_score insights]; [lra |].
  set (ins := foldl _ [] business_keywords).
  set (sent := if (0 <? _)%nat then _ else _).
  intros Hs Hlen.
  pose proof (min1_le_1 (PyNum.of_nat (length (split response_text)) / 50)) as Hl1.
  assert (Hl0 : 0 <= PyNum.min1 (PyNum.of_nat (length (split response_text)) / 50)).
  { apply min1_nonneg. apply Qle_shift_div_l; [reflexivity |].
    pose proof (of_nat_nonneg (length (split response_text))). lra. }
  assert (Hsp : 0 <= PyNum.of_nat (length ins) / PyNum.of_nat (length business_keywords) <= 1).
  { apply Qdiv_unit_interval; [apply of_nat_pos; cbn; lia |].
    split; [apply of_nat_nonneg | apply of_nat_le, Hlen]. }
  lra.
Qed.

End TextInterviewInsights.

Section TextInterviewSummary.
Import PyStr LiveText LiveTextSteps.
Local Open Scope Q_scope.

Lemma exchanges_insights clock k self self' :
  exchanges clock k self self' ->
  true_flags (insights_gathered (session_data self)) ->
  true_flags (insights_gathered (session_data self'))
  /\ keys (insights_gathered (session_data self))
       `prefix_of` keys (insights_gathered (session_data self'))
  /\ (forall key, key ∈ keys (insights_gathered (session_data self')) ->
                  key ∈ keys (insights_gathered (session_data self))
                  \/ key ∈ (fst <$> business_keywords)).
Proof.
  induction 1 as [self | k self response self' Hne _ IH]; intros Hd.
  { split; [exact Hd |]. split; [reflexivity | auto]. }
  destruct (record_exchange_effect clock self response) as (_ & _ & _ & Hi & _).
  cbn zeta in Hi.
  destruct (analyze_response_insights response) as ([Hv Hn] & Hk & _).
  destruct (dict_update_true_flags _ _ Hd Hv) as (H1 & H2 & H3).
  rewrite <- Hi in H1, H2, H3.
  destruct (IH H1) as (IH1 & IH2 & IH3).
  split; [exact IH1 |]. split; [etransitivity; eassumption |].
  intros key Hkey. destruct (IH3 key Hkey) as [H | H]; [| right; exact H].
  apply H3 in H as [H | H]; [left; exact H | right; apply Hk, H].
Qed.

(** X17: the insights gathered by the text interview only grow: if all
    flags are true and no key repeats when the loop is entered, the same
    holds when it is left, the keys it started with are still there in the
    same order at the front, and every added key is one of the seven
    business categories. *)
Theorem X17_gathered_insights_only_grow
    (clock : nat -> string) (remaining : nat) (self : LiveTextInterviewer) (c : Console) :
  true_flags (insights_gathered (session_data self)) ->
  exists self' c',
    interview_loop clock remaining self c = Left self' c'
    /\ true_flags (insights_gathered (session_data self'))
    /\ keys (insights_gathered (session_data self))
         `prefix_of` keys (insights_gathered (session_data self'))
    /\ (forall key, key ∈ keys (insights_gathered (session_data self')) ->
                    key ∈ keys (insights_gathered (session_data self))
                    \/ key ∈ (fst <$> business_keywords)).
Proof.
  intros Hd.
  destruct (interview_loop_exchanges clock remaining self c)
    as (k & self' & c' & _ & He & Hx).
  exists self', c'. split; [exact He |]. apply (exchanges_insights clock k), Hd. exact Hx.
Qed.

Lemma X17_gathered_insights_only_grow_witness :
  exists self' c',
    interview_loop (fun _ => "2025-09-21T11:40:00") 2 Scenario.text_interviewer
      {| inputs := [Line "Our team raised funding from one investor."]; spoken := [] |}
    = Left self' c'
    /\ ["revenue"; "customers"; "growth"]
         `prefix_of` keys (insights_gathered (session_data self')).
Proof.
  destruct (X17_gathered_insights_only_grow (fun _ => "2025-09-21T11:40:00") 2
              Scenario.text_interviewer
              {| inputs := [Line "Our team raised funding from one investor."];
                 spoken := [] |})
    as (self' & c' & He & _ & Hp & _).
  - split; [repeat constructor |]. vm_compute.
    repeat (constructor; [rewrite ?elem_of_cons, elem_of_nil; intuition discriminate |]).
    constructor.
  - exists self', c'. split; [exact He | exact Hp].
Defined.

(** X18: in the summary the label "Limited Interest - Pass" is given, for
    a rapport of at least 0.5 (as every interview run from a fresh
    interviewer has), exactly when fewer than two business areas were
    detected; "High Interest" needs a rapport above 0.8 and five areas, and
    "Moderate Interest" a rapport above 0.6 and three areas. *)
Theorem X18_summary_recommendation
    (self : LiveTextInterviewer) (seconds : nat) (date : string) :
  let s := session_data self in
  let level := investment_interest_level (print_interview_summary self seconds date) in
  1 # 2 <= rapport_level s ->
  (level = "Limited Interest - Pass" <-> (length (insights_gathered s) < 2)%nat)
  /\ (level = "High Interest - Recommend Next Steps"
      <-> 8 # 10 < rapport_level s /\ (5 <= length (insights_gathered s))%nat)
  /\ (level = "Moderate Interest - Further Evaluation"
      <-> 6 # 10 < rapport_level s /\ (3 <= length (insights_gathered s))%nat
          /\ ~ (8 # 10 < rapport_level s /\ (5 <= length (insights_gathered s))%nat)).
Proof.
  cbn zeta. intros Hr. cbn [investment_interest_level print_interview_summary].
  unfold PyNum.gtb.
  destruct (PyNum.ltb (8 # 10) (rapport_level (session_data self))) eqn:H8;
    [apply ltb_true in H8 | apply ltb_false in H8];
    (destruct (PyNum.ltb (6 # 10) (rapport_level (session_data self))) eqn:H6;
     [apply ltb_true in H6 | apply ltb_false in H6]);
    (destruct (PyNum.ltb (rapport_level (session_data self)) (5 # 10)) eqn:H5;
     [apply ltb_true in H5 | apply ltb_false in H5]);
    try (exfalso; lra);
    destruct (Nat.leb_spec 5 (length (insights_gathered (session_data self))));
    destruct (Nat.leb_spec 3 (length (insights_gathered (session_data self))));
    destruct (Nat.ltb_spec (length (insights_gathered (session_data self))) 2);
    try lia; cbn [andb orb];
    repeat split; intros; try discriminate; try lia; try lra; try reflexivity;
    try (exfalso; lra);
    repeat match goal with
           | H : _ /\ _ |- _ => destruct H
           | H : ~ _ |- _ => exfalso; apply H; split; (lra || lia)
           end; try lia; try lra;
    try (intros [? ?]; lia).
Qed.

Lemma X18_summary_recommendation_witness :
  (1 # 2 <= rapport_level (session_data Scenario.text_interviewer))
  /\ (investment_interest_level
        (print_interview_summary Scenario.text_interviewer 275 "2025-09-21 11:40:00")
      = "Limited Interest - Pass"
      <-> (length (insights_gathered (session_data Scenario.text_interviewer)) < 2)%nat).
Proof.
  assert (H : 1 # 2 <= rapport_level (session_data Scenario.text_interviewer))
    by (vm_compute; discriminate).
  split; [exact H |].
  exact (proj1 (X18_summary_recommendation Scenario.text_interviewer 275
                  "2025-09-21 11:40:00" H)).
Defined.

End TextInterviewSummary.

(** * Further properties: working on a whole transcript *)

Section TranscriptAnalysis.
Import PyStr Transcript.
Local Open Scope Q_scope.

Lemma topic_coverage_entry_range transcript_lower topic :
  0 <= coverage_score (topic_coverage_entry transcript_lower topic) <= 1
  /\ (keywords_found (topic_coverage_entry transcript_lower topic) = [] ->
      assessment (topic_coverage_entry transcript_lower topic) = "minimal"
      /\ coverage_score (topic_coverage_entry transcript_lower topic) == 0).
Proof.
  unfold topic_coverage_entry. cbv zeta. cbn [coverage_score keywords_found assessment].
  set (kws := default [] (dict_get topic transcript_keywords)).
  set (n := count_if (fun keyword => contains keyword transcript_lower) kws).
  set (cov := match kws with [] => 0 | _ :: _ => _ end).
  assert (Hcov : 0 <= cov <= 1).
  { subst cov. destruct kws as [| k kws']; [lra |].
    split; [| apply min1_le_1]. apply min1_nonneg.
    apply Qle_shift_div_l; [apply of_nat_pos; cbn; lia |].
    pose proof (of_nat_nonneg n). lra. }
  split; [split; [apply round_nonneg | apply round2_le_1]; apply Hcov |].
  intros Hnone.
  assert (Hn : n = 0%nat).
  { subst n. unfold count_if.
    change (fun x : string => contains x transcript_lower = true)
      with (fun kw : string => contains kw transcript_lower = true).
    rewrite Hnone. reflexivity. }
  assert (Hz : cov == 0).
  { subst cov. destruct kws as [| k kws']; [reflexivity |]. rewrite Hn.
    destruct (min1_cases (PyNum.of_nat 0 / PyNum.of_nat (length (k :: kws'))))
      as [[_ ->] | [Hgt _]].
    - unfold Qdiv. change (PyNum.of_nat 0) with 0. lra.
    - exfalso. unfold Qdiv in Hgt. change (PyNum.of_nat 0) with 0 in Hgt. lra. }
  split.
  - unfold PyNum.gtb.
    destruct (PyNum.ltb (7 # 10) cov) eqn:H7; [apply ltb_true in H7; lra |].
    destruct (PyNum.ltb (3 # 10) cov) eqn:H3; [apply ltb_true in H3; lra |].
    reflexivity.
  - apply Qle_antisym; [| apply round_nonneg; lra].
    apply Qle_trans with (PyNum.round 0 2); [apply round_mono; lra | vm_compute; discriminate].
Qed.

(** X19: [analyze_interview_responses] refuses exactly the transcripts
    that are empty once stripped of white space, with the message "No
    transcript content to analyze"; every other transcript is analyzed. *)
Theorem X19_blank_transcript_refused (transcript : string) :
  match analyze_interview_responses transcript with
  | Err message => message = "No transcript content to analyze" /\ strip transcript = ""
  | Ok a => strip transcript <> "" /\ word_count a = length (split transcript)
  end.
Proof.
  unfold analyze_interview_responses.
  destruct transcript as [| c t]; [split; reflexivity |]. cbn [is_empty orb].
  destruct (strip (String c t)) eqn:Hs; cbn [is_empty]; [split; reflexivity |].
  split; [discriminate | reflexivity].
Qed.

(** X20: in an analysis of a transcript the sentiment lies between -1 and
    1, the confidence is 0.8, every topic coverage, the overall coverage and
    the interview quality lie between 0 and 1, the coverage lists the eight
    topics of the question table in their order, a topic none of whose
    keywords occurs is assessed "minimal" with coverage 0, and at most eight
    questions count as addressed. *)
Theorem X20_transcript_analysis_in_range (transcript : string) (a : Analysis) :
  analyze_interview_responses transcript = Ok a ->
  -1 <= sentiment_score a <= 1
  /\ 0 <= overall_coverage_score a <= 1
  /\ 0 <= interview_quality_score a <= 1
  /\ fst <$> topic_coverage a = fst <$> VoiceAgent.interview_questions
  /\ Forall (fun entry =>
               0 <= coverage_score (snd entry) <= 1
               /\ (keywords_found (snd entry) = [] ->
                   assessment (snd entry) = "minimal" /\ coverage_score (snd entry) == 0))
            (topic_coverage a)
  /\ (questions_addressed a <= 8)%nat
  /\ confidence_score a = 8 # 10.
Proof.
  unfold analyze_interview_responses.
  destruct (is_empty transcript || is_empty (strip transcript)); [discriminate |].
  intros [= <-].
  cbn [sentiment_score overall_coverage_score interview_quality_score topic_coverage
       questions_addressed confidence_score].
  set (tc := (fun entry => (fst entry, topic_coverage_entry (lower transcript) (fst entry)))
               <$> VoiceAgent.interview_questions).
  assert (Htc : Forall (fun entry =>
                          0 <= coverage_score (snd entry) <= 1
                          /\ (keywords_found (snd entry) = [] ->
                              assessment (snd entry) = "minimal"
                              /\ coverage_score (snd entry) == 0)) tc).
  { subst tc. apply Forall_fmap, Forall_forall. intros entry _. cbn.
    apply topic_coverage_entry_range. }
  assert (Hlen : length tc = 8%nat) by reflexivity.
  assert (Havg : 0 <= PyNum.sum ((fun entry => coverage_score (snd entry)) <$> tc)
                      / PyNum.of_nat (length tc) <= 1).
  { apply Qdiv_unit_interval; [apply of_nat_pos; lia |].
    rewrite <- (length_fmap (fun entry => coverage_score (snd entry)) tc).
    apply sum_unit_interval, Forall_fmap. eapply Forall_impl; [exact Htc |].
    intros entry [H _]. exact H. }
  set (p := count_if _ positive_indicators).
  set (n := count_if _ negative_indicators).
  split.
  { assert (Hs : -1 <= (if (0 <? p + n)%nat
                        then (PyNum.of_nat p - PyNum.of_nat n) / PyNum.of_nat (p + n)
                        else 0) <= 1).
    { destruct (Nat.ltb_spec 0 (p + n)); [| lra].
      pose proof (of_nat_pos (p + n) ltac:(lia)) as Hpos.
      pose proof (of_nat_nonneg p). pose proof (of_nat_nonneg n).
      assert (Hsum : PyNum.of_nat (p + n) == PyNum.of_nat p + PyNum.of_nat n).
      { unfold PyNum.of_nat. rewrite Nat2Z.inj_add, inject_Z_plus. reflexivity. }
      split.
      - apply Qle_shift_div_l; [exact Hpos | lra].
      - apply Qle_shift_div_r; [exact Hpos | lra]. }
    split.
    - apply Qle_trans with (PyNum.round (-1) 2); [vm_compute; discriminate |].
      apply round_mono, Hs.
    - apply round2_le_1, Hs. }
  split; [split; [apply round_nonneg | apply round2_le_1]; apply Havg |].
  split.
  { set (avg := PyNum.sum ((fun entry => coverage_score (snd entry)) <$> tc)
                / PyNum.of_nat (length tc)) in *.
    split; [apply round_nonneg, min1_nonneg | apply round2_le_1, min1_le_1].
    destruct Havg as [Havg _]. apply Qmult_le_0_compat; [exact Havg | discriminate]. }
  split; [reflexivity |].
  split; [exact Htc |].
  split; [| reflexivity].
  rewrite <- Hlen. apply count_if_le_length.
Qed.

Lemma X20_transcript_analysis_in_range_witness :
  exists a,
    analyze_interview_responses Scenario.rich = Ok a
    /\ -1 <= sentiment_score a <= 1 /\ (questions_addressed a <= 8)%nat.
Proof.
  destruct (analyze_interview_responses Scenario.rich) as [a | m] eqn:Ha;
    [| vm_compute in Ha; discriminate].
  exists a. split; [reflexivity |].
  destruct (X20_transcript_analysis_in_range Scenario.rich a Ha) as (Hs & _ & _ & _ & _ & Hq & _).
  split; assumption.
Defined.

End TranscriptAnalysis.

Section TranscriptTopics.
Import PyStr Transcript.
Local Open Scope Q_scope.

Lemma key_topics_fold (transcript_lower : string) (table : list (string * list string)) :
  let topics :=
    foldr (fun entry topics_discussed =>
             let mentions :=
               count_if (fun keyword => contains keyword transcript_lower) (snd entry) in
             if (0 <? mentions)%nat
             then (fst entry,
                   {| mentions := mentions;
                      relevance_score :=
                        PyNum.min1 (PyNum.of_nat mentions / PyNum.of_nat (length (snd entry))) |})
                    :: topics_discussed
             else topics_discussed)
          [] table in
  Forall (recorded_from table transcript_lower) topics
  /\ sublist (fst <$> topics) (fst <$> table).
Proof.
  cbn zeta. induction table as [| [topic kws] table [IH1 IH2]]; cbn [foldr fst snd].
  { split; constructor. }
  set (rest := foldr _ [] table) in *.
  assert (IH1' : Forall (recorded_from ((topic, kws) :: table) transcript_lower) rest).
  { eapply Forall_impl; [exact IH1 |]. intros entry (keywords & Hin & H).
    exists keywords. split; [right; exact Hin | exact H]. }
  set (n := count_if (fun keyword => contains keyword transcript_lower) kws).
  destruct (Nat.ltb_spec 0 n) as [Hn | Hn].
  - split; [| cbn; apply sublist_skip, IH2].
    constructor; [| exact IH1']. exists kws. cbn [fst snd mentions relevance_score].
    pose proof (count_if_le_length (fun keyword => contains keyword transcript_lower) kws)
      as Hle. fold n in Hle.
    assert (Hlen : 0 < PyNum.of_nat (length kws)) by (apply of_nat_pos; lia).
    assert (Hq : 0 < PyNum.of_nat n / PyNum.of_nat (length kws) <= 1).
    { split.
      - apply Qlt_shift_div_l; [exact Hlen |]. rewrite Qmult_0_l. apply of_nat_pos, Hn.
      - apply Qle_shift_div_r; [exact Hlen |]. rewrite Qmult_1_l. apply of_nat_le, Hle. }
    destruct (min1_cases (PyNum.of_nat n / PyNum.of_nat (length kws)))
      as [[_ Hm] | [Hgt _]]; [| lra].
    rewrite Hm. split; [left |]. split; [reflexivity |]. split; [lia |].
    split; [reflexivity | exact Hq].
  - split; [exact IH1' | cbn; apply sublist_cons, IH2].
Qed.

(** X21: [extract_key_topics] refuses the empty transcript only.  The
    topics it returns are topics of its table, in the table's order, each with
    at least one mention; the relevance of a topic is the number of its
    keywords that occur divided by the number of its keywords (the clamp to 1
    never applies), so it is positive and at most 1. *)
Theorem X21_key_topics (transcript : string) :
  match extract_key_topics transcript with
  | Err message => message = "No transcript provided" /\ transcript = ""
  | Ok topics =>
      transcript <> ""
      /\ Forall (topic_entry_ok (lower transcript)) topics
      /\ sublist (fst <$> topics) (fst <$> key_topic_keywords)
  end.
Proof.
  unfold extract_key_topics. destruct transcript as [| c t]; [split; reflexivity |].
  cbn [is_empty]. split; [discriminate |].
  exact (key_topics_fold (lower (String c t)) key_topic_keywords).
Qed.

Lemma lstrip_empty_or_text s :
  lstrip s = "" \/ exists c r, lstrip s = String c r /\ is_space c = false.
Proof.
  induction s as [| a s IH]; [left; reflexivity |]. cbn.
  destruct (is_space a) eqn:Ha; [exact IH |]. right. eauto.
Qed.

Lemma strip_empty_lstrip s : strip s = "" -> lstrip s = "".
Proof.
  unfold strip. destruct (lstrip_empty_or_text s) as [-> | (c & r & -> & Hc)]; [reflexivity |].
  cbn. rewrite Hc, andb_false_r. discriminate.
Qed.

Lemma is_space_lower_char a : is_space a = true -> lower_char a = a.
Proof.
  unfold lower_char, is_upper, is_space. cbv zeta. intros H.
  destruct ((65 <=? nat_of_ascii a)%nat && (nat_of_ascii a <=? 90)%nat) eqn:Hu;
    [| reflexivity].
  exfalso. apply andb_true_iff in Hu as [H1 H2].
  apply Nat.leb_le in H1, H2.
  apply orb_true_iff in H as [H | H]; apply andb_true_iff in H as [H3 H4];
    apply Nat.leb_le in H3, H4; lia.
Qed.

(** No word that starts with text occurs in a string of white space. *)
Lemma contains_white_space word s :
  lstrip s = "" -> starts_with_text word = true -> contains word (lower s) = false.
Proof.
  intros Hs Hw. destruct word as [| c rest]; [discriminate |]. cbn in Hw.
  apply negb_true_iff in Hw.
  induction s as [| a s IH]; [reflexivity |].
  cbn in Hs. destruct (is_space a) eqn:Ha; [| discriminate].
  cbn [lower contains]. rewrite (is_space_lower_char a Ha), (IH Hs), orb_false_r.
  cbn [String.prefix]. destruct (ascii_dec c a) as [-> | _]; [congruence | reflexivity].
Qed.

(** X22: a transcript of white space only is treated differently by the
    two functions: [analyze_interview_responses] refuses it, while
    [extract_key_topics], which only tests for the empty string, accepts it
    and reports no topic. *)
Theorem X22_white_space_transcript (transcript : string) :
  transcript <> "" -> strip transcript = "" ->
  analyze_interview_responses transcript = Err "No transcript content to analyze"
  /\ extract_key_topics transcript = Ok [].
Proof.
  intros Hne Hs. split.
  - unfold analyze_interview_responses. rewrite Hs, orb_true_r. reflexivity.
  - unfold extract_key_topics. destruct transcript as [| c t]; [congruence |].
    cbn [is_empty]. f_equal.
    pose proof (strip_empty_lstrip _ Hs) as Hl.
    assert (Htable : Forall (fun entry => Forall (fun w => starts_with_text w = true)
                                                 (snd entry)) key_topic_keywords).
    { repeat constructor. }
    revert Htable. generalize key_topic_keywords. intros table Htable.
    induction Htable as [| entry table He _ IH]; [reflexivity |].
    cbn [foldr]. rewrite IH.
    assert (Hz : count_if (fun keyword => contains keyword (lower (String c t))) (snd entry)
                 = 0%nat).
    { unfold count_if. induction He as [| w ws Hw _ IHw]; [reflexivity |].
      rewrite filter_cons_False; [exact IHw |].
      rewrite (contains_white_space w _ Hl Hw). discriminate. }
    rewrite Hz. reflexivity.
Qed.

Lemma X22_white_space_transcript_witness :
  analyze_interview_responses "   " = Err "No transcript content to analyze"
  /\ extract_key_topics "   " = Ok [].
Proof.
  apply X22_white_space_transcript; [discriminate | reflexivity].
Defined.

End TranscriptTopics.


Section TranscriptScript.
Import PyStr Transcript.

Lemma sector_questions_cases sector :
  sector_questions sector = []
  \/ exists key questions,
       sector_questions sector = [(key, Plain questions)] /\ length questions = 3%nat.
Proof.
  unfold sector_questions.
  destruct (contains "fintech" sector); [right; eexists _, _; split; reflexivity |].
  destruct (contains "healthtech" sector || contains "health" sector);
    [right; eexists _, _; split; reflexivity |].
  destruct (contains "saas" sector || contains "software" sector);
    [right; eexists _, _; split; reflexivity | left; reflexivity].
Qed.

Lemma stage_questions_cases stage :
  stage_questions stage = []
  \/ exists key questions,
       stage_questions stage = [(key, Plain questions)] /\ length questions = 3%nat.
Proof.
  unfold stage_questions.
  destruct (contains "pre-seed" stage); [right; eexists _, _; split; reflexivity |].
  destruct (contains "series a" stage);
    [right; eexists _, _; split; reflexivity | left; reflexivity].
Qed.

Lemma sum_len_app d1 d2 : sum_len (d1 ++ d2) = (sum_len d1 + sum_len d2)%nat.
Proof.
  unfold sum_len. induction d1 as [| e d1 IH]; cbn [foldr app]; [reflexivity |].
  rewrite IH. lia.
Qed.

(** The customized dictionary is the base dictionary followed by at most two
    added categories of three questions each. *)
Lemma customized_questions_shape (startup_data : option StartupData) :
  exists base added,
    customized_questions startup_data = (base ++ added)%list
    /\ base = (fun entry => (fst entry, Banks (fst (snd entry)) (snd (snd entry))))
                <$> VoiceAgent.interview_questions
    /\ (length added <= 2)%nat
    /\ sum_len added = (3 * length added)%nat
    /\ (startup_data = None -> added = []).
Proof.
  destruct startup_data as [data |]; cbn [customized_questions].
  - eexists _, _. split; [reflexivity |]. split; [reflexivity |].
    destruct (sector_questions_cases (lower (default "" (sector data))))
      as [-> | (k1 & q1 & -> & Hq1)];
      destruct (stage_questions_cases (lower (default "" (stage data))))
        as [-> | (k2 & q2 & -> & Hq2)];
      cbn [app length sum_len foldr snd questions_len]; rewrite ?Hq1, ?Hq2;
      (split; [lia |]); (split; [lia |]); intros H; discriminate H.
  - eexists _, []. rewrite app_nil_r. split; [reflexivity |]. split; [reflexivity |].
    cbn. repeat split; lia.
Qed.

(** X23: the interview script has one entry for each category, the eight
    topics of the question table first, then at most one category for the
    sector and at most one for the stage, so between 8 and 10 categories.
    Its "total_questions" counts 2 for each of the eight topics (the number
    of banks of its dictionary, not of its questions) and 3 for each added
    category; without startup data it is 16, while [get_interview_questions]
    counts 32 primary questions. *)
Theorem X23_interview_script (startup_data : option StartupData) :
  let script := generate_interview_questions_prompt startup_data in
  length (interview_script script) = total_categories script
  /\ (8 <= total_categories script <= 10)%nat
  /\ script_total_questions script = (16 + 3 * (total_categories script - 8))%nat
  /\ take 8 (category <$> interview_script script)
     = ["Business Model"; "Market Opportunity"; "Traction Metrics"; "Team Execution";
        "Financial Planning"; "Product Development"; "Risks Challenges"; "Vision Strategy"]
  /\ take 8 (estimated_time <$> interview_script script) = replicate 8 "4-6 minutes"
  /\ match startup_data with
     | None => total_categories script = 8%nat /\ script_total_questions script = 16%nat
     | Some _ => True
     end
  /\ total_questions = 32%nat.
Proof.
  cbv zeta. unfold generate_interview_questions_prompt. cbv zeta.
  cbn [interview_script total_categories script_total_questions].
  destruct (customized_questions_shape startup_data)
    as (base & added & -> & Hbase & Hlen & Hsum & Hnone).
  assert (Hb : length base = 8%nat) by (subst base; reflexivity).
  assert (Hs : sum_len base = 16%nat) by (subst base; reflexivity).
  rewrite length_fmap, length_app, sum_len_app, Hb, Hs, Hsum.
  split; [reflexivity |]. split; [lia |]. split; [lia |].
  rewrite <- !list_fmap_compose, !fmap_app.
  rewrite !take_app_le by (rewrite length_fmap, Hb; lia).
  split; [subst base; reflexivity |]. split; [subst base; reflexivity |].
  split; [| reflexivity].
  destruct startup_data; [exact I |].
  rewrite (Hnone eq_refl). split; reflexivity.
Qed.

End TranscriptScript.
